(** * aipply: profile store, schema migration, tailoring stages, PDF text

    A shallow embedding of the parts of the repository that its
    specification makes claims about:

    - [profile_memory.py]   (class ProfileMemory: load, save, the two
      dialect migrations, the note ledger),
    - [pdf_text_extractor.py] (the three extraction strategies and their
      chaining),
    - [generate_resume.py]  (title extraction, the three tailoring stages,
      the file name).

    Python values are modelled by the values [json.load] can produce;
    dictionaries are finite maps, so that equality of documents is
    Python's [==] on dictionaries (insensitive to insertion order).
    Exceptions are an explicit result type; the backing file is an
    explicit store threaded through the operations that touch it, and a
    write that fails part-way leaves the file with what was written. *)

From Stdlib Require Import ZArith List String Ascii Lia.
From stdpp Require Import gmap strings list fin_maps.

Set Warnings "-register-all".
#[local] Open Scope Z_scope.

(** ** Python strings *)

Module Py.

(** A Python [str] is a sequence of Unicode code points. *)
Definition pychar := N.
Definition pystr := list N.

(** Source literals are UTF-8 text; [utf8] decodes the bytes of a literal
    into the code points Python sees. *)
Fixpoint utf8_decode (bs : list N) : pystr :=
  match bs with
  | [] => []
  | b :: r =>
      if (b <? 128)%N then b :: utf8_decode r
      else if (b <? 224)%N then
        match r with
        | c1 :: r1 => ((b mod 32) * 64 + c1 mod 64)%N :: utf8_decode r1
        | _ => []
        end
      else if (b <? 240)%N then
        match r with
        | c1 :: c2 :: r2 =>
            ((b mod 16) * 4096 + (c1 mod 64) * 64 + c2 mod 64)%N
              :: utf8_decode r2
        | _ => []
        end
      else
        match r with
        | c1 :: c2 :: c3 :: r3 =>
            ((b mod 8) * 262144 + (c1 mod 64) * 4096
             + (c2 mod 64) * 64 + c3 mod 64)%N :: utf8_decode r3
        | _ => []
        end
  end.

Definition utf8 (s : string) : pystr :=
  utf8_decode (List.map N_of_ascii (list_ascii_of_string s)).
Arguments utf8 : simpl never.

Definition chr_newline : pychar := 10%N.
Definition chr_space : pychar := 32%N.
Definition chr_underscore : pychar := 95%N.
Definition chr_lbracket : pychar := 91%N.
Definition chr_rbracket : pychar := 93%N.
Definition chr_dquote : pychar := 34%N.

(** [str.isspace] on one character: the code points [str.strip()]
    removes. *)
Definition py_isspace (c : pychar) : bool :=
  ((9 <=? c) && (c <=? 13) || (28 <=? c) && (c <=? 32)
   || (c =? 133) || (c =? 160) || (c =? 5760)
   || (8192 <=? c) && (c <=? 8202)
   || (c =? 8232) || (c =? 8233) || (c =? 8239) || (c =? 8287)
   || (c =? 12288))%N.

Fixpoint lstrip (s : pystr) : pystr :=
  match s with
  | [] => []
  | c :: r => if py_isspace c then lstrip r else s
  end.

Definition rstrip (s : pystr) : pystr := rev (lstrip (rev s)).

(** [s.strip()] *)
Definition strip (s : pystr) : pystr := rstrip (lstrip s).

(** [s.replace(old, new)] for one-character [old] and [new]. *)
Definition replace_char (old new : pychar) (s : pystr) : pystr :=
  List.map (fun c => if (c =? old)%N then new else c) s.

(** [s[:n]] for a non-negative constant [n]. *)
Definition slice_to (n : nat) (s : pystr) : pystr := firstn n s.

(** [s[start:end]] for [0 <= start]. *)
Definition slice (s : pystr) (start stop : Z) : pystr :=
  firstn (Z.to_nat (stop - start)) (skipn (Z.to_nat start) s).

Fixpoint is_prefix (p s : pystr) : bool :=
  match p, s with
  | [], _ => true
  | _ :: _, [] => false
  | a :: p', b :: s' => (a =? b)%N && is_prefix p' s'
  end.

(** [needle in hay] on two strings. *)
Fixpoint str_contains (needle hay : pystr) : bool :=
  is_prefix needle hay
  || match hay with
     | [] => false
     | _ :: hay' => str_contains needle hay'
     end.

Fixpoint find_from (c : pychar) (s : pystr) (i : Z) : Z :=
  match s with
  | [] => -1
  | x :: r => if (x =? c)%N then i else find_from c r (i + 1)
  end.

(** [s.find(c)] for a one-character [c]: the least index, or -1. *)
Definition find (c : pychar) (s : pystr) : Z := find_from c s 0.

Fixpoint rfind_from (c : pychar) (s : pystr) (i : Z) (best : Z) : Z :=
  match s with
  | [] => best
  | x :: r => rfind_from c r (i + 1) (if (x =? c)%N then i else best)
  end.

(** [s.rfind(c)] for a one-character [c]: the greatest index, or -1. *)
Definition rfind (c : pychar) (s : pystr) : Z := rfind_from c s 0 (-1).

(** The part of an answer that is given to the JSON parser: from the
    first [open] to the last [close], both included, when there is an
    [open] and the last [close] is not before it; the whole answer
    otherwise. *)
Definition between (open close : pychar) (response : pystr) : pystr :=
  let start := find open response in
  let stop := rfind close response + 1 in
  if negb (start =? -1) && (stop >? start)
  then slice response start stop
  else response.

(** The character class of the pattern given to [re.sub]: the nine
    characters less-than, greater-than, colon, double quote, slash,
    backslash, vertical bar, question mark and asterisk. *)
Definition forbidden_chars : list pychar :=
  [60; 62; 58; 34; 47; 92; 124; 63; 42]%N.

Definition is_forbidden (c : pychar) : bool :=
  existsb (N.eqb c) forbidden_chars.

(** [re.sub(pattern, '', s)] for that class: every character of the class
    is deleted, the others are kept in order. *)
Definition re_sub_forbidden (s : pystr) : pystr :=
  List.filter (fun c => negb (is_forbidden c)) s.

(** ** Values and exceptions *)

(** The values [json.load] returns.  Numbers are integers: no claim
    looks at a number. *)
Inductive json :=
| JNull
| JBool (b : bool)
| JNum (z : Z)
| JStr (s : pystr)
| JArr (l : list json)
| JObj (m : gmap pystr json).

(** The exceptions that occur.  All are subclasses of [Exception], so an
    [except Exception] clause catches each of them. *)
Inductive exn :=
| FileNotFoundError (msg : pystr)
| JSONDecodeError
| KeyError (key : pystr)
| TypeError
| AttributeError
| ImportError
| RequestException (detail : pystr)
| UnicodeEncodeError.

Inductive result (A : Type) :=
| Ok (a : A)
| Raise (e : exn).
Arguments Ok {A} a.
Arguments Raise {A} e.

#[global] Instance result_ret : MRet result := fun _ a => Ok a.
#[global] Instance result_bind : MBind result :=
  fun _ _ f r => match r with Ok a => f a | Raise e => Raise e end.

(** [try: body  except Exception: handler] *)
Definition try_except {A} (body : result A) (handler : exn -> result A)
  : result A :=
  match body with
  | Ok a => Ok a
  | Raise e => handler e
  end.

Fixpoint for_each {A B} (f : A -> result B) (l : list A) : result (list B) :=
  match l with
  | [] => Ok []
  | x :: r => y ← f x; ys ← for_each f r; Ok (y :: ys)
  end.

(** Truth value of a string and of an optional string. *)
Definition truthy (s : pystr) : bool :=
  match s with [] => false | _ => true end.

Definition truthy_opt (o : option pystr) : bool :=
  match o with Some s => truthy s | None => false end.

(** [x or ''] where [x] is a string or [None]. *)
Definition or_empty (o : option pystr) : pystr :=
  match o with Some s => if truthy s then s else [] | None => [] end.

(** [k in data] for a string [k]: key membership on a dictionary,
    element membership on a list, substring test on a string; the other
    values are not containers. *)
Definition py_in (k : pystr) (data : json) : result bool :=
  match data with
  | JObj m => Ok (match m !! k with Some _ => true | None => false end)
  | JArr l =>
      Ok (existsb (fun x => match x with
                            | JStr s => bool_decide (s = k)
                            | _ => false
                            end) l)
  | JStr s => Ok (str_contains k s)
  | _ => Raise TypeError
  end.

(** [any(k in data for k in ks)]: stops at the first hit. *)
Fixpoint any_in (ks : list pystr) (data : json) : result bool :=
  match ks with
  | [] => Ok false
  | k :: ks' =>
      b ← py_in k data;
      if (b : bool) then Ok true else any_in ks' data
  end.

(** [o.get(k, default)]: only dictionaries have a [get] method. *)
Definition py_get (o : json) (k : pystr) (default : json) : result json :=
  match o with
  | JObj m => Ok (match m !! k with Some v => v | None => default end)
  | _ => Raise AttributeError
  end.

(** [o[k]] for a string [k]. *)
Definition py_getitem (o : json) (k : pystr) : result json :=
  match o with
  | JObj m => match m !! k with Some v => Ok v | None => Raise (KeyError k) end
  | _ => Raise TypeError
  end.

(** [o[k] = v] for a string [k]. *)
Definition py_setitem (o : json) (k : pystr) (v : json) : result json :=
  match o with
  | JObj m => Ok (JObj (<[k := v]> m))
  | _ => Raise TypeError
  end.

(** The elements a [for] loop over the value visits: the items of a list,
    the characters of a string, the keys of a dictionary.  A finite map
    does not record the order in which its keys were inserted, which is
    the order Python visits them in: the keys come in the order of the
    map, and the loops modelled with [py_iter] do not depend on it (they
    raise at the first key, whichever it is). *)
Definition py_iter (o : json) : result (list json) :=
  match o with
  | JArr l => Ok l
  | JStr s => Ok (List.map (fun c => JStr [c]) s)
  | JObj m => Ok (List.map (fun kv => JStr (fst kv)) (map_to_list m))
  | _ => Raise TypeError
  end.

(** [o[:n]] *)
Definition py_slice_to (n : nat) (o : json) : result json :=
  match o with
  | JArr l => Ok (JArr (firstn n l))
  | JStr s => Ok (JStr (slice_to n s))
  | _ => Raise TypeError
  end.

(** A dictionary display [{k1: v1, ..., kn: vn}]. *)
Definition dict (kvs : list (pystr * json)) : json :=
  JObj (list_to_map kvs).

(** The code points U+D800 to U+DFFF.  A Python [str] can hold one on
    its own ([json.load] reads the escape [\ud800] as such), and UTF-8
    has no encoding for it. *)
Definition is_surrogate (c : pychar) : bool :=
  ((55296 <=? c) && (c <=? 57343))%N.

(** [s.encode('utf-8')] does not raise. *)
Definition str_encodable (s : pystr) : bool :=
  forallb (fun c => negb (is_surrogate c)) s.

(** Every string of the value, keys included, can be encoded: writing
    the value as JSON text with [ensure_ascii=False] to a file opened
    with [encoding='utf-8'] raises [UnicodeEncodeError] otherwise. *)
Fixpoint encodable (v : json) : bool :=
  match v with
  | JStr s => str_encodable s
  | JArr l => forallb encodable l
  | JObj m =>
      map_fold (fun k x acc => str_encodable k && encodable x && acc) true m
  | _ => true
  end.

End Py.
Import Py.

(** ** profile_memory.py *)

Module profile_memory.

(** *** The dialect migrations (pure) *)

(** The loop body of [_migrate_french_to_english]: one experience. *)
Definition french_experience (exp : json) : result json :=
  company ← py_get exp (utf8 "entreprise") JNull;
  location ← py_get exp (utf8 "lieu") JNull;
  role ← py_get exp (utf8 "poste") JNull;
  dates ← py_get exp (utf8 "dates") JNull;
  missions ← py_get exp (utf8 "missions") (JArr []);
  Ok (dict [(utf8 "company", company); (utf8 "location", location);
            (utf8 "role", role); (utf8 "dates", dates);
            (utf8 "missions", missions)]).

Definition _migrate_french_to_english (fr : json) : result json :=
  identity ← py_get fr (utf8 "identite") (dict []);
  experiences_fr ← py_get fr (utf8 "experiences") (JArr []);
  competences_fr ← py_get fr (utf8 "competences") (dict []);
  interests ← py_get fr (utf8 "centres_interet") JNull;
  exps ← py_iter experiences_fr;
  experiences_en ← for_each french_experience exps;
  name ← py_get identity (utf8 "nom") JNull;
  title ← py_get identity (utf8 "titre") JNull;
  long_profile ← py_get fr (utf8 "profil_long") JNull;
  technical ← py_get competences_fr (utf8 "techniques") (JArr []);
  methodological ← py_get competences_fr (utf8 "methodologiques") (JArr []);
  education ← py_get fr (utf8 "formation") JNull;
  languages ← py_get fr (utf8 "langues") (JArr []);
  memory_notes ← py_get fr (utf8 "memory_notes") (dict []);
  Ok (dict [
    (utf8 "identity", dict [(utf8 "name", name); (utf8 "title", title)]);
    (utf8 "long_profile", long_profile);
    (utf8 "experiences", JArr experiences_en);
    (utf8 "skills", dict [(utf8 "technical", technical);
                          (utf8 "methodological", methodological)]);
    (utf8 "education", education);
    (utf8 "languages", languages);
    (utf8 "interests",
       match interests with JNull => JArr [] | _ => interests end);
    (utf8 "memory_notes", memory_notes)]).

(** The loop body of [_migrate_spanish_to_english]. *)
Definition spanish_experience (exp : json) : result json :=
  company ← py_get exp (utf8 "empresa") JNull;
  location ← py_get exp (utf8 "lugar") JNull;
  role ← py_get exp (utf8 "puesto") JNull;
  dates ← py_get exp (utf8 "fechas") JNull;
  missions ← py_get exp (utf8 "misiones") (JArr []);
  Ok (dict [(utf8 "company", company); (utf8 "location", location);
            (utf8 "role", role); (utf8 "dates", dates);
            (utf8 "missions", missions)]).

Definition _migrate_spanish_to_english (es : json) : result json :=
  identidad ← py_get es (utf8 "identidad") (dict []);
  experiencias_es ← py_get es (utf8 "experiencias") (JArr []);
  competencias_es ← py_get es (utf8 "competencias") (dict []);
  intereses ← py_get es (utf8 "intereses") JNull;
  exps ← py_iter experiencias_es;
  experiencias_en ← for_each spanish_experience exps;
  name ← py_get identidad (utf8 "nombre") JNull;
  title ← py_get identidad (utf8 "titulo") JNull;
  long_profile ← py_get es (utf8 "perfil_largo") JNull;
  technical ← py_get competencias_es (utf8 "tecnicas") (JArr []);
  methodological ← py_get competencias_es (utf8 "metodologicas") (JArr []);
  education ← py_get es (utf8 "formacion") JNull;
  languages ← py_get es (utf8 "idiomas") (JArr []);
  memory_notes ← py_get es (utf8 "memory_notes") (dict []);
  Ok (dict [
    (utf8 "identity", dict [(utf8 "name", name); (utf8 "title", title)]);
    (utf8 "long_profile", long_profile);
    (utf8 "experiences", JArr experiencias_en);
    (utf8 "skills", dict [(utf8 "technical", technical);
                          (utf8 "methodological", methodological)]);
    (utf8 "education", education);
    (utf8 "languages", languages);
    (utf8 "interests",
       match intereses with JNull => JArr [] | _ => intereses end);
    (utf8 "memory_notes", memory_notes)]).

Definition french_sentinels : list pystr :=
  [utf8 "identite"; utf8 "profil_long"; utf8 "competences"].

Definition spanish_sentinels : list pystr :=
  [utf8 "identidad"; utf8 "perfil_largo"; utf8 "competencias"].

Definition _looks_french_schema (data : json) : result bool :=
  any_in french_sentinels data.

Definition _looks_spanish_schema (data : json) : result bool :=
  any_in spanish_sentinels data.

(** The normalisation step of [load] (its [if]/[elif] on the two
    detections), without the write-back: the value [load] returns for the
    raw document [data]. *)
Definition migrate (data : json) : result json :=
  fr ← _looks_french_schema data;
  if (fr : bool) then _migrate_french_to_english data
  else
    es ← _looks_spanish_schema data;
    if (es : bool) then _migrate_spanish_to_english data
    else Ok data.

(** *** The canonical shape, and the legacy documents that migrate *)

Definition canonical_keys : list pystr :=
  [utf8 "identity"; utf8 "long_profile"; utf8 "experiences"; utf8 "skills";
   utf8 "education"; utf8 "languages"; utf8 "interests";
   utf8 "memory_notes"].

Definition has_keys (ks : list pystr) (v : json) : bool :=
  match v with
  | JObj m =>
      forallb (fun k => match m !! k with Some _ => true | None => false end)
        ks
  | _ => false
  end.

(** The value under a path of keys in nested dictionaries. *)
Fixpoint lookup_path (v : json) (ks : list pystr) : option json :=
  match ks with
  | [] => Some v
  | k :: rest =>
      match v with
      | JObj m =>
          match m !! k with
          | Some v' => lookup_path v' rest
          | None => None
          end
      | _ => None
      end
  end.

(** Every required canonical key is there, and the identity has a name
    and a title. *)
Definition canonical_shape (v : json) : bool :=
  has_keys canonical_keys v
  && match lookup_path v [utf8 "identity"] with
     | Some identity => has_keys [utf8 "name"; utf8 "title"] identity
     | None => false
     end.

Definition is_dict (v : json) : bool :=
  match v with JObj _ => true | _ => false end.

Definition dict_or_absent (o : option json) : bool :=
  match o with None => true | Some v => is_dict v end.

(** Absent, or a value whose iteration visits dictionaries only (a list
    of dictionaries; an empty string or dictionary visits nothing). *)
Definition dicts_or_absent (o : option json) : bool :=
  match o with
  | None => true
  | Some v =>
      match py_iter v with
      | Ok items => forallb is_dict items
      | Raise _ => false
      end
  end.

(** A French document whose sub-documents have the shape of the canonical
    ones. *)
Definition french_shaped (m : gmap pystr json) : bool :=
  dict_or_absent (m !! utf8 "identite")
  && dict_or_absent (m !! utf8 "competences")
  && dicts_or_absent (m !! utf8 "experiences").

Definition spanish_shaped (m : gmap pystr json) : bool :=
  dict_or_absent (m !! utf8 "identidad")
  && dict_or_absent (m !! utf8 "competencias")
  && dicts_or_absent (m !! utf8 "experiencias").

(** Some key of [ks] is a key of the dictionary. *)
Definition has_any_key (ks : list pystr) (m : gmap pystr json) : bool :=
  existsb (fun k => match m !! k with Some _ => true | None => false end) ks.

(** What a migration puts at a canonical path when the source key is
    absent: source key, canonical path, value. *)
Definition french_defaults : list (pystr * list pystr * json) :=
  [(utf8 "identite", [utf8 "identity"; utf8 "name"], JNull);
   (utf8 "identite", [utf8 "identity"; utf8 "title"], JNull);
   (utf8 "profil_long", [utf8 "long_profile"], JNull);
   (utf8 "experiences", [utf8 "experiences"], JArr []);
   (utf8 "competences", [utf8 "skills"; utf8 "technical"], JArr []);
   (utf8 "competences", [utf8 "skills"; utf8 "methodological"], JArr []);
   (utf8 "formation", [utf8 "education"], JNull);
   (utf8 "langues", [utf8 "languages"], JArr []);
   (utf8 "centres_interet", [utf8 "interests"], JArr []);
   (utf8 "memory_notes", [utf8 "memory_notes"], dict [])].

Definition spanish_defaults : list (pystr * list pystr * json) :=
  [(utf8 "identidad", [utf8 "identity"; utf8 "name"], JNull);
   (utf8 "identidad", [utf8 "identity"; utf8 "title"], JNull);
   (utf8 "perfil_largo", [utf8 "long_profile"], JNull);
   (utf8 "experiencias", [utf8 "experiences"], JArr []);
   (utf8 "competencias", [utf8 "skills"; utf8 "technical"], JArr []);
   (utf8 "competencias", [utf8 "skills"; utf8 "methodological"], JArr []);
   (utf8 "formacion", [utf8 "education"], JNull);
   (utf8 "idiomas", [utf8 "languages"], JArr []);
   (utf8 "intereses", [utf8 "interests"], JArr []);
   (utf8 "memory_notes", [utf8 "memory_notes"], dict [])].

Definition defaults_hold (table : list (pystr * list pystr * json))
    (m : gmap pystr json) (y : json) : Prop :=
  Forall (fun entry =>
            m !! entry.1.1 = None ->
            lookup_path y entry.1.2 = Some entry.2) table.

(** One French experience, renamed key by key. *)
Definition translate_french_experience (exp : gmap pystr json) : json :=
  dict [(utf8 "company", default JNull (exp !! utf8 "entreprise"));
        (utf8 "location", default JNull (exp !! utf8 "lieu"));
        (utf8 "role", default JNull (exp !! utf8 "poste"));
        (utf8 "dates", default JNull (exp !! utf8 "dates"));
        (utf8 "missions", default (JArr []) (exp !! utf8 "missions"))].

(** The French document of the scenario, for any summary, experiences and
    education, and the canonical document it is to become. *)
Definition ana_french (long_profile : pystr)
    (experiences : list (gmap pystr json)) (education : pystr) : json :=
  dict [(utf8 "identite",
           dict [(utf8 "nom", JStr (utf8 "Ana Dupont"));
                 (utf8 "titre", JStr (utf8 "Ingénieure"))]);
        (utf8 "profil_long", JStr long_profile);
        (utf8 "experiences", JArr (List.map JObj experiences));
        (utf8 "competences",
           dict [(utf8 "techniques", JArr [JStr (utf8 "Python")]);
                 (utf8 "methodologiques", JArr [])]);
        (utf8 "formation", JStr education);
        (utf8 "langues", JArr [JStr (utf8 "Français (natif)")])].

Definition ana_canonical (long_profile : pystr)
    (experiences : list (gmap pystr json)) (education : pystr) : json :=
  dict [(utf8 "identity",
           dict [(utf8 "name", JStr (utf8 "Ana Dupont"));
                 (utf8 "title", JStr (utf8 "Ingénieure"))]);
        (utf8 "long_profile", JStr long_profile);
        (utf8 "experiences",
           JArr (List.map translate_french_experience experiences));
        (utf8 "skills",
           dict [(utf8 "technical", JArr [JStr (utf8 "Python")]);
                 (utf8 "methodological", JArr [])]);
        (utf8 "education", JStr education);
        (utf8 "languages", JArr [JStr (utf8 "Français (natif)")]);
        (utf8 "interests", JArr []);
        (utf8 "memory_notes", dict [])].

(** The note ledger of a document: its [memory_notes] dictionary, empty
    when the key is absent; none when the value is not a dictionary. *)
Definition ledger (d : gmap pystr json) : option (gmap pystr json) :=
  match d !! utf8 "memory_notes" with
  | None => Some ∅
  | Some (JObj notes) => Some notes
  | Some _ => None
  end.

(** The document after [record_adaptation_note job_title note], for a
    document [d] whose ledger is [notes]. *)
Definition with_note (d notes : gmap pystr json) (job_title note : pystr)
  : gmap pystr json :=
  <[utf8 "memory_notes" := JObj (<[job_title := JStr note]> notes)]> d.

(** A French experience, for the scenario. *)
Definition acme_fr : gmap pystr json :=
  list_to_map
    [(utf8 "entreprise", JStr (utf8 "Acme"));
     (utf8 "lieu", JStr (utf8 "Lyon"));
     (utf8 "poste", JStr (utf8 "Ingénieure données"));
     (utf8 "dates", JStr (utf8 "2020-2022"));
     (utf8 "missions", JArr [JStr (utf8 "Pipelines de données")])].

(** *** The store *)

Section Store.

(** The text of a file, and the two functions of Python's [json] module
    that turn a document into that text and back.  [json_dump profile]
    is the text that [json.dump(profile, f, ensure_ascii=False,
    indent=2)] gets into the file: the text of the whole document or,
    when the document has a string that cannot be encoded, the part
    that was written before the exception. *)
Variable content : Type.
Variable json_dump : json -> content.
Variable json_load : content -> result json.

(** The files, by path. *)
Abbreviation files := (gmap pystr content).

(** A computation on the files that returns or raises; what was written
    before an exception stays written. *)
Definition M (A : Type) : Type := files -> result A * files.

#[global] Instance M_ret : MRet M := fun _ a s => (Ok a, s).
#[global] Instance M_bind : MBind M :=
  fun _ _ f m s =>
    match m s with
    | (Ok a, s') => f a s'
    | (Raise e, s') => (Raise e, s')
    end.

Definition lift {A} (r : result A) : M A := fun s => (r, s).

Definition os_not_found (p : pystr) : pystr :=
  utf8 "[Errno 2] No such file or directory: '" ++ p ++ utf8 "'".

(** [open(p, 'r')] followed by reading the whole file. *)
Definition open_read (p : pystr) : M content :=
  fun s =>
    match s !! p with
    | Some c => (Ok c, s)
    | None => (Raise (FileNotFoundError (os_not_found p)), s)
    end.

(** What [json.dump] raises, if anything: the text is written chunk by
    chunk into a file opened with [encoding='utf-8'], and a chunk with a
    lone surrogate fails to encode. *)
Definition dump_outcome (profile : json) : result unit :=
  if encodable profile then Ok tt else Raise UnicodeEncodeError.

(** [with open(p, 'w', encoding='utf-8') as f: json.dump(profile, f,
    ...)]: opening creates the file or empties it, the dump writes into
    it, and the file is closed with what was written, whether the dump
    ran to its end or raised on the way. *)
Definition open_write (p : pystr) (profile : json) : M unit :=
  fun s => (dump_outcome profile, <[p := json_dump profile]> s).

(** [try: body  except FileNotFoundError: raise e'] *)
Definition except_FileNotFoundError {A} (body : M A) (e' : exn) : M A :=
  fun s =>
    match body s with
    | (Raise (FileNotFoundError _), s') => (Raise e', s')
    | r => r
    end.

Record ProfileMemory := { path : pystr }.

Definition not_found_message (p : pystr) : pystr :=
  utf8 "Profile file not found: " ++ p
    ++ utf8 ". Please run the profile preparer first.".

Definition save (self : ProfileMemory) (profile : json) : M unit :=
  open_write (path self) profile.

(** [with open(self.path, 'r') as f: data = json.load(f)] *)
Definition read_json (self : ProfileMemory) : M json :=
  c ← open_read (path self); lift (json_load c).

Definition load (self : ProfileMemory) : M json :=
  data ← except_FileNotFoundError
           (read_json self)
           (FileNotFoundError (not_found_message (path self)));
  fr ← lift (_looks_french_schema data);
  if (fr : bool) then
    data' ← lift (_migrate_french_to_english data);
    _ ← save self data';
    mret data'
  else
    es ← lift (_looks_spanish_schema data);
    if (es : bool) then
      data' ← lift (_migrate_spanish_to_english data);
      _ ← save self data';
      mret data'
    else mret data.

(** What [load] does with a migrated document: it is written back, and
    returned when the write went through. *)
Definition written_back (self : ProfileMemory) (data' : json) (fs : files)
  : result json * files :=
  (if encodable data' then Ok data' else Raise UnicodeEncodeError,
   <[path self := json_dump data']> fs).

(** What [load] does once the file has been read as [data]. *)
Definition after_read (self : ProfileMemory) (data : json) (fs : files)
  : result json * files :=
  match _looks_french_schema data with
  | Raise e => (Raise e, fs)
  | Ok true =>
      match _migrate_french_to_english data with
      | Ok data' => written_back self data' fs
      | Raise e => (Raise e, fs)
      end
  | Ok false =>
      match _looks_spanish_schema data with
      | Raise e => (Raise e, fs)
      | Ok true =>
          match _migrate_spanish_to_english data with
          | Ok data' => written_back self data' fs
          | Raise e => (Raise e, fs)
          end
      | Ok false => (Ok data, fs)
      end
  end.

(** [memory_notes] is the object stored in [data] when the key is there,
    so the item assignment on it and the assignment back into [data]
    amount to one update of the document. *)
Definition record_adaptation_note (self : ProfileMemory)
    (job_title note : pystr) : M unit :=
  data ← load self;
  memory_notes ← lift (py_get data (utf8 "memory_notes") (dict []));
  memory_notes' ← lift (py_setitem memory_notes job_title (JStr note));
  data' ← lift (py_setitem data (utf8 "memory_notes") memory_notes');
  save self data'.

End Store.

(** A codec for examples of failed writes: the text of a document that
    can be encoded holds the document, and a text that was cut short
    holds nothing that can be read. *)
Definition cut_dump (j : json) : option json :=
  if encodable j then Some j else None.

Definition cut_load (c : option json) : result json :=
  match c with
  | Some j => Ok j
  | None => Raise JSONDecodeError
  end.

(** A string that is one lone surrogate, U+D800. *)
Definition lone_surrogate : pystr := [55296%N].

End profile_memory.

(** ** pdf_text_extractor.py *)

Module pdf_text_extractor.

(** [sep.join(parts)] *)
Fixpoint join (sep : pystr) (parts : list pystr) : pystr :=
  match parts with
  | [] => []
  | [p] => p
  | p :: rest => p ++ sep ++ join sep rest
  end.

(** [lang or d] *)
Definition or_default (o : option pystr) (d : pystr) : pystr :=
  match o with
  | Some s => if truthy s then s else d
  | None => d
  end.

Section Extract.

(** The third-party libraries: whether each imports, and what its calls
    return or raise on a path.  [PdfReader_pages p] stands for opening
    the file at [p] and listing the pages of its reader. *)
Variables page image : Type.
Variable import_PyPDF2 : result unit.
Variable PdfReader_pages : pystr -> result (list page).
Variable page_extract_text : page -> result (option pystr).
Variable import_pdfminer : result unit.
Variable pdfminer_extract_text : pystr -> result (option pystr).
Variable import_pdf2image_pytesseract : result unit.
Variable convert_from_path : pystr -> result (list image).
Variable image_to_string : image -> pystr -> result pystr.

(** The page loop of [_try_pypdf2], from the text gathered so far. *)
Fixpoint pypdf2_pages_text (pages : list page) (text : pystr)
  : result pystr :=
  match pages with
  | [] => Ok text
  | p :: rest =>
      extracted ← page_extract_text p;
      pypdf2_pages_text rest (text ++ or_empty extracted ++ [chr_newline])
  end.

Definition _try_pypdf2 (path : pystr) : result pystr :=
  match import_PyPDF2 with
  | Raise _ => Ok []
  | Ok _ =>
      try_except
        (pages ← PdfReader_pages path;
         text ← pypdf2_pages_text pages [];
         Ok (strip text))
        (fun _ => Ok [])
  end.

Definition _try_pdfminer (path : pystr) : result pystr :=
  match import_pdfminer with
  | Raise _ => Ok []
  | Ok _ =>
      try_except
        (text ← pdfminer_extract_text path;
         Ok (strip (or_empty text)))
        (fun _ => Ok [])
  end.

Definition _try_ocr (path : pystr) (lang : option pystr) : result pystr :=
  match import_pdf2image_pytesseract with
  | Raise _ => Ok []
  | Ok _ =>
      try_except
        (pages ← convert_from_path path;
         ocr_texts ← for_each
           (fun img => image_to_string img (or_default lang (utf8 "eng")))
           pages;
         Ok (strip (join [chr_newline] ocr_texts)))
        (fun _ => Ok [])
  end.

Definition extract_pdf_text_any (path : pystr) (ocr_lang : option pystr)
  : result pystr :=
  text ← _try_pypdf2 path;
  if truthy text then Ok text
  else
    text ← _try_pdfminer path;
    if truthy text then Ok text
    else _try_ocr path ocr_lang.

End Extract.

(** The first non-empty string of a list, the empty string when there is
    none: what the extractor is said to return from its strategies. *)
Definition first_non_empty (results : list pystr) : pystr :=
  match List.find truthy results with
  | Some s => s
  | None => []
  end.

End pdf_text_extractor.

(** ** generate_resume.py *)

Module generate_resume.

Inductive Locale := en | fr | es.

Definition nl : pystr := [chr_newline].

(** A string literal between double quotes, as it stands in a prompt. *)
Definition quoted (s : string) : pystr :=
  [chr_dquote] ++ utf8 s ++ [chr_dquote].

Definition header (lang : Locale) : pystr :=
  match lang with
  | en => utf8 "You are a resume writing expert."
  | fr => utf8 "Vous êtes un expert en rédaction de CV."
  | es => utf8 "Eres un experto en redacción de CV."
  end.

Definition section_offer (lang : Locale) : pystr :=
  match lang with
  | en => utf8 "JOB OFFER:"
  | fr => utf8 "OFFRE D'EMPLOI:"
  | es => utf8 "OFERTA DE EMPLEO:"
  end.

Definition title_instruction (lang : Locale) : pystr :=
  match lang with
  | en => utf8 "Extract the job title from this offer. Return ONLY the title, nothing else."
  | fr => utf8 "Extrayez l'intitulé du poste de cette offre. Retournez UNIQUEMENT le titre, rien d'autre."
  | es => utf8 "Extrae el título del puesto de esta oferta. Devuelve SOLO el título, nada más."
  end.

Definition summary_instruction (lang : Locale) : pystr :=
  match lang with
  | en => utf8 "Write a 4-5 line profile paragraph highlighting the most relevant points for this offer. Use keywords from the offer. Be specific and impactful. Return ONLY the paragraph without any preface or comments."
  | fr => utf8 "Rédigez un paragraphe de 4-5 lignes mettant en avant les points les plus pertinents pour cette offre. Utilisez les mots-clés de l'offre. Soyez précis et percutant. Retournez UNIQUEMENT le paragraphe sans préface ni commentaires."
  | es => utf8 "Escribe un párrafo de 4-5 líneas destacando los puntos más relevantes para esta oferta. Usa palabras clave de la oferta. Sé específico e impactante. Devuelve SOLO el párrafo sin prefacio ni comentarios."
  end.

Definition spanish_hints : list pystr :=
  [utf8 " el "; utf8 " la "; utf8 " los "; utf8 " las ";
   utf8 "experiencia"; utf8 "habilidades"; utf8 "idiomas"].

Definition french_hints : list pystr :=
  [utf8 " le "; utf8 " la "; utf8 " les ";
   utf8 "expérience"; utf8 "compétences"; utf8 "langues"].

Section Generator.

(** Built-ins and library calls the generator relies on: [str.lower], the
    text an f-string gives a value that is not a string, [json.dumps]
    with the options of the source, [json.loads], and the date
    [datetime.now().strftime] returns. *)
Variable str_lower : pystr -> pystr.
Variable py_repr : json -> pystr.
Variable json_dumps : json -> pystr.
Variable json_loads : pystr -> result json.
Variable today : pystr.

(** The generator: its completion client ([self.client.generate]), the
    loaded profile and the locale. *)
Record ResumeGenerator := {
  client : pystr -> result pystr;
  profile : json;
  locale : Locale
}.

Definition _generate (self : ResumeGenerator) (prompt : pystr)
  : result pystr :=
  client self prompt.

(** The text an f-string field produces for a value. *)
Definition format_value (v : json) : pystr :=
  match v with
  | JStr s => s
  | _ => py_repr v
  end.

Definition detect_language (text : pystr) : Locale :=
  let lowered := str_lower text in
  if existsb (fun word => str_contains word lowered) spanish_hints then es
  else if existsb (fun word => str_contains word lowered) french_hints
       then fr
       else en.

(** [extract_job_title] sets [self.locale] before it calls the client, so
    the generator is returned along with the outcome. *)
Definition extract_job_title (self : ResumeGenerator) (offer : pystr)
  : result (option pystr) * ResumeGenerator :=
  let lang := detect_language offer in
  let self' := {| client := client self; profile := profile self;
                  locale := lang |} in
  let prompt :=
    title_instruction lang ++ nl ++ nl
      ++ utf8 "Offer:" ++ nl
      ++ slice_to 1000 offer ++ nl ++ nl
      ++ utf8 "Job title:" in
  (response ← _generate self' prompt;
   let title := replace_char chr_newline chr_space (strip response) in
   let title := re_sub_forbidden title in
   let title := slice_to 50 title in
   Ok (if truthy title then Some title else None),
   self').

Definition adapt_profile (self : ResumeGenerator) (offer : pystr)
  : result pystr :=
  let lang := locale self in
  long_profile ← py_getitem (profile self) (utf8 "long_profile");
  let prompt :=
    header lang ++ nl ++ nl
      ++ section_offer lang ++ nl
      ++ offer ++ nl ++ nl
      ++ utf8 "FULL CANDIDATE PROFILE:" ++ nl
      ++ format_value long_profile ++ nl ++ nl
      ++ summary_instruction lang in
  _generate self prompt.

Definition experiences_schema : pystr :=
  utf8 "[" ++ nl
    ++ utf8 "  {" ++ nl
    ++ utf8 "    " ++ quoted "company" ++ utf8 ": "
    ++ quoted "Exact company name" ++ utf8 "," ++ nl
    ++ utf8 "    " ++ quoted "location" ++ utf8 ": "
    ++ quoted "Exact city" ++ utf8 "," ++ nl
    ++ utf8 "    " ++ quoted "role" ++ utf8 ": "
    ++ quoted "Exact role title" ++ utf8 "," ++ nl
    ++ utf8 "    " ++ quoted "dates" ++ utf8 ": "
    ++ quoted "Real dates" ++ utf8 "," ++ nl
    ++ utf8 "    " ++ quoted "missions" ++ utf8 ": ["
    ++ quoted "detailed mission 1" ++ utf8 ", "
    ++ quoted "detailed mission 2" ++ utf8 ", "
    ++ quoted "detailed mission 3" ++ utf8 ", "
    ++ quoted "detailed mission 4" ++ utf8 "]" ++ nl
    ++ utf8 "  }" ++ nl
    ++ utf8 "]" ++ nl.

(** [try: body  except json.JSONDecodeError: handler] *)
Definition except_JSONDecodeError {A} (body : result A)
    (handler : result A) : result A :=
  match body with
  | Raise JSONDecodeError => handler
  | r => r
  end.

Definition select_experiences (self : ResumeGenerator) (offer : pystr)
  : result json :=
  experiences ← py_getitem (profile self) (utf8 "experiences");
  let experiences_json := json_dumps experiences in
  let lang := locale self in
  let prompt :=
    header lang ++ nl ++ nl
      ++ section_offer lang ++ nl
      ++ offer ++ nl ++ nl
      ++ utf8 "CANDIDATE EXPERIENCES (JSON):" ++ nl
      ++ experiences_json ++ nl ++ nl
      ++ utf8 "Select the 2-3 MOST relevant experiences and adapt missions to match the offer." ++ nl
      ++ utf8 "For each experience, keep 4-5 detailed missions showcasing requested competencies." ++ nl ++ nl
      ++ utf8 "IMPORTANT: Use REAL values from the JSON (real company names, cities, dates)." ++ nl ++ nl
      ++ utf8 "Return ONLY a valid JSON array of objects with this schema:" ++ nl
      ++ experiences_schema in
  response ← _generate self prompt;
  except_JSONDecodeError
    (let start := find chr_lbracket response in
     let stop := rfind chr_rbracket response + 1 in
     if negb (start =? -1) && (stop >? start)
     then json_loads (slice response start stop)
     else json_loads response)
    (experiences ← py_getitem (profile self) (utf8 "experiences");
     py_slice_to 2 experiences).

Definition select_skills (self : ResumeGenerator) (offer : pystr)
  : result pystr :=
  skills ← py_getitem (profile self) (utf8 "skills");
  let skills_json := json_dumps skills in
  let lang := locale self in
  let prompt :=
    header lang ++ nl ++ nl
      ++ section_offer lang ++ nl
      ++ offer ++ nl ++ nl
      ++ utf8 "CANDIDATE SKILLS:" ++ nl
      ++ skills_json ++ nl ++ nl
      ++ utf8 "Select the relevant skills for this offer (8-10 per category). Prioritize skills mentioned in the offer." ++ nl
      ++ utf8 "Return ONLY this exact HTML-like format:" ++ nl
      ++ utf8 "<b>Technical:</b> skill1, skill2, skill3, skill4, skill5, skill6, skill7, skill8<br/>" ++ nl
      ++ utf8 "<b>Management & Methods:</b> skill1, skill2, skill3, skill4, skill5, skill6" ++ nl in
  _generate self prompt.

(** [v.replace(' ', '_')]: a method of strings only. *)
Definition py_replace_space (v : json) : result pystr :=
  match v with
  | JStr s => Ok (replace_char chr_space chr_underscore s)
  | _ => Raise AttributeError
  end.

Definition generate_filename (self : ResumeGenerator)
    (job_title : option pystr) : result pystr :=
  name ←
    (if truthy_opt job_title
     then Ok (utf8 "Resume_" ++ default [] job_title)
     else
       identity ← py_getitem (profile self) (utf8 "identity");
       name ← py_getitem identity (utf8 "name");
       candidate_name ← py_replace_space name;
       Ok (utf8 "Resume_" ++ candidate_name ++ utf8 "_" ++ today));
  let name := re_sub_forbidden name in
  Ok (name ++ utf8 ".pdf").

End Generator.

(** The profile gives the candidate a name that is a string:
    [profile['identity']['name']] is a [str]. *)
Definition has_candidate_name (p : json) : Prop :=
  exists identity name,
    py_getitem p (utf8 "identity") = Ok identity
    /\ py_getitem identity (utf8 "name") = Ok (JStr name).

(** No character of the class deleted by the sanitising pattern. *)
Definition filename_safe (s : pystr) : Prop :=
  forall c, In c forbidden_chars -> ~ In c s.

(** A completion service that is down: every call raises. *)
Definition raising_client (e : exn) : pystr -> result pystr :=
  fun _ => Raise e.

(** A completion service that answers every prompt with the same text. *)
Definition constant_client (response : pystr) : pystr -> result pystr :=
  fun _ => Ok response.

Definition sample_experience (company : string) : json :=
  dict [(utf8 "company", JStr (utf8 company));
        (utf8 "location", JStr (utf8 "Lyon"));
        (utf8 "role", JStr (utf8 "Engineer"));
        (utf8 "dates", JStr (utf8 "2020-2022"));
        (utf8 "missions", JArr [JStr (utf8 "Built pipelines")])].

Definition sample_profile : json :=
  dict [(utf8 "identity",
           dict [(utf8 "name", JStr (utf8 "Ana Dupont"));
                 (utf8 "title", JStr (utf8 "Ingénieure"))]);
        (utf8 "long_profile", JStr (utf8 "Ten years of data engineering."));
        (utf8 "experiences",
           JArr [sample_experience "Acme"; sample_experience "Globex";
                 sample_experience "Initech"]);
        (utf8 "skills",
           dict [(utf8 "technical", JArr [JStr (utf8 "Python")]);
                 (utf8 "methodological", JArr [])]);
        (utf8 "education", JStr (utf8 "MSc"));
        (utf8 "languages", JArr [JStr (utf8 "Français (natif)")]);
        (utf8 "interests", JArr []);
        (utf8 "memory_notes", dict [])].

End generate_resume.

(** ** More of profile_memory.py: what the migrations carry over *)

Module migration_tables.
Import profile_memory.

(** One Spanish experience, renamed key by key. *)
Definition translate_spanish_experience (exp : gmap pystr json) : json :=
  dict [(utf8 "company", default JNull (exp !! utf8 "empresa"));
        (utf8 "location", default JNull (exp !! utf8 "lugar"));
        (utf8 "role", default JNull (exp !! utf8 "puesto"));
        (utf8 "dates", default JNull (exp !! utf8 "fechas"));
        (utf8 "missions", default (JArr []) (exp !! utf8 "misiones"))].

(** Where each field of a legacy document goes: path in the source,
    path in the result.  The experiences and the interests are treated
    apart. *)
Definition french_renames : list (list pystr * list pystr) :=
  [([utf8 "identite"; utf8 "nom"], [utf8 "identity"; utf8 "name"]);
   ([utf8 "identite"; utf8 "titre"], [utf8 "identity"; utf8 "title"]);
   ([utf8 "profil_long"], [utf8 "long_profile"]);
   ([utf8 "competences"; utf8 "techniques"],
    [utf8 "skills"; utf8 "technical"]);
   ([utf8 "competences"; utf8 "methodologiques"],
    [utf8 "skills"; utf8 "methodological"]);
   ([utf8 "formation"], [utf8 "education"]);
   ([utf8 "langues"], [utf8 "languages"]);
   ([utf8 "memory_notes"], [utf8 "memory_notes"])].

Definition spanish_renames : list (list pystr * list pystr) :=
  [([utf8 "identidad"; utf8 "nombre"], [utf8 "identity"; utf8 "name"]);
   ([utf8 "identidad"; utf8 "titulo"], [utf8 "identity"; utf8 "title"]);
   ([utf8 "perfil_largo"], [utf8 "long_profile"]);
   ([utf8 "competencias"; utf8 "tecnicas"],
    [utf8 "skills"; utf8 "technical"]);
   ([utf8 "competencias"; utf8 "metodologicas"],
    [utf8 "skills"; utf8 "methodological"]);
   ([utf8 "formacion"], [utf8 "education"]);
   ([utf8 "idiomas"], [utf8 "languages"]);
   ([utf8 "memory_notes"], [utf8 "memory_notes"])].

(** Every value found at a source path is found, unchanged, at the
    path it is renamed to. *)
Definition fields_carried (table : list (list pystr * list pystr))
    (x y : json) : Prop :=
  Forall (fun entry =>
            forall v, lookup_path x entry.1 = Some v ->
                      lookup_path y entry.2 = Some v) table.

(** The keys of a dictionary are exactly those of the list. *)
Definition keys_are (ks : list pystr) (v : json) : Prop :=
  exists m, v = JObj m /\ forall k, is_Some (m !! k) <-> In k ks.

Section Calls.

Variable content : Type.
Variable json_dump : json -> content.
Variable json_load : content -> result json.

(** [record_adaptation_note] called once per entry, in order. *)
Fixpoint record_all (self : ProfileMemory) (entries : list (pystr * pystr))
  : M content unit :=
  match entries with
  | [] => mret tt
  | (job_title, note) :: rest =>
      _ ← record_adaptation_note content json_dump json_load self
            job_title note;
      record_all self rest
  end.

End Calls.

(** Every job title and every note of the list can be encoded. *)
Definition entries_encodable (entries : list (pystr * pystr)) : bool :=
  forallb (fun e => str_encodable e.1 && str_encodable e.2) entries.

(** The ledger after the notes of [entries] were written into [notes],
    in order: a later note for a job title replaces an earlier one. *)
Definition notes_after (notes : gmap pystr json)
    (entries : list (pystr * pystr)) : gmap pystr json :=
  fold_left (fun acc e => <[e.1 := JStr e.2]> acc) entries notes.

End migration_tables.

(** ** generate_resume.py: start-up and the whole run *)

Module generate_resume_run.
Import profile_memory generate_resume.

(** How [_load_profile] ends: with the profile, with an exception that
    escapes, or with [exit(code)]. *)
Inductive startup :=
| Loaded (profile : json)
| Failed (e : exn)
| Exited (code : Z).

Definition note_prefix : pystr := utf8 "Generated resume tailored for: ".

Section Run.

Variable content : Type.
Variable json_dump : json -> content.
Variable json_load : content -> result json.
Variable str_lower : pystr -> pystr.
Variable py_repr : json -> pystr.
Variable json_dumps : json -> pystr.
Variable json_loads : pystr -> result json.
Variable today : pystr.

(** The renderer: [generate_pdf], which lays the document out with
    reportlab and writes the PDF file. *)
Variable generate_pdf :
  ResumeGenerator -> pystr -> json -> pystr -> pystr -> M content unit.

(** [_load_profile]: the name is read for the message that is printed,
    inside the [try]; only [FileNotFoundError] is handled there.  The
    lines printed are not part of the model: the terminal is taken to
    accept them. *)
Definition _load_profile (memory : ProfileMemory)
    (fs : gmap pystr content) : startup * gmap pystr content :=
  match load content json_dump json_load memory fs with
  | (Ok profile, fs') =>
      match (identity ← py_getitem profile (utf8 "identity");
             py_getitem identity (utf8 "name")) with
      | Ok _ => (Loaded profile, fs')
      | Raise (FileNotFoundError _) => (Exited 1, fs')
      | Raise e => (Failed e, fs')
      end
  | (Raise (FileNotFoundError _), fs') => (Exited 1, fs')
  | (Raise e, fs') => (Failed e, fs')
  end.

(** [generate]: the stages in order, on the generator whose locale the
    title extraction has set; [memory] is [self.memory]. *)
Definition generate (memory : ProfileMemory) (self : ResumeGenerator)
    (job_offer : pystr) : M content unit :=
  let (title_outcome, self) := extract_job_title str_lower self job_offer in
  job_title ← lift content title_outcome;
  adapted_profile ← lift content (adapt_profile py_repr self job_offer);
  experiences ← lift content
                  (select_experiences json_dumps json_loads self job_offer);
  skills ← lift content (select_skills json_dumps self job_offer);
  _ ← (if truthy_opt job_title
       then record_adaptation_note content json_dump json_load memory
              (default [] job_title)
              (note_prefix ++ default [] job_title)
       else mret tt);
  filename ← lift content (generate_filename today self job_title);
  generate_pdf self adapted_profile experiences skills filename.

End Run.

End generate_resume_run.

(** ** main.py: the tailoring stages of the interactive application *)

Module main_py.

Definition chr_lbrace : pychar := 123%N.
Definition chr_rbrace : pychar := 125%N.

(** The application: its client, [None] until one is set up, and the
    profile. *)
Record AIResumeGenerator := {
  client : option (pystr -> result pystr);
  profile : json
}.

Definition default_summary : json :=
  JStr (utf8 "Professional with relevant experience.").

Definition default_skills : json :=
  dict [(utf8 "technical", JArr []); (utf8 "soft", JArr [])].

Section Stages.

(** [json.dumps(v, indent=2)], [json.loads], and the text an f-string
    gives a value that is not a string. *)
Variable json_dumps_indent : json -> pystr.
Variable json_loads : pystr -> result json.
Variable py_repr : json -> pystr.

Definition _extract_job_title (self : AIResumeGenerator)
    (job_description : pystr) : result pystr :=
  match client self with
  | None => Ok (utf8 "Position")
  | Some generate =>
      let prompt :=
        utf8 "Extract the job title from this job description. Return ONLY the title, nothing else."
          ++ generate_resume.nl ++ generate_resume.nl
          ++ utf8 "Job Description:" ++ generate_resume.nl
          ++ slice_to 1000 job_description
          ++ generate_resume.nl ++ generate_resume.nl
          ++ utf8 "Job Title:" in
      try_except
        (response ← generate prompt;
         Ok (replace_char chr_newline chr_space (strip response)))
        (fun _ => Ok (utf8 "Position"))
  end.

Definition _adapt_profile_for_job (self : AIResumeGenerator)
    (job_description : pystr) : result json :=
  match client self with
  | None => py_get (profile self) (utf8 "long_profile") default_summary
  | Some generate =>
      long_profile ← py_get (profile self) (utf8 "long_profile") (JStr []);
      experiences ← py_get (profile self) (utf8 "experiences") (JArr []);
      let prompt :=
        utf8 "You are a resume writing expert. Write a 4-5 line professional summary for this candidate that highlights their most relevant experience for this specific job."
          ++ generate_resume.nl ++ generate_resume.nl
          ++ utf8 "JOB DESCRIPTION:" ++ generate_resume.nl
          ++ job_description ++ generate_resume.nl ++ generate_resume.nl
          ++ utf8 "CANDIDATE PROFILE:" ++ generate_resume.nl
          ++ generate_resume.format_value py_repr long_profile
          ++ generate_resume.nl ++ generate_resume.nl
          ++ utf8 "CANDIDATE EXPERIENCES:" ++ generate_resume.nl
          ++ json_dumps_indent experiences
          ++ generate_resume.nl ++ generate_resume.nl
          ++ utf8 "Write a compelling summary that matches the job requirements. Return ONLY the summary paragraph." in
      try_except
        (response ← generate prompt; Ok (JStr response))
        (fun _ => py_get (profile self) (utf8 "long_profile") default_summary)
  end.

(** The parse shared by the two selections: from the first [open] to
    the last [close] when they are in this order, the whole answer
    otherwise. *)
Definition loads_between (open close : pychar) (response : pystr)
  : result json :=
  let start := find open response in
  let stop := rfind close response + 1 in
  if negb (start =? -1) && (stop >? start)
  then json_loads (slice response start stop)
  else json_loads response.

Definition _select_relevant_experiences (self : AIResumeGenerator)
    (job_description : pystr) : result json :=
  match client self with
  | None =>
      experiences ← py_get (profile self) (utf8 "experiences") (JArr []);
      py_slice_to 3 experiences
  | Some generate =>
      experiences ← py_get (profile self) (utf8 "experiences") (JArr []);
      let experiences_json := json_dumps_indent experiences in
      let prompt :=
        utf8 "You are a resume writing expert. Select the 2-3 MOST relevant experiences for this job and adapt the missions to match the job requirements."
          ++ generate_resume.nl ++ generate_resume.nl
          ++ utf8 "JOB DESCRIPTION:" ++ generate_resume.nl
          ++ job_description ++ generate_resume.nl ++ generate_resume.nl
          ++ utf8 "CANDIDATE EXPERIENCES:" ++ generate_resume.nl
          ++ experiences_json ++ generate_resume.nl ++ generate_resume.nl
          ++ utf8 "Return ONLY a valid JSON array of the most relevant experiences with adapted missions. Use the same structure as the input." in
      try_except
        (response ← generate prompt;
         loads_between chr_lbracket chr_rbracket response)
        (fun _ =>
           experiences ← py_get (profile self) (utf8 "experiences") (JArr []);
           py_slice_to 3 experiences)
  end.

Definition _select_relevant_skills (self : AIResumeGenerator)
    (job_description : pystr) : result json :=
  match client self with
  | None => py_get (profile self) (utf8 "skills") default_skills
  | Some generate =>
      skills ← py_get (profile self) (utf8 "skills") (dict []);
      let skills_json := json_dumps_indent skills in
      let prompt :=
        utf8 "You are a resume writing expert. Select the most relevant skills for this job from the candidate's skills."
          ++ generate_resume.nl ++ generate_resume.nl
          ++ utf8 "JOB DESCRIPTION:" ++ generate_resume.nl
          ++ job_description ++ generate_resume.nl ++ generate_resume.nl
          ++ utf8 "CANDIDATE SKILLS:" ++ generate_resume.nl
          ++ skills_json ++ generate_resume.nl ++ generate_resume.nl
          ++ utf8 "Return ONLY a valid JSON object with 'technical' and 'soft' arrays containing the most relevant skills." in
      try_except
        (response ← generate prompt;
         loads_between chr_lbrace chr_rbrace response)
        (fun _ => py_get (profile self) (utf8 "skills") default_skills)
  end.

End Stages.

(** Absent, or a value that can be sliced: a list or a string. *)
Definition sliceable_or_absent (o : option json) : bool :=
  match o with
  | None | Some (JArr _) | Some (JStr _) => true
  | Some _ => false
  end.

(** No client, or a client on which every call raises. *)
Definition unavailable (c : option (pystr -> result pystr)) : Prop :=
  match c with
  | None => True
  | Some generate => forall prompt, exists e, generate prompt = Raise e
  end.

(** A client that answers every prompt, with a parser that rejects the
    part of each answer that it is given. *)
Definition unparseable (json_loads : pystr -> result json)
    (open close : pychar) (generate : pystr -> result pystr) : Prop :=
  forall prompt, exists response e,
    generate prompt = Ok response
    /\ json_loads (between open close response) = Raise e.

End main_py.

(** ** prepare_profile.py *)

Module prepare_profile.
Import profile_memory.

Record ProfilePreparer := {
  client : pystr -> result pystr;
  memory : ProfileMemory
}.

Definition nl : pystr := generate_resume.nl.

(** [lines] joined, each followed by a newline. *)
Fixpoint unlines (lines : list pystr) : pystr :=
  match lines with
  | [] => []
  | l :: rest => l ++ nl ++ unlines rest
  end.

(** A key and a string value as they stand in the schema of the prompt:
    both between double quotes, a colon between them. *)
Definition pair_line (indent key value tail : string) : pystr :=
  utf8 indent ++ generate_resume.quoted key ++ utf8 ": "
    ++ generate_resume.quoted value ++ utf8 tail.

(** A key and what follows its colon. *)
Definition key_line (indent key : string) (rest : pystr) : pystr :=
  utf8 indent ++ generate_resume.quoted key ++ utf8 ": " ++ rest.

(** A list of string literals between square brackets. *)
Fixpoint quoted_items (items : list string) : pystr :=
  match items with
  | [] => []
  | [i] => generate_resume.quoted i
  | i :: rest => generate_resume.quoted i ++ utf8 ", " ++ quoted_items rest
  end.

Definition quoted_list (items : list string) : pystr :=
  utf8 "[" ++ quoted_items items ++ utf8 "]".

Definition schema_lines : list pystr :=
  [utf8 "{";
   key_line "  " "identity" (utf8 "{");
   pair_line "    " "name" "Full Name" ",";
   pair_line "    " "title" "Exact professional title" "";
   utf8 "  },";
   pair_line "  " "long_profile"
     "Comprehensive profile description in 5-6 lines" ",";
   key_line "  " "experiences" (utf8 "[");
   utf8 "    {";
   pair_line "      " "company" "Exact company name" ",";
   pair_line "      " "location" "Exact city" ",";
   pair_line "      " "role" "Exact job title" ",";
   pair_line "      " "dates" "YYYY-YYYY" ",";
   key_line "      " "missions"
     (quoted_list ["detailed mission 1"; "detailed mission 2";
                   "detailed mission 3"; "mission 4"; "mission 5"]);
   utf8 "    }";
   utf8 "  ],";
   key_line "  " "skills" (utf8 "{");
   key_line "    " "technical"
     (quoted_list ["all technical skills"] ++ utf8 ",");
   key_line "    " "methodological"
     (quoted_list ["all methodological skills"]);
   utf8 "  },";
   pair_line "  " "education"
     "Main education with school, degree and dates" ",";
   key_line "  " "languages"
     (quoted_list ["Language (level)"; "Language (level)"] ++ utf8 ",");
   key_line "  " "interests"
     (quoted_list ["interest 1"; "interest 2"; "interest 3"]);
   utf8 "}"].

Definition structure_prompt (raw_text : pystr) : pystr :=
  unlines
    ([utf8 "You are an HR expert. Analyze this full resume text and return ONLY a valid JSON with exactly this schema and English keys:";
      []]
     ++ schema_lines
     ++ [[];
         utf8 "CRITICAL:";
         utf8 "- Use REAL values from the resume (real company names, real cities, real dates)";
         utf8 "- List ALL missions for each experience (up to 5 per experience)";
         utf8 "- Return ONLY the JSON, with no extra text.";
         [];
         utf8 "RESUME TEXT:";
         raw_text]).

(** [len(v)] *)
Definition py_len (v : json) : result Z :=
  match v with
  | JArr l => Ok (Z.of_nat (length l))
  | JStr s => Ok (Z.of_nat (length s))
  | JObj m => Ok (Z.of_nat (size m))
  | _ => Raise TypeError
  end.

Section Prepare.

Variable content : Type.
Variable json_dump : json -> content.
Variable json_loads : pystr -> result json.

(** The libraries of the extractor. *)
Variables page image : Type.
Variable import_PyPDF2 : result unit.
Variable PdfReader_pages : pystr -> result (list page).
Variable page_extract_text : page -> result (option pystr).
Variable import_pdfminer : result unit.
Variable pdfminer_extract_text : pystr -> result (option pystr).
Variable import_pdf2image_pytesseract : result unit.
Variable convert_from_path : pystr -> result (list image).
Variable image_to_string : image -> pystr -> result pystr.

Definition extract_pdf_text (self : ProfilePreparer) (pdf_path : pystr)
    (ocr_lang : option pystr) : result pystr :=
  pdf_text_extractor.extract_pdf_text_any page image import_PyPDF2
    PdfReader_pages page_extract_text import_pdfminer pdfminer_extract_text
    import_pdf2image_pytesseract convert_from_path image_to_string
    pdf_path ocr_lang.

Definition _generate (self : ProfilePreparer) (prompt : pystr)
  : result pystr :=
  client self prompt.

(** The [except json.JSONDecodeError] clause of [structure_profile]
    prints and raises the exception again: what the parser raises is
    what the function raises. *)
Definition structure_profile (self : ProfilePreparer) (raw_text : pystr)
  : result json :=
  response ← _generate self (structure_prompt raw_text);
  let start := find main_py.chr_lbrace response in
  let stop := rfind main_py.chr_rbrace response + 1 in
  if negb (start =? -1) && (stop >? start)
  then json_loads (slice response start stop)
  else json_loads response.

(** What [prepare] prints after saving: the name, the number of
    experiences and the number of technical skills. *)
Definition printed_summary (structured : json) : result unit :=
  identity ← py_getitem structured (utf8 "identity");
  _ ← py_getitem identity (utf8 "name");
  experiences ← py_getitem structured (utf8 "experiences");
  _ ← py_len experiences;
  skills ← py_getitem structured (utf8 "skills");
  technical ← py_getitem skills (utf8 "technical");
  _ ← py_len technical;
  Ok tt.

Definition prepare (self : ProfilePreparer) (pdf_path : pystr)
    (ocr_lang : option pystr) : M content json :=
  text ← lift content (extract_pdf_text self pdf_path ocr_lang);
  structured ← lift content (structure_profile self text);
  _ ← save content json_dump (memory self) structured;
  _ ← lift content (printed_summary structured);
  mret structured.

End Prepare.

End prepare_profile.

(** ** llm_client.py: choosing the client *)

Module llm_client.

Inductive LLMClient :=
| OllamaClient (model base_url : pystr) (options : gmap pystr json)
| ClaudeClient (model api_key api_url : pystr).

(** How [from_config] ends. *)
Inductive configured :=
| Configured (c : LLMClient)
| ValueError (msg : pystr).

Definition chr_slash : pychar := 47%N.

Fixpoint lstrip_char (ch : pychar) (s : pystr) : pystr :=
  match s with
  | [] => []
  | c :: r => if (c =? ch)%N then lstrip_char ch r else s
  end.

(** [s.rstrip(ch)] for a one-character [ch]. *)
Definition rstrip_char (ch : pychar) (s : pystr) : pystr :=
  rev (lstrip_char ch (rev s)).

(** [a or b] on optional strings. *)
Definition or_else (a b : option pystr) : option pystr :=
  if truthy_opt a then a else b.

Definition ollama_names : list pystr :=
  [utf8 "ollama"; utf8 "mistral"; utf8 "local"].

Definition claude_names : list pystr :=
  [utf8 "claude"; utf8 "anthropic"].

Definition default_claude_model : pystr := utf8 "claude-3-5-sonnet-latest".

Definition missing_key_message : pystr :=
  utf8 "Anthropic API key not provided. Set ANTHROPIC_API_KEY or pass --anthropic-key.".

Section Config.

(** [str.lower]; the options [{'temperature': 0.3}] an Ollama client
    gets when it is given none; the value of [ANTHROPIC_API_KEY] in the
    environment. *)
Variable str_lower : pystr -> pystr.
Variable default_options : gmap pystr json.
Variable environ_key : option pystr.

Definition is_in (x : pystr) (names : list pystr) : bool :=
  existsb (fun n => bool_decide (x = n)) names.

(** [OllamaClient.__init__] *)
Definition new_OllamaClient (model base_url : pystr)
    (options : gmap pystr json) : LLMClient :=
  OllamaClient model (rstrip_char chr_slash base_url)
    (if bool_decide (options = ∅) then default_options else options).

(** [ClaudeClient.__init__] *)
Definition new_ClaudeClient (model api_key : pystr) : LLMClient :=
  ClaudeClient model api_key (utf8 "https://api.anthropic.com/v1/messages").

Definition from_config (backend : option pystr) (model ollama_url : pystr)
    (anthropic_key : option pystr)
    (extra_options : option (gmap pystr json)) : configured :=
  let backend_lower := str_lower (strip (or_empty backend)) in
  if is_in backend_lower ollama_names then
    Configured
      (new_OllamaClient model ollama_url
         (match extra_options with
          | Some o => if bool_decide (o = ∅) then ∅ else o
          | None => ∅
          end))
  else if is_in backend_lower claude_names then
    match or_else anthropic_key environ_key with
    | Some api_key =>
        if truthy api_key
        then Configured
               (new_ClaudeClient
                  (if truthy model then model else default_claude_model)
                  api_key)
        else ValueError missing_key_message
    | None => ValueError missing_key_message
    end
  else
    ValueError (utf8 "Unsupported backend: "
                ++ match backend with
                   | Some b => b
                   | None => utf8 "None"
                   end).

End Config.

End llm_client.

(** ** main.py: structuring a profile with the model *)

Module main_profile.
Import main_py.

Definition schema_lines : list pystr :=
  [utf8 "{";
   prepare_profile.key_line "  " "identity" (utf8 "{");
   prepare_profile.pair_line "    " "name" "Full Name" ",";
   prepare_profile.pair_line "    " "title" "Professional Title" ",";
   prepare_profile.pair_line "    " "email" "email@example.com" ",";
   prepare_profile.pair_line "    " "phone" "phone number" ",";
   prepare_profile.pair_line "    " "location" "city, country" "";
   utf8 "  },";
   prepare_profile.pair_line "  " "long_profile"
     "4-5 line professional summary" ",";
   prepare_profile.key_line "  " "experiences" (utf8 "[");
   utf8 "    {";
   prepare_profile.pair_line "      " "company" "Company Name" ",";
   prepare_profile.pair_line "      " "location" "City" ",";
   prepare_profile.pair_line "      " "role" "Job Title" ",";
   prepare_profile.pair_line "      " "dates" "YYYY-YYYY" ",";
   prepare_profile.key_line "      " "missions"
     (prepare_profile.quoted_list ["mission 1"; "mission 2"; "mission 3"]);
   utf8 "    }";
   utf8 "  ],";
   prepare_profile.key_line "  " "education" (utf8 "[");
   utf8 "    {";
   prepare_profile.pair_line "      " "degree" "Degree" ",";
   prepare_profile.pair_line "      " "school" "School" ",";
   prepare_profile.pair_line "      " "dates" "YYYY-YYYY" "";
   utf8 "    }";
   utf8 "  ],";
   prepare_profile.key_line "  " "skills" (utf8 "{");
   prepare_profile.key_line "    " "technical"
     (prepare_profile.quoted_list ["skill1"; "skill2"] ++ utf8 ",");
   prepare_profile.key_line "    " "soft"
     (prepare_profile.quoted_list ["skill1"; "skill2"]);
   utf8 "  },";
   prepare_profile.key_line "  " "languages"
     (prepare_profile.quoted_list ["Language (level)"]);
   utf8 "}"].

Definition structure_prompt (truncated_text : pystr) : pystr :=
  pdf_text_extractor.join [chr_newline]
    ([utf8 "Analyze this resume and return ONLY valid JSON with this exact structure:";
      []]
     ++ schema_lines
     ++ [[]; utf8 "RESUME:"; truncated_text; [];
         utf8 "Return ONLY the JSON:"]).

Section Structure.

Variable json_loads : pystr -> result json.

(** [_create_basic_profile_from_text], the extractor by patterns that
    is used when the model's answer cannot be. *)
Variable _create_basic_profile_from_text : pystr -> result json.

(** [self.client.generate(prompt)]; without a client the attribute
    access fails. *)
Definition client_generate (self : AIResumeGenerator) (prompt : pystr)
  : result pystr :=
  match client self with
  | Some generate => generate prompt
  | None => Raise AttributeError
  end.

Definition _structure_profile_with_ai (self : AIResumeGenerator)
    (text : pystr) : result json :=
  let truncated_text := slice_to 2000 text in
  let prompt := structure_prompt truncated_text in
  try_except
    (response ← client_generate self prompt;
     let start := find chr_lbrace response in
     let stop := rfind chr_rbrace response + 1 in
     if negb (start =? -1) && (stop >? start)
     then
       profile_data ← json_loads (slice response start stop);
       has_identity ← py_in (utf8 "identity") profile_data;
       if (has_identity : bool)
       then
         identity ← py_getitem profile_data (utf8 "identity");
         has_name ← py_in (utf8 "name") identity;
         if (has_name : bool)
         then Ok profile_data
         else _create_basic_profile_from_text text
       else _create_basic_profile_from_text text
     else _create_basic_profile_from_text text)
    (fun _ => _create_basic_profile_from_text text).

End Structure.

(** The document has the key [identity], and [name] is in what it holds
    there. *)
Definition names_someone (d : json) : Prop :=
  py_in (utf8 "identity") d = Ok true
  /\ exists identity,
       py_getitem d (utf8 "identity") = Ok identity
       /\ py_in (utf8 "name") identity = Ok true.

End main_profile.

(** ** llm_client.py: the two clients *)

Module llm_generate.
Import llm_client.

(** Truth value of a value. *)
Definition py_truthy (v : json) : bool :=
  match v with
  | JNull => false
  | JBool b => b
  | JNum z => negb (z =? 0)
  | JStr s => truthy s
  | JArr l => match l with [] => false | _ => true end
  | JObj m => negb (bool_decide (m = ∅))
  end.

(** [v.strip()]: a method of strings only. *)
Definition py_strip (v : json) : result pystr :=
  match v with
  | JStr s => Ok (strip s)
  | _ => Raise AttributeError
  end.

(** [sep.join(parts)]: every part has to be a string. *)
Fixpoint py_join_parts (parts : list json) : result (list pystr) :=
  match parts with
  | [] => Ok []
  | JStr s :: rest => ss ← py_join_parts rest; Ok (s :: ss)
  | _ :: _ => Raise TypeError
  end.

Definition py_join (sep : pystr) (parts : list json) : result pystr :=
  ss ← py_join_parts parts; Ok (pdf_text_extractor.join sep ss).

(** What one block of a Claude answer adds to [text_parts]. *)
Definition block_part (block : json) : result (list json) :=
  match block with
  | JObj b =>
      match b !! utf8 "type" with
      | Some (JStr t) =>
          if bool_decide (t = utf8 "text")
          then Ok [default (JStr []) (b !! utf8 "text")]
          else Ok []
      | _ => Ok []
      end
  | JStr _ => Ok [block]
  | _ => Ok []
  end.

Section Http.

(** The HTTP exchange of a call: [requests.post] with the payload, then
    [raise_for_status] and [response.json()]; for Claude the headers go
    with it.  [temperature] stands for the number 0.3 of the Claude
    payload. *)
Variable post : pystr -> json -> result json.
Variable post_with_headers :
  pystr -> gmap pystr pystr -> json -> result json.
Variable temperature : json.

(** The keys of a mapping in the order a loop visits them: the order of
    insertion, which a finite map does not record. *)
Variable keys_in_order : gmap pystr json -> list pystr.

(** [for block in content]: the items of a list, the characters of a
    string, the keys of a mapping in their order. *)
Definition py_iter_ordered (content : json) : result (list json) :=
  match content with
  | JObj m => Ok (List.map JStr (keys_in_order m))
  | _ => py_iter content
  end.

Definition ollama_generate (model base_url : pystr)
    (options : gmap pystr json) (prompt : pystr) : result pystr :=
  let url := base_url ++ utf8 "/api/generate" in
  let payload :=
    dict [(utf8 "model", JStr model);
          (utf8 "prompt", JStr prompt);
          (utf8 "stream", JBool false);
          (utf8 "options", JObj options)] in
  data ← post url payload;
  response ← py_get data (utf8 "response") (JStr []);
  py_strip response.

Definition claude_generate (model api_key api_url : pystr)
    (prompt : pystr) : result pystr :=
  let headers : gmap pystr pystr :=
    list_to_map [(utf8 "x-api-key", api_key);
                 (utf8 "anthropic-version", utf8 "2024-06-01");
                 (utf8 "content-type", utf8 "application/json")] in
  let payload :=
    dict [(utf8 "model", JStr model);
          (utf8 "max_tokens", JNum 1200);
          (utf8 "temperature", temperature);
          (utf8 "messages",
             JArr [dict [(utf8 "role", JStr (utf8 "user"));
                         (utf8 "content", JStr prompt)]])] in
  data ← post_with_headers api_url headers payload;
  content ← py_get data (utf8 "content") (JArr []);
  blocks ← py_iter_ordered content;
  parts ← for_each block_part blocks;
  text ← py_join [chr_newline] (List.filter py_truthy (concat parts));
  Ok (strip text).

(** [client.generate(prompt)] *)
Definition generate (c : LLMClient) (prompt : pystr) : result pystr :=
  match c with
  | OllamaClient model base_url options =>
      ollama_generate model base_url options prompt
  | ClaudeClient model api_key api_url =>
      claude_generate model api_key api_url prompt
  end.

End Http.

(** The text of a block that is a text block with a string in it, or a
    bare string. *)
Definition text_of_block (block : json) : option pystr :=
  match block with
  | JObj b =>
      match b !! utf8 "type", b !! utf8 "text" with
      | Some (JStr t), Some (JStr s) =>
          if bool_decide (t = utf8 "text") then Some s else None
      | _, _ => None
      end
  | JStr s => Some s
  | _ => None
  end.

(** A block that a Claude answer can hold without the call failing: its
    text, when it is a text block, is a string or a value that counts as
    false. *)
Definition plain_block (block : json) : bool :=
  match block with
  | JObj b =>
      match b !! utf8 "type" with
      | Some (JStr t) =>
          if bool_decide (t = utf8 "text")
          then match b !! utf8 "text" with
               | Some (JStr _) | None => true
               | Some v => negb (py_truthy v)
               end
          else true
      | _ => true
      end
  | _ => true
  end.

End llm_generate.

(** * Properties *)

(** ** Strings *)

Section StringFacts.

Example utf8_accent : utf8 "é" = [233%N].
Proof. reflexivity. Qed.

Example utf8_sentinel :
  utf8 "nom" = [110%N; 111%N; 109%N].
Proof. reflexivity. Qed.

Example strip_example :
  strip (utf8 "  Data Engineer
 ") = utf8 "Data Engineer".
Proof. reflexivity. Qed.

Example find_rfind_example :
  find chr_lbracket (utf8 "x [1, [2]] y") = 2
  /\ rfind chr_rbracket (utf8 "x [1, [2]] y") = 9
  /\ slice (utf8 "x [1, [2]] y") 2 10 = utf8 "[1, [2]]".
Proof. repeat split. Qed.

Lemma re_sub_forbidden_clean (s : pystr) (c : pychar) :
  In c (re_sub_forbidden s) -> is_forbidden c = false.
Proof.
  unfold re_sub_forbidden. intros H.
  apply filter_In in H as [_ H].
  now apply negb_true_iff in H.
Qed.

Lemma re_sub_forbidden_subset (s : pystr) (c : pychar) :
  In c (re_sub_forbidden s) -> In c s.
Proof.
  unfold re_sub_forbidden. intros H. now apply filter_In in H as [H _].
Qed.

Lemma is_forbidden_spec (c : pychar) :
  is_forbidden c = true <-> In c forbidden_chars.
Proof.
  unfold is_forbidden. rewrite existsb_exists. split.
  - intros [x [Hx Heq]]. apply N.eqb_eq in Heq. now subst.
  - intros H. exists c. split; [exact H | apply N.eqb_refl].
Qed.

Lemma slice_to_subset (n : nat) (s : pystr) (c : pychar) :
  In c (slice_to n s) -> In c s.
Proof.
  unfold slice_to. revert s. induction n as [|n IH]; intros [|x s] H;
    simpl in *; try contradiction.
  destruct H as [H | H]; [now left | right; now apply IH].
Qed.

Lemma slice_to_length (n : nat) (s : pystr) :
  (length (slice_to n s) <= n)%nat.
Proof. unfold slice_to. rewrite length_firstn. lia. Qed.

Lemma replace_newline_clean (s : pystr) :
  ~ In chr_newline (replace_char chr_newline chr_space s).
Proof.
  unfold replace_char. intros H. apply in_map_iff in H as [x [Hx _]].
  destruct (x =? chr_newline)%N eqn:E.
  - discriminate Hx.
  - apply N.eqb_neq in E. contradiction.
Qed.

Lemma str_contains_app_r (needle a b : pystr) :
  str_contains needle b = true -> str_contains needle (a ++ b) = true.
Proof.
  intros H. induction a as [|x a IH]; simpl; [exact H |].
  rewrite IH. apply orb_true_r.
Qed.

Lemma is_prefix_app (p s : pystr) : is_prefix p (p ++ s) = true.
Proof.
  induction p as [|x p IH]; simpl; [reflexivity |].
  now rewrite N.eqb_refl, IH.
Qed.

Lemma str_contains_prefix (p s : pystr) : str_contains p (p ++ s) = true.
Proof.
  destruct p as [|x p]; [now destruct s |].
  change (str_contains (x :: p) ((x :: p) ++ s))
    with (is_prefix (x :: p) ((x :: p) ++ s)
          || str_contains (x :: p) (p ++ s)).
  now rewrite is_prefix_app.
Qed.

End StringFacts.

(** ** Values that can be written as UTF-8 *)

Module encoding_facts.

Lemma fold_conjunction (g : pystr -> json -> bool) (m : gmap pystr json) :
  map_fold (fun k x acc => g k x && acc) true m = true
  <-> forall k x, m !! k = Some x -> g k x = true.
Proof.
  induction m as [|k x m Hk Hfirst IH] using map_first_key_ind.
  - rewrite map_fold_empty. split; [| reflexivity].
    intros _ k x H. now rewrite lookup_empty in H.
  - rewrite map_fold_insert_first_key by assumption.
    rewrite andb_true_iff, IH. split.
    + intros [Hx Hm] k' x' H. destruct (decide (k' = k)) as [-> | Hne].
      * rewrite lookup_insert_eq in H. now injection H as <-.
      * rewrite lookup_insert_ne in H by congruence. now apply Hm.
    + intros H. split; [apply H, lookup_insert_eq |].
      intros k' x' H'. apply H. rewrite lookup_insert_ne; [exact H' |].
      intros ->. congruence.
Qed.

Lemma encodable_obj (m : gmap pystr json) :
  encodable (JObj m) = true
  <-> forall k x, m !! k = Some x ->
        str_encodable k = true /\ encodable x = true.
Proof.
  cbn [encodable].
  rewrite (fold_conjunction (fun k x => str_encodable k && encodable x)).
  split; intros H k x Hkx; apply andb_true_iff; eauto.
Qed.

Lemma encodable_lookup (m : gmap pystr json) (k : pystr) (x : json) :
  encodable (JObj m) = true -> m !! k = Some x -> encodable x = true.
Proof. intros H Hk. exact (proj2 (proj1 (encodable_obj m) H k x Hk)). Qed.

Lemma encodable_insert (m : gmap pystr json) (k : pystr) (x : json) :
  str_encodable k = true -> encodable x = true ->
  encodable (JObj m) = true -> encodable (JObj (<[k := x]> m)) = true.
Proof.
  intros Hk Hx Hm. apply encodable_obj. intros k' x' H.
  destruct (decide (k' = k)) as [-> | Hne].
  - rewrite lookup_insert_eq in H. injection H as <-. now split.
  - rewrite lookup_insert_ne in H by congruence.
    exact (proj1 (encodable_obj m) Hm k' x' H).
Qed.

Lemma encodable_insert_inv (m : gmap pystr json) (k : pystr) (x : json) :
  encodable (JObj (<[k := x]> m)) = true ->
  str_encodable k = true /\ encodable x = true.
Proof.
  intros H. apply (proj1 (encodable_obj _) H k x), lookup_insert_eq.
Qed.

Lemma encodable_dict (kvs : list (pystr * json)) :
  Forall (fun kv => str_encodable (fst kv) = true
                    /\ encodable (snd kv) = true) kvs ->
  encodable (dict kvs) = true.
Proof.
  intros H. induction H as [|[k x] kvs [Hk Hx] _ IH]; [reflexivity |].
  unfold dict. cbn [list_to_map foldr curry fst snd].
  now apply encodable_insert.
Qed.

Lemma encodable_arr (l : list json) :
  encodable (JArr l) = true <-> Forall (fun x => encodable x = true) l.
Proof.
  cbn [encodable]. rewrite forallb_forall, List.Forall_forall. reflexivity.
Qed.

Lemma py_get_encodable (o : json) (k : pystr) (d x : json) :
  encodable o = true -> encodable d = true ->
  py_get o k d = Ok x -> encodable x = true.
Proof.
  destruct o as [| | | | |m]; try discriminate. cbn [py_get].
  intros Ho Hd H. injection H as <-.
  destruct (m !! k) as [x |] eqn:E; [| exact Hd].
  exact (encodable_lookup m k x Ho E).
Qed.

Lemma py_iter_encodable (o : json) (l : list json) :
  encodable o = true -> py_iter o = Ok l ->
  Forall (fun x => encodable x = true) l.
Proof.
  destruct o as [| | |s |l' |m]; try discriminate; cbn [py_iter];
    intros Ho H; injection H as <-.
  - cbn [encodable] in Ho. unfold str_encodable in Ho.
    rewrite forallb_forall in Ho. apply List.Forall_forall.
    intros x Hx. apply in_map_iff in Hx as (c & <- & Hc).
    cbn [encodable str_encodable forallb]. now rewrite (Ho c Hc).
  - now apply encodable_arr.
  - apply List.Forall_forall. intros x Hx.
    apply in_map_iff in Hx as ([k y] & <- & Hk).
    apply list_elem_of_In, elem_of_map_to_list in Hk.
    exact (proj1 (proj1 (encodable_obj m) Ho k y Hk)).
Qed.

Lemma py_setitem_encodable (o : json) (k : pystr) (x o' : json) :
  encodable o = true -> str_encodable k = true -> encodable x = true ->
  py_setitem o k x = Ok o' -> encodable o' = true.
Proof.
  destruct o as [| | | | |m]; try discriminate. cbn [py_setitem].
  intros Ho Hk Hx H. injection H as <-. now apply encodable_insert.
Qed.

Lemma for_each_encodable (f : json -> result json) (l ys : list json) :
  (forall x y, encodable x = true -> f x = Ok y -> encodable y = true) ->
  Forall (fun x => encodable x = true) l ->
  for_each f l = Ok ys ->
  Forall (fun y => encodable y = true) ys.
Proof.
  intros Hf H. revert ys. induction H as [|x l Hx _ IH]; intros ys.
  - intros E. injection E as <-. constructor.
  - cbn [for_each]. destruct (f x) as [y |] eqn:Ey; [| discriminate].
    cbn [mbind result_bind].
    destruct (for_each f l) as [ys' |]; [| discriminate].
    cbn [mbind result_bind]. intros E. injection E as <-.
    constructor; [exact (Hf x y Hx Ey) | now apply IH].
Qed.

Example lone_surrogate_not_encodable :
  encodable (dict [(utf8 "nom", JStr profile_memory.lone_surrogate)]) = false.
Proof. reflexivity. Qed.

End encoding_facts.

(** ** generate_resume.py: title and file name *)

Module generate_resume_facts.
Import generate_resume.

Lemma re_sub_forbidden_safe (s : pystr) : filename_safe (re_sub_forbidden s).
Proof.
  intros c Hc Hin. apply is_forbidden_spec in Hc.
  apply re_sub_forbidden_clean in Hin. congruence.
Qed.

Lemma pdf_suffix_safe (s : pystr) :
  filename_safe s -> filename_safe (s ++ utf8 ".pdf").
Proof.
  intros Hs c Hc Hin. apply in_app_or in Hin as [Hin | Hin].
  - exact (Hs c Hc Hin).
  - simpl in Hc, Hin.
    repeat (destruct Hc as [Hc | Hc]; [subst c; intuition discriminate |]).
    exact Hc.
Qed.

Section Sanitization.

Variable str_lower : pystr -> pystr.
Variable today : pystr.

Lemma title_of_response (self : ResumeGenerator) (offer response : pystr) :
  (forall prompt, client self prompt = Ok response) ->
  fst (extract_job_title str_lower self offer)
  = Ok (let title :=
          slice_to 50 (re_sub_forbidden
            (replace_char chr_newline chr_space (strip response))) in
        if truthy title then Some title else None).
Proof.
  intros H. unfold extract_job_title, _generate. simpl. now rewrite H.
Qed.

Lemma generate_filename_shape (self : ResumeGenerator)
    (job_title : option pystr) (r : pystr) :
  generate_filename today self job_title = Ok r ->
  (exists stem, r = stem ++ utf8 ".pdf") /\ filename_safe r.
Proof.
  unfold generate_filename. intros H.
  destruct (if truthy_opt job_title then _ else _) as [name | e];
    simpl in H; [| discriminate].
  injection H as <-. split.
  - eexists. reflexivity.
  - apply pdf_suffix_safe, re_sub_forbidden_safe.
Qed.

Lemma generate_filename_returns (self : ResumeGenerator)
    (job_title : option pystr) :
  truthy_opt job_title = true \/ has_candidate_name (profile self) ->
  exists r, generate_filename today self job_title = Ok r.
Proof.
  intros H. unfold generate_filename.
  destruct (truthy_opt job_title) eqn:E; [simpl; eauto |].
  destruct H as [H | (identity & name & H1 & H2)]; [discriminate |].
  rewrite H1. simpl. rewrite H2. simpl. eauto.
Qed.

End Sanitization.

(** C10, as stated, fails for a missing title: the name is then built
    from [profile['identity']['name']], and a profile that the program
    itself produces can hold null there.  Migrating a French file whose
    [identite] has no [nom] gives such a profile, and
    [generate_filename(None)] raises [AttributeError] on it instead of
    returning a name. *)
Lemma filename_sanitization_counterexample :
  let legacy :=
    dict [(utf8 "identite", dict [(utf8 "titre", JStr (utf8 "Ingénieure"))]);
          (utf8 "profil_long", JStr (utf8 "..."))] in
  exists prof,
    profile_memory._migrate_french_to_english legacy = Ok prof
    /\ generate_filename (utf8 "20240131")
         {| client := fun _ => Ok (utf8 "Data Engineer");
            profile := prof; locale := en |} None
       = Raise AttributeError.
Proof. cbv zeta. eexists. split; reflexivity. Qed.

(** C10, amended.  Whatever string the completion service answers,
    [extract_job_title] returns [None] or a title of at most 50
    characters with no character of the forbidden class and no newline.
    For every [job_title] that is a non-empty string, and for a missing
    or empty one when the profile holds the candidate's name as a
    string, [generate_filename] returns a name that ends in [.pdf] and
    has no forbidden character.  For a missing or empty title and a
    name that is not a string, it raises [AttributeError]. *)
Theorem filename_sanitization :
  (forall str_lower prof loc offer response,
      exists r,
        fst (extract_job_title str_lower
               {| client := fun _ => Ok response;
                  profile := prof; locale := loc |} offer) = Ok r
        /\ match r with
           | None => True
           | Some t =>
               (length t <= 50)%nat /\ filename_safe t
               /\ ~ In chr_newline t
           end)
  /\ (forall today self job_title,
        truthy_opt job_title = true \/ has_candidate_name (profile self) ->
        exists r,
          generate_filename today self job_title = Ok r
          /\ (exists stem, r = stem ++ utf8 ".pdf")
          /\ filename_safe r)
  /\ (forall today self job_title identity name,
        truthy_opt job_title = false ->
        py_getitem (profile self) (utf8 "identity") = Ok identity ->
        py_getitem identity (utf8 "name") = Ok name ->
        (forall s, name <> JStr s) ->
        generate_filename today self job_title = Raise AttributeError).
Proof.
  split; [| split].
  - intros str_lower prof loc offer response.
    eexists. split.
    + apply title_of_response. intros prompt. reflexivity.
    + cbv zeta.
      set (clean := re_sub_forbidden _).
      destruct (truthy (slice_to 50 clean)); [| exact I].
      split; [apply slice_to_length |]. split.
      * intros c Hc Hin. apply slice_to_subset in Hin.
        exact (re_sub_forbidden_safe _ c Hc Hin).
      * intros Hin. apply slice_to_subset in Hin.
        apply re_sub_forbidden_subset in Hin.
        exact (replace_newline_clean _ Hin).
  - intros today self job_title H.
    destruct (generate_filename_returns today self job_title H) as [r Hr].
    exists r. split; [exact Hr |].
    exact (generate_filename_shape today self job_title r Hr).
  - intros today self job_title identity name Ht Hi Hn Hs.
    unfold generate_filename. rewrite Ht, Hi. cbn [mbind result_bind].
    rewrite Hn. cbn [mbind result_bind].
    destruct name as [| | | s | |]; try reflexivity.
    now contradiction (Hs s).
Qed.

(** The file name for a missing title, from a profile that names the
    candidate. *)
Lemma filename_sanitization_witness :
  exists r,
    generate_filename (utf8 "20240131")
      {| client := fun _ => Raise (RequestException []);
         profile := dict [(utf8 "identity",
                           dict [(utf8 "name", JStr (utf8 "Ana Dupont"))])];
         locale := en |} None = Ok r
    /\ (exists stem, r = stem ++ utf8 ".pdf")
    /\ filename_safe r.
Proof.
  apply (proj1 (proj2 filename_sanitization)). right.
  exists (dict [(utf8 "name", JStr (utf8 "Ana Dupont"))]), (utf8 "Ana Dupont").
  split; reflexivity.
Defined.

Example generate_filename_example :
  generate_filename (utf8 "20240131")
    {| client := fun _ => Raise (RequestException []);
       profile := dict [(utf8 "identity",
                         dict [(utf8 "name", JStr (utf8 "Ana Dupont"))])];
       locale := en |} None
  = Ok (utf8 "Resume_Ana_Dupont_20240131.pdf").
Proof. reflexivity. Qed.

Example extract_job_title_example :
  fst (extract_job_title (fun s => s)
         {| client := fun _ => Ok (utf8 " Dev/Ops: Lead?
");
            profile := JNull; locale := en |} (utf8 "offer"))
  = Ok (Some (utf8 "DevOps Lead")).
Proof. reflexivity. Qed.

End generate_resume_facts.

(** ** pdf_text_extractor.py *)

Module pdf_text_extractor_facts.
Import pdf_text_extractor.

Lemma try_except_total {A} (body : result A) (a : A) :
  exists x, try_except body (fun _ => Ok a) = Ok x.
Proof. destruct body; simpl; eauto. Qed.

Lemma truthy_false (s : pystr) : truthy s = false -> s = [].
Proof. destruct s; [reflexivity | discriminate]. Qed.

Section Strategies.

Variables page image : Type.
Variable import_PyPDF2 : result unit.
Variable PdfReader_pages : pystr -> result (list page).
Variable page_extract_text : page -> result (option pystr).
Variable import_pdfminer : result unit.
Variable pdfminer_extract_text : pystr -> result (option pystr).
Variable import_pdf2image_pytesseract : result unit.
Variable convert_from_path : pystr -> result (list image).
Variable image_to_string : image -> pystr -> result pystr.

Let direct_text_layer :=
  _try_pypdf2 page import_PyPDF2 PdfReader_pages page_extract_text.
Let alternate_parser :=
  _try_pdfminer import_pdfminer pdfminer_extract_text.
Let ocr :=
  _try_ocr image import_pdf2image_pytesseract convert_from_path
    image_to_string.

Lemma _try_pypdf2_returns (path : pystr) :
  exists t, direct_text_layer path = Ok t.
Proof.
  unfold direct_text_layer, _try_pypdf2.
  destruct import_PyPDF2; [apply try_except_total | eauto].
Qed.

Lemma _try_pdfminer_returns (path : pystr) :
  exists t, alternate_parser path = Ok t.
Proof.
  unfold alternate_parser, _try_pdfminer.
  destruct import_pdfminer; [apply try_except_total | eauto].
Qed.

Lemma _try_ocr_returns (path : pystr) (lang : option pystr) :
  exists t, ocr path lang = Ok t.
Proof.
  unfold ocr, _try_ocr.
  destruct import_pdf2image_pytesseract; [apply try_except_total | eauto].
Qed.

(** C3.  Whatever the three libraries do on the path (import or not,
    return text, return nothing, raise), each strategy returns a string
    and [extract_pdf_text_any] returns the first non-empty one in the
    order direct text layer, alternate parser, OCR, or the empty string
    when all three are empty.  It raises in no case, so in none where
    only the text is missing. *)
Theorem extract_pdf_text_any_first_non_empty
    (path : pystr) (ocr_lang : option pystr) :
  exists t1 t2 t3,
    direct_text_layer path = Ok t1
    /\ alternate_parser path = Ok t2
    /\ ocr path ocr_lang = Ok t3
    /\ extract_pdf_text_any page image import_PyPDF2 PdfReader_pages
         page_extract_text import_pdfminer pdfminer_extract_text
         import_pdf2image_pytesseract convert_from_path image_to_string
         path ocr_lang
       = Ok (first_non_empty [t1; t2; t3]).
Proof.
  destruct (_try_pypdf2_returns path) as [t1 H1].
  destruct (_try_pdfminer_returns path) as [t2 H2].
  destruct (_try_ocr_returns path ocr_lang) as [t3 H3].
  exists t1, t2, t3. repeat split; try assumption.
  unfold extract_pdf_text_any.
  fold direct_text_layer alternate_parser ocr.
  rewrite H1. simpl. unfold first_non_empty. simpl.
  destruct (truthy t1) eqn:E1; [reflexivity |].
  rewrite H2. simpl.
  destruct (truthy t2) eqn:E2; [reflexivity |].
  rewrite H3.
  destruct (truthy t3) eqn:E3; [reflexivity |].
  now rewrite (truthy_false t3 E3).
Qed.

End Strategies.

(** A scanned document: the text layer is blank, the alternate parser is
    not installed, OCR reads the page. *)
Example extract_scanned :
  extract_pdf_text_any unit unit
    (Ok tt) (fun _ => Ok [tt]) (fun _ => Ok (Some (utf8 "  ")))
    (Raise ImportError) (fun _ => Ok None)
    (Ok tt) (fun _ => Ok [tt]) (fun _ _ => Ok (utf8 "Ana Dupont
"))
    (utf8 "cv.pdf") None
  = Ok (utf8 "Ana Dupont").
Proof. reflexivity. Qed.

(** A missing file: every library call on the path raises, and the
    extractor returns the empty string. *)
Example extract_missing_file :
  let missing := FileNotFoundError (utf8 "cv.pdf") in
  extract_pdf_text_any unit unit
    (Ok tt) (fun _ => Raise missing) (fun _ => Ok None)
    (Ok tt) (fun _ => Raise missing)
    (Ok tt) (fun _ => Raise missing) (fun _ _ => Ok [])
    (utf8 "cv.pdf") None
  = Ok [].
Proof. reflexivity. Qed.

End pdf_text_extractor_facts.

(** ** generate_resume.py: the tailoring stages *)

Module tailoring_facts.
Import generate_resume.

Section Stages.

Variable py_repr : json -> pystr.
Variable json_dumps : json -> pystr.
Variable json_loads : pystr -> result json.
Variable prof : json.
Variable loc : Locale.
Variable offer : pystr.

Let generator (c : pystr -> result pystr) : ResumeGenerator :=
  {| client := c; profile := prof; locale := loc |}.

Lemma adapt_profile_outcome (c : pystr -> result pystr) (long_profile : json) :
  py_getitem prof (utf8 "long_profile") = Ok long_profile ->
  exists prompt, adapt_profile py_repr (generator c) offer = c prompt.
Proof.
  intros H. unfold adapt_profile, _generate. simpl. rewrite H. simpl.
  eexists. reflexivity.
Qed.

Lemma select_skills_outcome (c : pystr -> result pystr) (skills : json) :
  py_getitem prof (utf8 "skills") = Ok skills ->
  exists prompt, select_skills json_dumps (generator c) offer = c prompt.
Proof.
  intros H. unfold select_skills, _generate. simpl. rewrite H. simpl.
  eexists. reflexivity.
Qed.

Lemma select_experiences_raise (e : exn) (experiences : json) :
  py_getitem prof (utf8 "experiences") = Ok experiences ->
  select_experiences json_dumps json_loads (generator (raising_client e))
    offer = Raise e.
Proof.
  intros H. unfold select_experiences, _generate. simpl. now rewrite H.
Qed.

(** The text that [select_experiences] parses is the bracketed part of
    the answer. *)
Lemma select_experiences_answer (response : pystr) (experiences : json) :
  py_getitem prof (utf8 "experiences") = Ok experiences ->
  select_experiences json_dumps json_loads
    (generator (constant_client response)) offer
  = except_JSONDecodeError
      (json_loads (between chr_lbracket chr_rbracket response))
      (py_slice_to 2 experiences).
Proof.
  intros H. unfold select_experiences, _generate, between. simpl.
  rewrite H. simpl.
  destruct (negb _ && _); reflexivity.
Qed.

Lemma select_experiences_fallback (response : pystr) (l : list json) :
  json_loads (between chr_lbracket chr_rbracket response)
  = Raise JSONDecodeError ->
  py_getitem prof (utf8 "experiences") = Ok (JArr l) ->
  select_experiences json_dumps json_loads
    (generator (constant_client response)) offer
  = Ok (JArr (firstn 2 l)).
Proof.
  intros Hbad H. rewrite (select_experiences_answer response _ H).
  now rewrite Hbad.
Qed.

Lemma select_experiences_parsed (response : pystr) (experiences v : json) :
  json_loads (between chr_lbracket chr_rbracket response) = Ok v ->
  py_getitem prof (utf8 "experiences") = Ok experiences ->
  select_experiences json_dumps json_loads
    (generator (constant_client response)) offer
  = Ok v.
Proof.
  intros Hgood H. rewrite (select_experiences_answer response _ H).
  now rewrite Hgood.
Qed.

Lemma stage_raises_without_key {A} (k : pystr) (f : json -> result A) :
  (forall v, py_getitem prof k = Ok v -> exists e, f v = Raise e) ->
  exists e, (py_getitem prof k ≫= f) = Raise e.
Proof.
  intros H. destruct (py_getitem prof k) as [v | e] eqn:E; simpl.
  - now apply H.
  - eauto.
Qed.

End Stages.

(** C1, as stated, fails: with a completion service that raises on every
    call, the three stages of [generate_resume.py] on the sample profile
    raise the service's exception; none returns a fallback value. *)
Lemma stages_fallback_counterexample :
  let down := RequestException (utf8 "connection refused") in
  let self := {| client := raising_client down;
                 profile := sample_profile; locale := en |} in
  adapt_profile (fun _ => []) self (utf8 "Data engineer wanted")
    = Raise down
  /\ select_experiences (fun _ => []) (fun _ => Raise JSONDecodeError)
       self (utf8 "Data engineer wanted")
     = Raise down
  /\ select_skills (fun _ => []) self (utf8 "Data engineer wanted")
     = Raise down.
Proof. repeat split. Qed.

(** C1, amended.  For every profile and job offer: when the completion
    service raises, each of [adapt_profile], [select_experiences] and
    [select_skills] raises too, and raises the service's exception as
    soon as the profile has the field the stage reads; no stage catches
    it.  A fallback exists in [select_experiences] alone, for an answer
    that does not parse: when the parser raises [JSONDecodeError] on the
    part of the answer it is given (from the first opening bracket to
    the last closing one, or the whole answer), the stage returns
    exactly the first 2 entries of the profile's experiences.
    [adapt_profile] and [select_skills] return the service's answer as
    it is. *)
Theorem stages_propagate_service_failure :
  forall (py_repr json_dumps : json -> pystr)
         (json_loads : pystr -> result json)
         (prof : json) (loc : Locale) (offer : pystr),
    let generator c := {| client := c; profile := prof; locale := loc |} in
    (forall e,
        (exists e1, adapt_profile py_repr (generator (raising_client e))
                      offer = Raise e1)
        /\ (exists e2, select_experiences json_dumps json_loads
                         (generator (raising_client e)) offer = Raise e2)
        /\ (exists e3, select_skills json_dumps
                         (generator (raising_client e)) offer = Raise e3))
    /\ (forall e long_profile,
          py_getitem prof (utf8 "long_profile") = Ok long_profile ->
          adapt_profile py_repr (generator (raising_client e)) offer
          = Raise e)
    /\ (forall e experiences,
          py_getitem prof (utf8 "experiences") = Ok experiences ->
          select_experiences json_dumps json_loads
            (generator (raising_client e)) offer
          = Raise e)
    /\ (forall e skills,
          py_getitem prof (utf8 "skills") = Ok skills ->
          select_skills json_dumps (generator (raising_client e)) offer
          = Raise e)
    /\ (forall response experiences,
          json_loads (between chr_lbracket chr_rbracket response)
          = Raise JSONDecodeError ->
          py_getitem prof (utf8 "experiences") = Ok (JArr experiences) ->
          select_experiences json_dumps json_loads
            (generator (constant_client response)) offer
          = Ok (JArr (firstn 2 experiences)))
    /\ (forall response long_profile,
          py_getitem prof (utf8 "long_profile") = Ok long_profile ->
          adapt_profile py_repr (generator (constant_client response)) offer
          = Ok response)
    /\ (forall response skills,
          py_getitem prof (utf8 "skills") = Ok skills ->
          select_skills json_dumps (generator (constant_client response))
            offer
          = Ok response).
Proof.
  intros py_repr json_dumps json_loads prof loc offer generator.
  assert (Ha : forall c long_profile,
             py_getitem prof (utf8 "long_profile") = Ok long_profile ->
             exists prompt,
               adapt_profile py_repr (generator c) offer = c prompt)
    by (intros c; apply adapt_profile_outcome).
  assert (Hs : forall c skills,
             py_getitem prof (utf8 "skills") = Ok skills ->
             exists prompt,
               select_skills json_dumps (generator c) offer = c prompt)
    by (intros c; apply select_skills_outcome).
  assert (He : forall e experiences,
             py_getitem prof (utf8 "experiences") = Ok experiences ->
             select_experiences json_dumps json_loads
               (generator (raising_client e)) offer = Raise e)
    by (intros e; apply select_experiences_raise).
  split; [| repeat split].
  - intros e. repeat split.
    + destruct (py_getitem prof (utf8 "long_profile")) as [v | e'] eqn:E.
      * destruct (Ha (raising_client e) v eq_refl) as [p ->]. now exists e.
      * exists e'. unfold adapt_profile. simpl. now rewrite E.
    + destruct (py_getitem prof (utf8 "experiences")) as [v | e'] eqn:E.
      * exists e. now apply (He e v).
      * exists e'. unfold select_experiences. simpl. now rewrite E.
    + destruct (py_getitem prof (utf8 "skills")) as [v | e'] eqn:E.
      * destruct (Hs (raising_client e) v eq_refl) as [p ->]. now exists e.
      * exists e'. unfold select_skills. simpl. now rewrite E.
  - intros e v H. now destruct (Ha (raising_client e) v H) as [p ->].
  - exact He.
  - intros e v H. now destruct (Hs (raising_client e) v H) as [p ->].
  - intros response l Hbad H.
    now apply select_experiences_fallback.
  - intros response v H.
    now destruct (Ha (constant_client response) v H) as [p ->].
  - intros response v H.
    now destruct (Hs (constant_client response) v H) as [p ->].
Qed.

(** The fallback of [select_experiences] on the sample profile, with a
    parser that reads the empty array and rejects the answer at hand,
    whose bracketed part is not JSON: the first two experiences. *)
Lemma stages_propagate_service_failure_witness :
  let loads : pystr -> result json :=
    fun s => if bool_decide (s = utf8 "[]") then Ok (JArr [])
             else Raise JSONDecodeError in
  select_experiences (fun _ => []) loads
    {| client := constant_client (utf8 "Sorry [I cannot] help with that.");
       profile := sample_profile; locale := en |}
    (utf8 "Data engineer wanted")
  = Ok (JArr (firstn 2 [sample_experience "Acme"; sample_experience "Globex";
                        sample_experience "Initech"])).
Proof.
  intros loads.
  apply (stages_propagate_service_failure
           (fun _ => []) (fun _ => []) loads
           sample_profile en (utf8 "Data engineer wanted")).
  - reflexivity.
  - reflexivity.
Defined.

End tailoring_facts.

(** ** profile_memory.py: the migrations *)

Module migration_facts.
Import profile_memory encoding_facts.

Ltac invert_binds H :=
  repeat match type of H with
  | (mbind _ ?r = Ok _) => destruct r eqn:?; simpl in H; [| discriminate]
  end.

Lemma any_in_dict (ks : list pystr) (m : gmap pystr json) :
  any_in ks (JObj m) = Ok (has_any_key ks m).
Proof.
  induction ks as [|k ks IH]; simpl; [reflexivity |].
  destruct (m !! k); [reflexivity | exact IH].
Qed.

Lemma has_any_key_insert (ks : list pystr) (k : pystr) (v : json)
    (m : gmap pystr json) :
  ~ In k ks -> has_any_key ks (<[k := v]> m) = has_any_key ks m.
Proof.
  intros Hk. unfold has_any_key. induction ks as [|x ks IH]; [reflexivity |].
  simpl. rewrite lookup_insert_ne.
  - f_equal. apply IH. intros H. apply Hk. now right.
  - intros ->. apply Hk. now left.
Qed.

Lemma for_each_returns {A B} (f : A -> result B) (ok : A -> bool)
    (l : list A) :
  (forall x, ok x = true -> exists y, f x = Ok y) ->
  forallb ok l = true -> exists ys, for_each f l = Ok ys.
Proof.
  intros Hf. induction l as [|x l IH]; simpl; [eauto |].
  intros H. apply andb_true_iff in H as [Hx Hl].
  destruct (Hf x Hx) as [y ->]. destruct (IH Hl) as [ys ->]. simpl. eauto.
Qed.

Lemma french_experience_dict (exp : gmap pystr json) :
  french_experience (JObj exp) = Ok (translate_french_experience exp).
Proof. reflexivity. Qed.

Lemma french_experience_returns (exp : json) :
  is_dict exp = true -> exists v, french_experience exp = Ok v.
Proof.
  destruct exp; try discriminate. intros _.
  rewrite french_experience_dict. eauto.
Qed.

Lemma spanish_experience_returns (exp : json) :
  is_dict exp = true -> exists v, spanish_experience exp = Ok v.
Proof.
  destruct exp; try discriminate. intros _.
  unfold spanish_experience. simpl. eauto.
Qed.

Lemma for_each_french_experiences (exps : list (gmap pystr json)) :
  for_each french_experience (List.map JObj exps)
  = Ok (List.map translate_french_experience exps).
Proof.
  induction exps as [|e exps IH]; [reflexivity |].
  cbn [List.map for_each]. rewrite french_experience_dict, IH. reflexivity.
Qed.

(** What either migration returns has the canonical keys and no sentinel
    key of either dialect. *)
Lemma french_output (x y : json) :
  _migrate_french_to_english x = Ok y ->
  canonical_shape y = true
  /\ _looks_french_schema y = Ok false
  /\ _looks_spanish_schema y = Ok false.
Proof.
  unfold _migrate_french_to_english. intros H. invert_binds H.
  injection H as <-. repeat split.
Qed.

Lemma spanish_output (x y : json) :
  _migrate_spanish_to_english x = Ok y ->
  canonical_shape y = true
  /\ _looks_french_schema y = Ok false
  /\ _looks_spanish_schema y = Ok false.
Proof.
  unfold _migrate_spanish_to_english. intros H. invert_binds H.
  injection H as <-. repeat split.
Qed.

(** The migrations copy values and add keys of their own, all ASCII: a
    document that can be encoded is migrated to one that can. *)
Ltac solve_encodable :=
  match goal with
  | |- encodable _ = true => assumption
  | |- encodable _ = true => reflexivity
  | H : py_get ?o ?k ?d = Ok ?x |- encodable ?x = true =>
      apply (py_get_encodable o k d x);
        [solve_encodable | solve_encodable | exact H]
  end.

Ltac encodable_entries :=
  apply encodable_dict; repeat constructor; cbn [fst snd];
    try reflexivity; try solve_encodable.

Lemma french_experience_encodable (exp y : json) :
  encodable exp = true -> french_experience exp = Ok y -> encodable y = true.
Proof.
  intros He H. unfold french_experience in H. invert_binds H.
  injection H as <-. encodable_entries.
Qed.

Lemma spanish_experience_encodable (exp y : json) :
  encodable exp = true -> spanish_experience exp = Ok y -> encodable y = true.
Proof.
  intros He H. unfold spanish_experience in H. invert_binds H.
  injection H as <-. encodable_entries.
Qed.

Lemma experiences_encodable (f : json -> result json) (o : json)
    (exps ys : list json) :
  (forall x y, encodable x = true -> f x = Ok y -> encodable y = true) ->
  encodable o = true ->
  py_iter o = Ok exps ->
  for_each f exps = Ok ys ->
  encodable (JArr ys) = true.
Proof.
  intros Hf Ho Hi He. apply encodable_arr.
  apply (for_each_encodable f exps ys Hf); [| exact He].
  exact (py_iter_encodable o exps Ho Hi).
Qed.

Lemma french_encodable (x y : json) :
  encodable x = true ->
  _migrate_french_to_english x = Ok y -> encodable y = true.
Proof.
  intros Hx H. unfold _migrate_french_to_english in H. invert_binds H.
  injection H as <-. encodable_entries.
  - encodable_entries.
  - eapply (experiences_encodable french_experience);
      [exact french_experience_encodable | | eassumption | eassumption].
    solve_encodable.
  - encodable_entries.
  - match goal with
    | |- encodable (match ?i with JNull => _ | _ => _ end) = true =>
        assert (Hi : encodable i = true) by solve_encodable;
          destruct i; first [reflexivity | exact Hi]
    end.
Qed.

Lemma spanish_encodable (x y : json) :
  encodable x = true ->
  _migrate_spanish_to_english x = Ok y -> encodable y = true.
Proof.
  intros Hx H. unfold _migrate_spanish_to_english in H. invert_binds H.
  injection H as <-. encodable_entries.
  - encodable_entries.
  - eapply (experiences_encodable spanish_experience);
      [exact spanish_experience_encodable | | eassumption | eassumption].
    solve_encodable.
  - encodable_entries.
  - match goal with
    | |- encodable (match ?i with JNull => _ | _ => _ end) = true =>
        assert (Hi : encodable i = true) by solve_encodable;
          destruct i; first [reflexivity | exact Hi]
    end.
Qed.

Ltac split_shape H Hi Hc He :=
  apply andb_true_iff in H as [H He];
  apply andb_true_iff in H as [Hi Hc].

Ltac default_entries :=
  repeat (constructor;
          [let Hn := fresh "Hn" in
           cbn [fst snd]; intros Hn;
           first [congruence | rewrite ?Hn; reflexivity] |]);
  constructor.

Lemma french_returns (m : gmap pystr json) :
  french_shaped m = true ->
  exists y, _migrate_french_to_english (JObj m) = Ok y
            /\ defaults_hold french_defaults m y.
Proof.
  unfold french_shaped. intros H. split_shape H Hi Hc He.
  destruct (m !! utf8 "identite") as [[]|] eqn:Ei; try discriminate Hi;
    destruct (m !! utf8 "competences") as [[]|] eqn:Ec;
    try discriminate Hc.
  all: destruct (m !! utf8 "experiences") as [v|] eqn:Ee; simpl in He.
  all: try (destruct (py_iter v) as [items|] eqn:Eit; [| discriminate He];
            destruct (for_each_returns french_experience is_dict items
                        french_experience_returns He) as [ys Hys]).
  all: unfold _migrate_french_to_english; simpl;
    rewrite ?Ei, ?Ec, ?Ee; simpl; rewrite ?Eit; simpl;
    rewrite ?Hys; simpl.
  all: eexists; split; [reflexivity |].
  all: unfold defaults_hold, french_defaults; default_entries.
Qed.

Lemma spanish_returns (m : gmap pystr json) :
  spanish_shaped m = true ->
  exists y, _migrate_spanish_to_english (JObj m) = Ok y
            /\ defaults_hold spanish_defaults m y.
Proof.
  unfold spanish_shaped. intros H. split_shape H Hi Hc He.
  destruct (m !! utf8 "identidad") as [[]|] eqn:Ei; try discriminate Hi;
    destruct (m !! utf8 "competencias") as [[]|] eqn:Ec;
    try discriminate Hc.
  all: destruct (m !! utf8 "experiencias") as [v|] eqn:Ee; simpl in He.
  all: try (destruct (py_iter v) as [items|] eqn:Eit; [| discriminate He];
            destruct (for_each_returns spanish_experience is_dict items
                        spanish_experience_returns He) as [ys Hys]).
  all: unfold _migrate_spanish_to_english; simpl;
    rewrite ?Ei, ?Ec, ?Ee; simpl; rewrite ?Eit; simpl;
    rewrite ?Hys; simpl.
  all: eexists; split; [reflexivity |].
  all: unfold defaults_hold, spanish_defaults; default_entries.
Qed.

Lemma migrate_french (data : json) :
  _looks_french_schema data = Ok true ->
  migrate data = _migrate_french_to_english data.
Proof. intros H. unfold migrate. now rewrite H. Qed.

Lemma migrate_spanish (data : json) :
  _looks_french_schema data = Ok false ->
  _looks_spanish_schema data = Ok true ->
  migrate data = _migrate_spanish_to_english data.
Proof. intros H1 H2. unfold migrate. rewrite H1. simpl. now rewrite H2. Qed.

Lemma migrate_canonical (data : json) :
  _looks_french_schema data = Ok false ->
  _looks_spanish_schema data = Ok false ->
  migrate data = Ok data.
Proof. intros H1 H2. unfold migrate. rewrite H1. simpl. now rewrite H2. Qed.

Lemma migrate_fixes_output (x y : json) :
  migrate x = Ok y -> migrate y = Ok y.
Proof.
  unfold migrate at 1. intros H.
  destruct (_looks_french_schema x) as [[] | e] eqn:Ef; simpl in H;
    [| | discriminate].
  - apply french_output in H as (_ & H1 & H2). now apply migrate_canonical.
  - destruct (_looks_spanish_schema x) as [[] | e] eqn:Es; simpl in H;
      [| | discriminate].
    + apply spanish_output in H as (_ & H1 & H2).
      now apply migrate_canonical.
    + injection H as <-. now apply migrate_canonical.
Qed.

Lemma migrate_returns_french (m : gmap pystr json) :
  has_any_key french_sentinels m = true ->
  french_shaped m = true ->
  exists y, migrate (JObj m) = Ok y
            /\ canonical_shape y = true
            /\ defaults_hold french_defaults m y.
Proof.
  intros Hk Hs. destruct (french_returns m Hs) as (y & Hy & Hd).
  exists y. rewrite migrate_french.
  - repeat split; [exact Hy | | exact Hd].
    now apply french_output in Hy as (? & _).
  - unfold _looks_french_schema. now rewrite any_in_dict, Hk.
Qed.

Lemma migrate_returns_spanish (m : gmap pystr json) :
  has_any_key french_sentinels m = false ->
  has_any_key spanish_sentinels m = true ->
  spanish_shaped m = true ->
  exists y, migrate (JObj m) = Ok y
            /\ canonical_shape y = true
            /\ defaults_hold spanish_defaults m y.
Proof.
  intros Hf Hk Hs. destruct (spanish_returns m Hs) as (y & Hy & Hd).
  exists y. rewrite migrate_spanish.
  - repeat split; [exact Hy | | exact Hd].
    now apply spanish_output in Hy as (? & _).
  - unfold _looks_french_schema. now rewrite any_in_dict, Hf.
  - unfold _looks_spanish_schema. now rewrite any_in_dict, Hk.
Qed.

(** C2, as stated, fails twice.  A document with the sentinel key
    [identite] bound to [null] makes the migration raise; and a document
    that has a sentinel key but no identity and no education gets [null]
    for the name, the title and the education, not the empty string. *)
Lemma migrate_total_counterexample :
  migrate (dict [(utf8 "identite", JNull)]) = Raise AttributeError
  /\ migrate (dict [(utf8 "profil_long", JStr (utf8 "Data engineer."))])
     = Ok (dict [
         (utf8 "identity", dict [(utf8 "name", JNull); (utf8 "title", JNull)]);
         (utf8 "long_profile", JStr (utf8 "Data engineer."));
         (utf8 "experiences", JArr []);
         (utf8 "skills", dict [(utf8 "technical", JArr []);
                               (utf8 "methodological", JArr [])]);
         (utf8 "education", JNull);
         (utf8 "languages", JArr []);
         (utf8 "interests", JArr []);
         (utf8 "memory_notes", dict [])]).
Proof. split; reflexivity. Qed.

(** C2, amended.  For every mapping with a sentinel key whose identity
    and skills entries, when present, are mappings and whose experiences
    entry, when present, iterates over mappings only, the migration
    returns, and what it returns has every required canonical key
    (identity with name and title, long_profile, experiences, skills,
    education, languages, interests, memory_notes).  A missing source
    field becomes the empty sequence where a sequence is expected, the
    empty mapping for memory_notes, and null (not the empty string)
    for the name, the title, the long profile and the education. *)
Theorem migrate_total_on_shaped (m : gmap pystr json) :
  (has_any_key french_sentinels m = true ->
   french_shaped m = true ->
   exists y, migrate (JObj m) = Ok y
             /\ canonical_shape y = true
             /\ defaults_hold french_defaults m y)
  /\ (has_any_key french_sentinels m = false ->
      has_any_key spanish_sentinels m = true ->
      spanish_shaped m = true ->
      exists y, migrate (JObj m) = Ok y
                /\ canonical_shape y = true
                /\ defaults_hold spanish_defaults m y).
Proof.
  split; [apply migrate_returns_french | apply migrate_returns_spanish].
Qed.

(** A Spanish document that only has its summary. *)
Lemma migrate_total_on_shaped_witness :
  exists y,
    migrate (JObj {[utf8 "perfil_largo" := JStr (utf8 "Ingeniera.")]})
    = Ok y
    /\ canonical_shape y = true
    /\ defaults_hold spanish_defaults
         {[utf8 "perfil_largo" := JStr (utf8 "Ingeniera.")]} y.
Proof.
  apply (proj2 (migrate_total_on_shaped
                  {[utf8 "perfil_largo" := JStr (utf8 "Ingeniera.")]}));
    reflexivity.
Defined.

Example migrate_list_of_strings :
  migrate (dict [(utf8 "competences", dict []);
                 (utf8 "experiences", JArr [JStr (utf8 "Acme")])])
  = Raise AttributeError.
Proof. reflexivity. Qed.

(** C7.  Migrating twice is migrating once: on every raw document, the
    second migration returns what the first returned (and an exception
    of the first is the outcome of both).  A document with no sentinel
    key of either dialect is returned as it is.  A well-shaped legacy
    document is migrated to a document that migrating leaves alone. *)
Theorem migrate_idempotent :
  (forall x : json, (migrate x ≫= migrate) = migrate x)
  /\ (forall x : json,
        _looks_french_schema x = Ok false ->
        _looks_spanish_schema x = Ok false ->
        migrate x = Ok x)
  /\ (forall m : gmap pystr json,
        has_any_key french_sentinels m = true ->
        french_shaped m = true ->
        exists y, migrate (JObj m) = Ok y /\ migrate y = Ok y).
Proof.
  repeat split.
  - intros x. destruct (migrate x) as [y | e] eqn:E; [| reflexivity].
    simpl. now apply (migrate_fixes_output x).
  - apply migrate_canonical.
  - intros m Hk Hs.
    destruct (migrate_returns_french m Hk Hs) as (y & Hy & _).
    exists y. split; [exact Hy |]. now apply (migrate_fixes_output (JObj m)).
Qed.

(** A canonical document passes through. *)
Lemma migrate_idempotent_witness :
  migrate (dict [(utf8 "identity",
                    dict [(utf8 "name", JStr (utf8 "Ana Dupont"))]);
                 (utf8 "experiences", JArr [])])
  = Ok (dict [(utf8 "identity",
                 dict [(utf8 "name", JStr (utf8 "Ana Dupont"))]);
              (utf8 "experiences", JArr [])]).
Proof.
  apply (proj1 (proj2 migrate_idempotent)); reflexivity.
Defined.

End migration_facts.

(** ** profile_memory.py: the store *)

Module store_facts.
Import profile_memory migration_facts encoding_facts.

Section Store.

Variable content : Type.
Variable json_dump : json -> content.
Variable json_load : content -> result json.
Variable self : ProfileMemory.

Abbreviation files := (gmap pystr content).
Abbreviation load := (load content json_dump json_load).
Abbreviation save := (save content json_dump).
Abbreviation read_json := (read_json content json_load).
Abbreviation after_read := (after_read content json_dump).
Abbreviation written_back := (written_back content json_dump).
Abbreviation record_adaptation_note :=
  (record_adaptation_note content json_dump json_load).

Lemma read_json_present (fs : files) (c : content) :
  fs !! path self = Some c -> read_json self fs = (json_load c, fs).
Proof.
  intros H. unfold profile_memory.read_json, open_read, lift, mbind, M_bind.
  now rewrite H.
Qed.

Lemma load_absent (fs : files) :
  fs !! path self = None ->
  load self fs
  = (Raise (FileNotFoundError (not_found_message (path self))), fs).
Proof.
  intros H.
  unfold profile_memory.load, except_FileNotFoundError,
    profile_memory.read_json, open_read, mbind, M_bind.
  now rewrite H.
Qed.

Lemma save_outcome (doc : json) (fs : files) :
  save self doc fs
  = (if encodable doc then Ok tt else Raise UnicodeEncodeError,
     <[path self := json_dump doc]> fs).
Proof. reflexivity. Qed.

Lemma save_and_return (data' : json) (fs : files) :
  (save self data' ≫= λ _, mret data') fs = written_back self data' fs.
Proof.
  unfold mbind, M_bind. rewrite save_outcome.
  unfold profile_memory.written_back. now destruct (encodable data').
Qed.

Lemma load_present (fs : files) (c : content) (data : json) :
  fs !! path self = Some c ->
  json_load c = Ok data ->
  load self fs = after_read self data fs.
Proof.
  intros H Hc.
  unfold profile_memory.load, except_FileNotFoundError,
    profile_memory.after_read.
  unfold mbind at 1. unfold M_bind at 1.
  rewrite (read_json_present fs c H), Hc.
  unfold lift. unfold mbind at 1. unfold M_bind at 1.
  destruct (_looks_french_schema data) as [[] | e]; [| | reflexivity].
  - unfold mbind at 1. unfold M_bind at 1.
    destruct (_migrate_french_to_english data); [| reflexivity].
    apply save_and_return.
  - unfold mbind at 1. unfold M_bind at 1.
    destruct (_looks_spanish_schema data) as [[] | e]; [| | reflexivity].
    + unfold mbind at 1. unfold M_bind at 1.
      destruct (_migrate_spanish_to_english data); [| reflexivity].
      apply save_and_return.
    + reflexivity.
Qed.

Lemma load_no_sentinel (fs : files) (c : content) (m : gmap pystr json) :
  fs !! path self = Some c ->
  json_load c = Ok (JObj m) ->
  has_any_key french_sentinels m = false ->
  has_any_key spanish_sentinels m = false ->
  load self fs = (Ok (JObj m), fs).
Proof.
  intros H Hc Hf Hs. rewrite (load_present fs c (JObj m) H Hc).
  unfold profile_memory.after_read, _looks_french_schema,
    _looks_spanish_schema.
  now rewrite !any_in_dict, Hf, Hs.
Qed.

Lemma load_french (fs : files) (c : content) (m : gmap pystr json) :
  fs !! path self = Some c ->
  json_load c = Ok (JObj m) ->
  has_any_key french_sentinels m = true ->
  load self fs
  = match _migrate_french_to_english (JObj m) with
    | Ok data' => written_back self data' fs
    | Raise e => (Raise e, fs)
    end.
Proof.
  intros H Hc Hf. rewrite (load_present fs c (JObj m) H Hc).
  unfold profile_memory.after_read, _looks_french_schema.
  now rewrite any_in_dict, Hf.
Qed.

Lemma load_spanish (fs : files) (c : content) (m : gmap pystr json) :
  fs !! path self = Some c ->
  json_load c = Ok (JObj m) ->
  has_any_key french_sentinels m = false ->
  has_any_key spanish_sentinels m = true ->
  load self fs
  = match _migrate_spanish_to_english (JObj m) with
    | Ok data' => written_back self data' fs
    | Raise e => (Raise e, fs)
    end.
Proof.
  intros H Hc Hf Hs. rewrite (load_present fs c (JObj m) H Hc).
  unfold profile_memory.after_read, _looks_french_schema,
    _looks_spanish_schema.
  now rewrite !any_in_dict, Hf, Hs.
Qed.


Lemma save_fails (A : Type) (doc : json) (k : M content A) (fs : files) :
  encodable doc = false ->
  (save self doc ≫= λ _, k) fs
  = (Raise UnicodeEncodeError, <[path self := json_dump doc]> fs).
Proof.
  intros H. unfold mbind, M_bind. rewrite save_outcome. now rewrite H.
Qed.

End Store.

(** C8.  When the backing file does not exist, [load] raises
    [FileNotFoundError], nothing else happens to the files, and the
    message tells the user to run the profile preparer first. *)
Theorem load_absent_file :
  forall (content : Type) (json_dump : json -> content)
         (json_load : content -> result json)
         (self : ProfileMemory) (fs : gmap pystr content),
    fs !! path self = None ->
    exists msg,
      load content json_dump json_load self fs
      = (Raise (FileNotFoundError msg), fs)
      /\ msg = utf8 "Profile file not found: " ++ path self
                ++ utf8 ". Please run the profile preparer first."
      /\ str_contains (utf8 "run the profile preparer") msg = true.
Proof.
  intros content json_dump json_load self fs H.
  exists (not_found_message (path self)). repeat split.
  - now apply load_absent.
  - unfold not_found_message.
    apply str_contains_app_r, str_contains_app_r. reflexivity.
Qed.

Lemma load_absent_file_witness :
  let pm := {| path := utf8 "profile_structure.json" |} in
  exists msg,
    load json (fun j => j) Ok pm ∅ = (Raise (FileNotFoundError msg), ∅)
    /\ msg = utf8 "Profile file not found: " ++ path pm
              ++ utf8 ". Please run the profile preparer first."
    /\ str_contains (utf8 "run the profile preparer") msg = true.
Proof.
  intros pm.
  apply (load_absent_file json (fun j => j) Ok pm ∅).
  reflexivity.
Defined.

(** C9.  For every mapping read from the file: when it has a French
    sentinel key, [load] applies the French migration and writes its
    result back, whether or not Spanish sentinel keys are there too; the
    Spanish migration is applied when only Spanish sentinel keys are
    there; with no sentinel key of either set, [load] returns the mapping
    as read and leaves the files as they were.  The migrated document is
    returned when it could be written; when it has a string that cannot
    be encoded, the write raises [UnicodeEncodeError] and the file is
    left with what was written. *)
Theorem dialect_detection_priority :
  forall (content : Type) (json_dump : json -> content)
         (json_load : content -> result json)
         (self : ProfileMemory) (fs : gmap pystr content)
         (c : content) (m : gmap pystr json),
    fs !! path self = Some c ->
    json_load c = Ok (JObj m) ->
    (has_any_key french_sentinels m = true ->
     load content json_dump json_load self fs
     = match _migrate_french_to_english (JObj m) with
       | Ok data' =>
           (if encodable data' then Ok data' else Raise UnicodeEncodeError,
            <[path self := json_dump data']> fs)
       | Raise e => (Raise e, fs)
       end)
    /\ (has_any_key french_sentinels m = false ->
        has_any_key spanish_sentinels m = true ->
        load content json_dump json_load self fs
        = match _migrate_spanish_to_english (JObj m) with
          | Ok data' =>
              (if encodable data' then Ok data' else Raise UnicodeEncodeError,
               <[path self := json_dump data']> fs)
          | Raise e => (Raise e, fs)
          end)
    /\ (has_any_key french_sentinels m = false ->
        has_any_key spanish_sentinels m = false ->
        load content json_dump json_load self fs = (Ok (JObj m), fs)).
Proof.
  intros content json_dump json_load self fs c m H Hc. repeat split.
  - now apply (load_french content json_dump json_load self fs c).
  - now apply (load_spanish content json_dump json_load self fs c).
  - now apply (load_no_sentinel content json_dump json_load self fs c).
Qed.

(** A document with a sentinel key of each dialect: the French names are
    read, the Spanish ones are not. *)
Lemma dialect_detection_priority_witness :
  let pm := {| path := utf8 "profile_structure.json" |} in
  let both : gmap pystr json :=
    list_to_map
      [(utf8 "identite", dict [(utf8 "nom", JStr (utf8 "Ana Dupont"))]);
       (utf8 "identidad", dict [(utf8 "nombre", JStr (utf8 "Ana Pérez"))])] in
  let fs : gmap pystr json := {[path pm := JObj both]} in
  load json (fun j => j) Ok pm fs
  = match _migrate_french_to_english (JObj both) with
    | Ok data' =>
        (if encodable data' then Ok data' else Raise UnicodeEncodeError,
         <[path pm := data']> fs)
    | Raise e => (Raise e, fs)
    end.
Proof.
  intros pm both fs.
  apply (proj1 (dialect_detection_priority json (fun j => j) Ok pm fs
                  (JObj both) both eq_refl eq_refl)).
  reflexivity.
Defined.

Example load_both_dialects :
  let pm := {| path := utf8 "profile_structure.json" |} in
  fst (load json (fun j => j) Ok pm
         {[path pm :=
             dict [(utf8 "identite",
                      dict [(utf8 "nom", JStr (utf8 "Ana Dupont"))]);
                   (utf8 "identidad",
                      dict [(utf8 "nombre", JStr (utf8 "Ana Pérez"))])]]})
  = Ok (dict [
      (utf8 "identity",
         dict [(utf8 "name", JStr (utf8 "Ana Dupont")); (utf8 "title", JNull)]);
      (utf8 "long_profile", JNull);
      (utf8 "experiences", JArr []);
      (utf8 "skills", dict [(utf8 "technical", JArr []);
                            (utf8 "methodological", JArr [])]);
      (utf8 "education", JNull);
      (utf8 "languages", JArr []);
      (utf8 "interests", JArr []);
      (utf8 "memory_notes", dict [])]).
Proof. vm_compute. reflexivity. Qed.



Lemma migrate_ana (long_profile : pystr)
    (experiences : list (gmap pystr json)) (education : pystr) :
  _migrate_french_to_english (ana_french long_profile experiences education)
  = Ok (ana_canonical long_profile experiences education).
Proof.
  transitivity
    (experiences_en ← for_each french_experience (List.map JObj experiences);
     Ok (dict [
       (utf8 "identity",
          dict [(utf8 "name", JStr (utf8 "Ana Dupont"));
                (utf8 "title", JStr (utf8 "Ingénieure"))]);
       (utf8 "long_profile", JStr long_profile);
       (utf8 "experiences", JArr experiences_en);
       (utf8 "skills",
          dict [(utf8 "technical", JArr [JStr (utf8 "Python")]);
                (utf8 "methodological", JArr [])]);
       (utf8 "education", JStr education);
       (utf8 "languages", JArr [JStr (utf8 "Français (natif)")]);
       (utf8 "interests", JArr []);
       (utf8 "memory_notes", dict [])])).
  - reflexivity.
  - rewrite for_each_french_experiences. reflexivity.
Qed.

Section Healing.

Variable content : Type.
Variable json_dump : json -> content.
Variable json_load : content -> result json.
Variable self : ProfileMemory.

Abbreviation load := (load content json_dump json_load).
Abbreviation read_json := (read_json content json_load).
Abbreviation record_adaptation_note :=
  (record_adaptation_note content json_dump json_load).

Hypothesis json_round_trip :
  forall j : json, encodable j = true -> json_load (json_dump j) = Ok j.

Lemma read_back (fs : gmap pystr content) (doc : json) :
  encodable doc = true ->
  read_json self (<[path self := json_dump doc]> fs)
  = (Ok doc, <[path self := json_dump doc]> fs).
Proof.
  intros He.
  rewrite (read_json_present content json_load self _ (json_dump doc)).
  - now rewrite json_round_trip.
  - apply lookup_insert_eq.
Qed.

Lemma load_migrated (fs : gmap pystr content) (x y : json) :
  migrate x = Ok y ->
  encodable y = true ->
  load self (<[path self := json_dump y]> fs)
  = (Ok y, <[path self := json_dump y]> fs).
Proof.
  intros H He. apply migrate_fixes_output in H.
  rewrite (load_present content json_dump json_load self _
             (json_dump y) y);
    [| apply lookup_insert_eq | now apply json_round_trip].
  unfold migrate in H. unfold profile_memory.after_read.
  destruct (_looks_french_schema y) as [[] | e] eqn:Ef; simpl in H.
  - pose proof H as H'. apply french_output in H' as (_ & H' & _).
    congruence.
  - destruct (_looks_spanish_schema y) as [[] | e] eqn:Es; simpl in H.
    + pose proof H as H'. apply spanish_output in H' as (_ & _ & H').
      congruence.
    + reflexivity.
    + discriminate.
  - discriminate.
Qed.

Lemma load_heals_french (fs : gmap pystr content) (c : content)
    (m : gmap pystr json) :
  fs !! path self = Some c ->
  json_load c = Ok (JObj m) ->
  has_any_key [utf8 "identite"] m = true ->
  french_shaped m = true ->
  encodable (JObj m) = true ->
  exists y,
    load self fs = (Ok y, <[path self := json_dump y]> fs)
    /\ canonical_shape y = true
    /\ read_json self (<[path self := json_dump y]> fs)
       = (Ok y, <[path self := json_dump y]> fs)
    /\ load self (<[path self := json_dump y]> fs)
       = (Ok y, <[path self := json_dump y]> fs).
Proof.
  intros H Hc Hk Hs He.
  assert (Hf : has_any_key french_sentinels m = true).
  { unfold has_any_key in *. simpl in *.
    destruct (m !! utf8 "identite"); [reflexivity | discriminate]. }
  destruct (migrate_returns_french m Hf Hs) as (y & Hy & Hshape & _).
  assert (Hm : _migrate_french_to_english (JObj m) = Ok y).
  { rewrite migrate_french in Hy; [exact Hy |].
    unfold _looks_french_schema. now rewrite any_in_dict, Hf. }
  assert (Hey : encodable y = true)
    by exact (french_encodable (JObj m) y He Hm).
  exists y. repeat split.
  - rewrite (load_french content json_dump json_load self fs c m H Hc Hf).
    rewrite Hm. unfold profile_memory.written_back. now rewrite Hey.
  - exact Hshape.
  - now apply read_back.
  - now apply (load_migrated fs (JObj m)).
Qed.

Lemma load_heals_ana (fs : gmap pystr content) (c : content)
    (long_profile : pystr) (experiences : list (gmap pystr json))
    (education : pystr) :
  fs !! path self = Some c ->
  json_load c = Ok (ana_french long_profile experiences education) ->
  encodable (ana_french long_profile experiences education) = true ->
  let healed := ana_canonical long_profile experiences education in
  load self fs = (Ok healed, <[path self := json_dump healed]> fs)
  /\ read_json self (<[path self := json_dump healed]> fs)
     = (Ok healed, <[path self := json_dump healed]> fs).
Proof.
  intros H Hc He healed.
  assert (Hh : encodable healed = true)
    by exact (french_encodable _ _ He
                (migrate_ana long_profile experiences education)).
  split; [| now apply read_back].
  rewrite (load_present content json_dump json_load self fs c _ H Hc).
  unfold profile_memory.after_read.
  replace (_looks_french_schema
             (ana_french long_profile experiences education))
    with (Ok (A := bool) true) by reflexivity.
  rewrite migrate_ana. unfold profile_memory.written_back.
  fold healed. now rewrite Hh.
Qed.

End Healing.

Lemma load_cut_french (content : Type) (json_dump : json -> content)
    (json_load : content -> result json) (self : ProfileMemory)
    (fs : gmap pystr content) (c : content) (m : gmap pystr json)
    (y : json) :
  fs !! path self = Some c ->
  json_load c = Ok (JObj m) ->
  has_any_key [utf8 "identite"] m = true ->
  _migrate_french_to_english (JObj m) = Ok y ->
  encodable y = false ->
  load content json_dump json_load self fs
  = (Raise UnicodeEncodeError, <[path self := json_dump y]> fs).
Proof.
  intros H Hc Hk Hy He.
  assert (Hf : has_any_key french_sentinels m = true).
  { unfold has_any_key in *. simpl in *.
    destruct (m !! utf8 "identite"); [reflexivity | discriminate]. }
  rewrite (load_french content json_dump json_load self fs c m H Hc Hf), Hy.
  unfold profile_memory.written_back. now rewrite He.
Qed.

(** C4, as stated, fails: a French file whose name holds a lone
    surrogate (the JSON escape [\ud800] is read as one) has the sentinel
    key and the expected shape, and [load] neither returns a document
    nor leaves canonical keys in the file: writing the migrated document
    back raises [UnicodeEncodeError] after the file was emptied, and the
    text left in the file does not read as JSON any more. *)
Lemma self_healing_load_counterexample :
  let pm := {| path := utf8 "profile_structure.json" |} in
  let m : gmap pystr json :=
    list_to_map
      [(utf8 "identite",
          dict [(utf8 "nom", JStr lone_surrogate);
                (utf8 "titre", JStr (utf8 "Ingénieure"))])] in
  let fs : gmap pystr (option json) := {[path pm := Some (JObj m)]} in
  has_any_key [utf8 "identite"] m = true
  /\ french_shaped m = true
  /\ load (option json) cut_dump cut_load pm fs
     = (Raise UnicodeEncodeError, {[path pm := None]})
  /\ read_json (option json) cut_load pm {[path pm := None]}
     = (Raise JSONDecodeError, {[path pm := None]}).
Proof.
  cbv zeta. repeat (split; [vm_compute; reflexivity |]).
  vm_compute. reflexivity.
Qed.

(** C4, amended.  With a JSON text that reads back what was written:
    when the backing file holds a French document that has the sentinel
    key [identite] (its sub-documents shaped as the canonical ones) and
    no string that UTF-8 cannot encode, [load] returns a document with
    the canonical keys and rewrites the file with it, so that reading
    the file again gives that document, and loading again returns it
    without another migration.  For the document of the scenario, with
    any summary, experiences and education that can be encoded, [load]
    yields the canonical document of the scenario, the experiences
    renamed key by key, interests empty and memory_notes empty.  When
    the migrated document has a string that cannot be encoded, [load]
    raises [UnicodeEncodeError] and the file is left with what the
    failed write put there. *)
Theorem self_healing_load :
  forall (content : Type) (json_dump : json -> content)
         (json_load : content -> result json)
         (self : ProfileMemory) (fs : gmap pystr content) (c : content),
    (forall j : json, encodable j = true -> json_load (json_dump j) = Ok j) ->
    fs !! path self = Some c ->
    (forall m : gmap pystr json,
        json_load c = Ok (JObj m) ->
        has_any_key [utf8 "identite"] m = true ->
        french_shaped m = true ->
        encodable (JObj m) = true ->
        exists y,
          load content json_dump json_load self fs
          = (Ok y, <[path self := json_dump y]> fs)
          /\ canonical_shape y = true
          /\ read_json content json_load self
               (<[path self := json_dump y]> fs)
             = (Ok y, <[path self := json_dump y]> fs)
          /\ load content json_dump json_load self
               (<[path self := json_dump y]> fs)
             = (Ok y, <[path self := json_dump y]> fs))
    /\ (forall (long_profile : pystr)
               (experiences : list (gmap pystr json)) (education : pystr),
          json_load c = Ok (ana_french long_profile experiences education) ->
          encodable (ana_french long_profile experiences education) = true ->
          let healed := ana_canonical long_profile experiences education in
          load content json_dump json_load self fs
          = (Ok healed, <[path self := json_dump healed]> fs)
          /\ read_json content json_load self
               (<[path self := json_dump healed]> fs)
             = (Ok healed, <[path self := json_dump healed]> fs))
    /\ (forall (m : gmap pystr json) (y : json),
          json_load c = Ok (JObj m) ->
          has_any_key [utf8 "identite"] m = true ->
          _migrate_french_to_english (JObj m) = Ok y ->
          encodable y = false ->
          load content json_dump json_load self fs
          = (Raise UnicodeEncodeError, <[path self := json_dump y]> fs)).
Proof.
  intros content json_dump json_load self fs c Hrt H. split; [| split].
  - intros m Hc Hk Hs He.
    exact (load_heals_french content json_dump json_load self Hrt fs c m
             H Hc Hk Hs He).
  - intros long_profile experiences education Hc He.
    exact (load_heals_ana content json_dump json_load self Hrt fs c
             long_profile experiences education H Hc He).
  - intros m y Hc Hk Hy He.
    exact (load_cut_french content json_dump json_load self fs c m y
             H Hc Hk Hy He).
Qed.

Lemma self_healing_load_witness :
  let pm := {| path := utf8 "profile_structure.json" |} in
  let french := ana_french (utf8 "...") [acme_fr] (utf8 "...") in
  let healed := ana_canonical (utf8 "...") [acme_fr] (utf8 "...") in
  let fs : gmap pystr json := {[path pm := french]} in
  load json (fun j => j) Ok pm fs = (Ok healed, <[path pm := healed]> fs)
  /\ read_json json Ok pm (<[path pm := healed]> fs)
     = (Ok healed, <[path pm := healed]> fs).
Proof.
  intros pm french healed fs.
  apply (proj1 (proj2 (self_healing_load json (fun j => j) Ok pm fs french
                         (fun j _ => eq_refl) eq_refl))).
  - reflexivity.
  - vm_compute. reflexivity.
Defined.

Example ana_experience_translated :
  translate_french_experience acme_fr
  = dict [(utf8 "company", JStr (utf8 "Acme"));
          (utf8 "location", JStr (utf8 "Lyon"));
          (utf8 "role", JStr (utf8 "Ingénieure données"));
          (utf8 "dates", JStr (utf8 "2020-2022"));
          (utf8 "missions", JArr [JStr (utf8 "Pipelines de données")])].
Proof. reflexivity. Qed.

Lemma memory_notes_not_sentinel :
  ~ In (utf8 "memory_notes") french_sentinels
  /\ ~ In (utf8 "memory_notes") spanish_sentinels.
Proof.
  split; intros H; vm_compute in H;
    repeat (destruct H as [H | H]; [discriminate H |]); exact H.
Qed.

Lemma with_note_sentinels (ks : list pystr) (d notes : gmap pystr json)
    (job_title note : pystr) :
  ~ In (utf8 "memory_notes") ks ->
  has_any_key ks (with_note d notes job_title note) = has_any_key ks d.
Proof. intros H. unfold with_note. now apply has_any_key_insert. Qed.

Lemma with_note_ledger (d notes : gmap pystr json) (job_title note : pystr) :
  ledger (with_note d notes job_title note)
  = Some (<[job_title := JStr note]> notes).
Proof. unfold ledger, with_note. now rewrite lookup_insert_eq. Qed.

Lemma with_note_twice (d notes notes' : gmap pystr json)
    (j1 n1 j2 n2 : pystr) :
  with_note (with_note d notes j1 n1) notes' j2 n2 = with_note d notes' j2 n2.
Proof. unfold with_note. apply insert_insert_eq. Qed.

Lemma ledger_encodable (d notes : gmap pystr json) :
  encodable (JObj d) = true -> ledger d = Some notes ->
  encodable (JObj notes) = true.
Proof.
  unfold ledger. intros He H.
  destruct (d !! utf8 "memory_notes") as [v |] eqn:E.
  - destruct v; try discriminate H. injection H as <-.
    exact (encodable_lookup d _ _ He E).
  - injection H as <-. reflexivity.
Qed.

(** The document with a note can be encoded exactly when the document,
    the job title and the note can. *)
Lemma with_note_encodable (d notes : gmap pystr json)
    (job_title note : pystr) :
  encodable (JObj d) = true -> ledger d = Some notes ->
  encodable (JObj (with_note d notes job_title note))
  = str_encodable job_title && str_encodable note.
Proof.
  intros He Hl.
  pose proof (ledger_encodable d notes He Hl) as Hn.
  destruct (str_encodable job_title && str_encodable note) eqn:E.
  - apply andb_true_iff in E as [Hj Hnote]. unfold with_note.
    apply encodable_insert; [reflexivity | | exact He].
    now apply encodable_insert.
  - apply not_true_is_false. intros H. unfold with_note in H.
    apply encodable_insert_inv in H as [_ H].
    apply encodable_insert_inv in H as [Hj Hnote].
    cbn [encodable] in Hnote. rewrite Hj, Hnote in E. discriminate.
Qed.

Section Ledger.

Variable content : Type.
Variable json_dump : json -> content.
Variable json_load : content -> result json.
Variable self : ProfileMemory.

Abbreviation record_adaptation_note :=
  (record_adaptation_note content json_dump json_load).

(** One call on a document without sentinel keys: the document with the
    note is written, and the call returns when the write went through. *)
Lemma record_outcome (fs : gmap pystr content) (c : content)
    (d notes : gmap pystr json) (job_title note : pystr) :
  fs !! path self = Some c ->
  json_load c = Ok (JObj d) ->
  has_any_key french_sentinels d = false ->
  has_any_key spanish_sentinels d = false ->
  ledger d = Some notes ->
  record_adaptation_note self job_title note fs
  = (if encodable (JObj (with_note d notes job_title note))
     then Ok tt else Raise UnicodeEncodeError,
     <[path self := json_dump (JObj (with_note d notes job_title note))]> fs).
Proof.
  intros H Hc Hf Hs Hl.
  unfold profile_memory.record_adaptation_note.
  unfold mbind at 1. unfold M_bind at 1.
  rewrite (load_no_sentinel content json_dump json_load self fs c d
             H Hc Hf Hs).
  unfold ledger in Hl. unfold with_note.
  unfold lift, mbind, M_bind, py_get.
  destruct (d !! utf8 "memory_notes") as [[] |]; try discriminate Hl;
    injection Hl as <-; apply save_outcome.
Qed.

Lemma record_once (fs : gmap pystr content) (c : content)
    (d notes : gmap pystr json) (job_title note : pystr) :
  fs !! path self = Some c ->
  json_load c = Ok (JObj d) ->
  has_any_key french_sentinels d = false ->
  has_any_key spanish_sentinels d = false ->
  ledger d = Some notes ->
  encodable (JObj d) = true ->
  str_encodable job_title = true ->
  str_encodable note = true ->
  record_adaptation_note self job_title note fs
  = (Ok tt,
     <[path self := json_dump (JObj (with_note d notes job_title note))]> fs).
Proof.
  intros H Hc Hf Hs Hl He Hj Hn.
  rewrite (record_outcome fs c d notes job_title note H Hc Hf Hs Hl).
  now rewrite (with_note_encodable d notes job_title note He Hl), Hj, Hn.
Qed.

Hypothesis json_round_trip :
  forall j : json, encodable j = true -> json_load (json_dump j) = Ok j.

Lemma record_twice (fs : gmap pystr content) (c : content)
    (d notes : gmap pystr json) (j1 n1 j2 n2 : pystr) :
  fs !! path self = Some c ->
  json_load c = Ok (JObj d) ->
  has_any_key french_sentinels d = false ->
  has_any_key spanish_sentinels d = false ->
  ledger d = Some notes ->
  encodable (JObj d) = true ->
  str_encodable j1 = true -> str_encodable n1 = true ->
  str_encodable j2 = true -> str_encodable n2 = true ->
  (record_adaptation_note self j1 n1
     ≫= λ _, record_adaptation_note self j2 n2) fs
  = (Ok tt,
     <[path self :=
         json_dump (JObj (with_note d (<[j1 := JStr n1]> notes) j2 n2))]> fs).
Proof.
  intros H Hc Hf Hs Hl He Hj1 Hn1 Hj2 Hn2.
  destruct memory_notes_not_sentinel as [Nf Ns].
  assert (He1 : encodable (JObj (with_note d notes j1 n1)) = true)
    by now rewrite (with_note_encodable d notes j1 n1 He Hl), Hj1, Hn1.
  unfold mbind at 1. unfold M_bind at 1.
  rewrite (record_once fs c d notes j1 n1 H Hc Hf Hs Hl He Hj1 Hn1).
  rewrite (record_once _ (json_dump (JObj (with_note d notes j1 n1)))
             (with_note d notes j1 n1) (<[j1 := JStr n1]> notes) j2 n2).
  - now rewrite insert_insert_eq, with_note_twice.
  - apply lookup_insert_eq.
  - now apply json_round_trip.
  - now rewrite with_note_sentinels.
  - now rewrite with_note_sentinels.
  - apply with_note_ledger.
  - exact He1.
  - exact Hj2.
  - exact Hn2.
Qed.

End Ledger.

(** C5, as stated, fails: a note that holds a lone surrogate is a
    Python string like any other, and recording it on a persisted
    canonical document does not leave the rest of the document
    unchanged: the write raises [UnicodeEncodeError] after the file was
    emptied, and the document can no longer be loaded. *)
Lemma note_ledger_growth_counterexample :
  let pm := {| path := utf8 "profile_structure.json" |} in
  let d : gmap pystr json :=
    list_to_map
      [(utf8 "identity", dict [(utf8 "name", JStr (utf8 "Ana Dupont"))]);
       (utf8 "memory_notes",
          dict [(utf8 "Engineer", JStr (utf8 "note A"))])] in
  let fs : gmap pystr (option json) := {[path pm := cut_dump (JObj d)]} in
  load (option json) cut_dump cut_load pm fs = (Ok (JObj d), fs)
  /\ record_adaptation_note (option json) cut_dump cut_load pm
       (utf8 "Engineer") lone_surrogate fs
     = (Raise UnicodeEncodeError, {[path pm := None]})
  /\ load (option json) cut_dump cut_load pm {[path pm := None]}
     = (Raise JSONDecodeError, {[path pm := None]}).
Proof.
  cbv zeta. repeat (split; [vm_compute; reflexivity |]).
  vm_compute. reflexivity.
Qed.

(** C5, amended.  From a persisted canonical document (no sentinel key,
    its ledger a mapping or absent, its strings encodable, which a
    document written by [save] is), and a JSON text that reads back what
    was written: recording [note A] for [Engineer] and then [note B] for
    [Designer] succeeds and leaves a document whose memory_notes are the
    previous ones with these two entries, that is exactly these two when
    the ledger was empty; every other key of the document is unchanged.
    One call with a job title and a note that can be encoded binds the
    job title to the note (overwriting a previous note for it), keeps
    every other note, every other key of the document and every other
    file.  One call with a job title or a note that cannot be encoded
    raises [UnicodeEncodeError] and leaves the file with what the failed
    write put there. *)
Theorem note_ledger_growth :
  forall (content : Type) (json_dump : json -> content)
         (json_load : content -> result json)
         (self : ProfileMemory) (fs : gmap pystr content) (c : content)
         (d notes : gmap pystr json),
    (forall j : json, encodable j = true -> json_load (json_dump j) = Ok j) ->
    fs !! path self = Some c ->
    json_load c = Ok (JObj d) ->
    has_any_key french_sentinels d = false ->
    has_any_key spanish_sentinels d = false ->
    ledger d = Some notes ->
    encodable (JObj d) = true ->
    (exists d2 : gmap pystr json,
        (record_adaptation_note content json_dump json_load self
           (utf8 "Engineer") (utf8 "note A")
           ≫= λ _, record_adaptation_note content json_dump json_load self
                     (utf8 "Designer") (utf8 "note B")) fs
        = (Ok tt, <[path self := json_dump (JObj d2)]> fs)
        /\ d2 !! utf8 "memory_notes"
           = Some (JObj (<[utf8 "Designer" := JStr (utf8 "note B")]>
                          (<[utf8 "Engineer" := JStr (utf8 "note A")]>
                             notes)))
        /\ (notes = ∅ ->
            d2 !! utf8 "memory_notes"
            = Some (dict [(utf8 "Engineer", JStr (utf8 "note A"));
                          (utf8 "Designer", JStr (utf8 "note B"))]))
        /\ (forall k, k <> utf8 "memory_notes" -> d2 !! k = d !! k))
    /\ (forall job_title note : pystr,
          str_encodable job_title = true ->
          str_encodable note = true ->
          exists d1 notes1 : gmap pystr json,
            record_adaptation_note content json_dump json_load self
              job_title note fs
            = (Ok tt, <[path self := json_dump (JObj d1)]> fs)
            /\ d1 !! utf8 "memory_notes" = Some (JObj notes1)
            /\ notes1 !! job_title = Some (JStr note)
            /\ (forall j, j <> job_title -> notes1 !! j = notes !! j)
            /\ (forall k, k <> utf8 "memory_notes" -> d1 !! k = d !! k)
            /\ (forall p, p <> path self ->
                  (<[path self := json_dump (JObj d1)]> fs) !! p = fs !! p))
    /\ (forall job_title note : pystr,
          str_encodable job_title && str_encodable note = false ->
          record_adaptation_note content json_dump json_load self
            job_title note fs
          = (Raise UnicodeEncodeError,
             <[path self :=
                 json_dump (JObj (with_note d notes job_title note))]> fs)).
Proof.
  intros content json_dump json_load self fs c d notes Hrt H Hc Hf Hs Hl He.
  split; [| split].
  - eexists. split; [| split; [| split]].
    + apply (record_twice content json_dump json_load self Hrt fs c d notes);
        try assumption; reflexivity.
    + unfold with_note. apply lookup_insert_eq.
    + intros ->. unfold with_note. rewrite lookup_insert_eq. reflexivity.
    + intros k Hk. unfold with_note. now rewrite lookup_insert_ne.
  - intros job_title note Hj Hn.
    exists (with_note d notes job_title note), (<[job_title := JStr note]> notes).
    split; [| split; [| split; [| split; [| split]]]].
    + apply (record_once content json_dump json_load self fs c); assumption.
    + unfold with_note. apply lookup_insert_eq.
    + apply lookup_insert_eq.
    + intros j Hj'. now rewrite lookup_insert_ne.
    + intros k Hk. unfold with_note. now rewrite lookup_insert_ne.
    + intros p Hp. now rewrite lookup_insert_ne.
  - intros job_title note Hjn.
    rewrite (record_outcome content json_dump json_load self fs c d notes
               job_title note H Hc Hf Hs Hl).
    now rewrite (with_note_encodable d notes job_title note He Hl), Hjn.
Qed.

(** The two notes of the scenario, on a fresh canonical document. *)
Lemma note_ledger_growth_witness :
  let pm := {| path := utf8 "profile_structure.json" |} in
  let d : gmap pystr json :=
    list_to_map
      [(utf8 "identity", dict [(utf8 "name", JStr (utf8 "Ana Dupont"))]);
       (utf8 "memory_notes", dict [])] in
  let fs : gmap pystr json := {[path pm := JObj d]} in
  exists d2 : gmap pystr json,
    (record_adaptation_note json (fun j => j) Ok pm
       (utf8 "Engineer") (utf8 "note A")
       ≫= λ _, record_adaptation_note json (fun j => j) Ok pm
                 (utf8 "Designer") (utf8 "note B")) fs
    = (Ok tt, <[path pm := JObj d2]> fs)
    /\ d2 !! utf8 "memory_notes"
       = Some (JObj (<[utf8 "Designer" := JStr (utf8 "note B")]>
                      (<[utf8 "Engineer" := JStr (utf8 "note A")]> ∅)))
    /\ ((∅ : gmap pystr json) = ∅ ->
        d2 !! utf8 "memory_notes"
        = Some (dict [(utf8 "Engineer", JStr (utf8 "note A"));
                      (utf8 "Designer", JStr (utf8 "note B"))]))
    /\ (forall k, k <> utf8 "memory_notes" -> d2 !! k = d !! k).
Proof.
  intros pm d fs.
  apply (proj1 (note_ledger_growth json (fun j => j) Ok pm fs (JObj d) d ∅
                  (fun j _ => eq_refl) eq_refl eq_refl eq_refl eq_refl
                  eq_refl eq_refl)).
Defined.

Example record_two_notes :
  let pm := {| path := utf8 "profile_structure.json" |} in
  snd ((record_adaptation_note json (fun j => j) Ok pm
          (utf8 "Engineer") (utf8 "note A")
          ≫= λ _, record_adaptation_note json (fun j => j) Ok pm
                    (utf8 "Designer") (utf8 "note B"))
         {[path pm := dict [(utf8 "long_profile", JStr (utf8 "..."));
                            (utf8 "memory_notes", dict [])]]})
  = {[path pm :=
        dict [(utf8 "long_profile", JStr (utf8 "..."));
              (utf8 "memory_notes",
                 dict [(utf8 "Engineer", JStr (utf8 "note A"));
                       (utf8 "Designer", JStr (utf8 "note B"))])]]}.
Proof. vm_compute. reflexivity. Qed.

Example record_overwrites :
  let pm := {| path := utf8 "profile_structure.json" |} in
  snd (record_adaptation_note json (fun j => j) Ok pm
         (utf8 "Engineer") (utf8 "note C")
         {[path pm :=
             dict [(utf8 "memory_notes",
                      dict [(utf8 "Engineer", JStr (utf8 "note A"));
                            (utf8 "Designer", JStr (utf8 "note B"))])]]})
  = {[path pm :=
        dict [(utf8 "memory_notes",
                 dict [(utf8 "Engineer", JStr (utf8 "note C"));
                       (utf8 "Designer", JStr (utf8 "note B"))])]]}.
Proof. vm_compute. reflexivity. Qed.

End store_facts.

(** ** More on strings: stripping, searching, sanitising *)

Module string_facts.

Lemma lstrip_head (s : pystr) :
  lstrip s = [] \/ exists c r, lstrip s = c :: r /\ py_isspace c = false.
Proof.
  induction s as [|c s IH]; [now left |].
  simpl. destruct (py_isspace c) eqn:E; [exact IH |].
  right. now exists c, s.
Qed.

Lemma lstrip_fixed (c : N) (r : list N) :
  py_isspace c = false -> lstrip (c :: r) = c :: r.
Proof. intros H. simpl. now rewrite H. Qed.

Lemma lstrip_snoc (l : list N) (c : N) :
  py_isspace c = false -> lstrip (l ++ [c]) = lstrip l ++ [c].
Proof.
  intros H. induction l as [|x l IH]; simpl.
  - now rewrite H.
  - destruct (py_isspace x); [exact IH | reflexivity].
Qed.

Lemma rstrip_cons (c : N) (r : list N) :
  py_isspace c = false -> rstrip (c :: r) = c :: rstrip r.
Proof.
  intros H. unfold rstrip. simpl.
  now rewrite (lstrip_snoc _ c H), rev_app_distr.
Qed.

Lemma rstrip_idempotent (s : pystr) : rstrip (rstrip s) = rstrip s.
Proof.
  unfold rstrip. rewrite rev_involutive. f_equal.
  destruct (lstrip_head (rev s)) as [-> | (c & r & -> & H)];
    [reflexivity | now apply lstrip_fixed].
Qed.

Lemma lstrip_strip (s : pystr) : lstrip (strip s) = strip s.
Proof.
  unfold strip.
  destruct (lstrip_head s) as [-> | (c & r & -> & H)]; [reflexivity |].
  rewrite (rstrip_cons c r H). now apply lstrip_fixed.
Qed.

(** [strip] leaves a stripped string alone. *)
Lemma strip_idempotent (s : pystr) : strip (strip s) = strip s.
Proof.
  unfold strip at 1. rewrite lstrip_strip. unfold strip.
  apply rstrip_idempotent.
Qed.

Lemma lstrip_nil_iff (s : pystr) :
  lstrip s = [] <-> forallb py_isspace s = true.
Proof.
  induction s as [|c s IH]; simpl; [tauto |].
  destruct (py_isspace c); simpl; [exact IH |].
  split; discriminate.
Qed.

(** [strip] gives the empty string on whitespace only, and only then. *)
Lemma strip_nil_iff (s : pystr) :
  strip s = [] <-> forallb py_isspace s = true.
Proof.
  rewrite <- lstrip_nil_iff. unfold strip.
  destruct (lstrip_head s) as [E | (c & r & E & H)]; rewrite E.
  - now split.
  - rewrite (rstrip_cons c r H). split; discriminate.
Qed.

Lemma strip_head_last (s : pystr) (c : pychar) :
  (hd_error (strip s) = Some c -> py_isspace c = false)
  /\ (hd_error (rev (strip s)) = Some c -> py_isspace c = false).
Proof.
  split.
  - rewrite <- lstrip_strip.
    destruct (lstrip_head (strip s)) as [-> | (x & r & -> & H)];
      simpl; [discriminate | congruence].
  - unfold strip, rstrip. rewrite rev_involutive.
    destruct (lstrip_head (rev (lstrip s))) as [-> | (x & r & -> & H)];
      simpl; [discriminate | congruence].
Qed.

Lemma re_sub_forbidden_app (a b : pystr) :
  re_sub_forbidden (a ++ b) = re_sub_forbidden a ++ re_sub_forbidden b.
Proof. unfold re_sub_forbidden. apply List.filter_app. Qed.

Lemma re_sub_forbidden_fixed (s : pystr) :
  forallb (fun c => negb (is_forbidden c)) s = true ->
  re_sub_forbidden s = s.
Proof.
  unfold re_sub_forbidden. induction s as [|c s IH]; [reflexivity |].
  simpl. intros H. apply andb_true_iff in H as [Hc Hs].
  rewrite Hc. f_equal. now apply IH.
Qed.

Lemma re_sub_forbidden_forallb (s : pystr) :
  forallb (fun c => negb (is_forbidden c)) (re_sub_forbidden s) = true.
Proof.
  unfold re_sub_forbidden. induction s as [|c s IH]; [reflexivity |].
  simpl. destruct (negb (is_forbidden c)) eqn:E; [| exact IH].
  simpl. now rewrite E.
Qed.

Lemma firstn_forallb {A} (p : A -> bool) (n : nat) (l : list A) :
  forallb p l = true -> forallb p (firstn n l) = true.
Proof.
  revert l. induction n as [|n IH]; intros [|x l]; simpl; try reflexivity.
  intros H. apply andb_true_iff in H as [Hx Hl].
  rewrite Hx. now apply IH.
Qed.

(** Sanitising twice is sanitising once. *)
Lemma re_sub_forbidden_idempotent (s : pystr) :
  re_sub_forbidden (re_sub_forbidden s) = re_sub_forbidden s.
Proof. apply re_sub_forbidden_fixed, re_sub_forbidden_forallb. Qed.

Lemma re_sub_forbidden_nil_iff (s : pystr) :
  re_sub_forbidden s = [] <-> forallb is_forbidden s = true.
Proof.
  unfold re_sub_forbidden. induction s as [|c s IH]; simpl; [tauto |].
  destruct (is_forbidden c); simpl; [exact IH |].
  split; discriminate.
Qed.

Lemma find_from_absent (c : pychar) (s : pystr) (i : Z) :
  ~ In c s -> find_from c s i = -1.
Proof.
  revert i. induction s as [|x s IH]; intros i H; [reflexivity |].
  simpl. destruct (x =? c)%N eqn:E.
  - apply N.eqb_eq in E. subst. exfalso. apply H. now left.
  - apply IH. intros Hin. apply H. now right.
Qed.

Lemma find_from_first (c : pychar) (pre post : pystr) (i : Z) :
  ~ In c pre ->
  find_from c (pre ++ c :: post) i = i + Z.of_nat (length pre).
Proof.
  revert i. induction pre as [|x pre IH]; intros i H; simpl.
  - rewrite N.eqb_refl. lia.
  - destruct (x =? c)%N eqn:E.
    + apply N.eqb_eq in E. subst. exfalso. apply H. now left.
    + rewrite IH; [lia |]. intros Hin. apply H. now right.
Qed.

Lemma rfind_from_absent (c : pychar) (s : pystr) (i best : Z) :
  ~ In c s -> rfind_from c s i best = best.
Proof.
  revert i best. induction s as [|x s IH]; intros i best H; [reflexivity |].
  simpl. destruct (x =? c)%N eqn:E.
  - apply N.eqb_eq in E. subst. exfalso. apply H. now left.
  - apply IH. intros Hin. apply H. now right.
Qed.

Lemma rfind_from_last (c : pychar) (pre post : pystr) (i best : Z) :
  ~ In c post ->
  rfind_from c (pre ++ c :: post) i best = i + Z.of_nat (length pre).
Proof.
  revert i best. induction pre as [|x pre IH]; intros i best H; simpl.
  - rewrite N.eqb_refl, rfind_from_absent by exact H. lia.
  - rewrite IH by exact H. lia.
Qed.

Lemma find_from_range (c : pychar) (s : pystr) (i : Z) :
  find_from c s i = -1 \/ i <= find_from c s i.
Proof.
  revert i. induction s as [|x s IH]; intros i; [now left |].
  simpl. destruct (x =? c)%N.
  - right. lia.
  - destruct (IH (i + 1)) as [-> | H]; [now left | right; lia].
Qed.

(** The text between the first [open] and the last [close], both
    included, when the first comes before the last. *)
Lemma slice_first_last (open close : pychar) (pre mid post : pystr) :
  ~ In open pre ->
  ~ In close post ->
  let s := pre ++ open :: mid ++ close :: post in
  find open s = Z.of_nat (length pre)
  /\ rfind close s + 1 = Z.of_nat (length pre + length mid + 2)
  /\ slice s (find open s) (rfind close s + 1) = open :: mid ++ [close].
Proof.
  intros Ho Hc s.
  assert (Hf : find open s = Z.of_nat (length pre)).
  { unfold find, s. now rewrite find_from_first. }
  assert (Hr : rfind close s + 1 = Z.of_nat (length pre + length mid + 2)).
  { unfold rfind, s.
    replace (pre ++ open :: mid ++ close :: post)
      with ((pre ++ open :: mid) ++ close :: post)
      by (now rewrite <- app_assoc).
    rewrite rfind_from_last by exact Hc.
    rewrite length_app. simpl. lia. }
  repeat split; [exact Hf | exact Hr |].
  unfold slice. rewrite Hr, Hf.
  replace (Z.to_nat (Z.of_nat (length pre + length mid + 2)
                     - Z.of_nat (length pre)))
    with (length (open :: mid ++ [close]))
    by (simpl; rewrite length_app; simpl; lia).
  rewrite Nat2Z.id. unfold s.
  rewrite skipn_app, skipn_all, Nat.sub_diag. simpl skipn.
  change ([] ++ open :: mid ++ close :: post)
    with (open :: mid ++ close :: post).
  replace (open :: mid ++ close :: post)
    with ((open :: mid ++ [close]) ++ post)
    by (simpl; now rewrite <- app_assoc).
  apply take_app_length.
Qed.

Lemma rfind_from_suffix (c : pychar) (a b : pystr) (i best : Z) :
  ~ In c b -> rfind_from c (a ++ b) i best = rfind_from c a i best.
Proof.
  intros H. revert i best. induction a as [|x a IH]; intros i best; simpl.
  - now apply rfind_from_absent.
  - apply IH.
Qed.

Lemma rfind_from_below (c : pychar) (s : pystr) (i best : Z) :
  best < i -> rfind_from c s i best < i + Z.of_nat (length s).
Proof.
  revert i best. induction s as [|x s IH]; intros i best H; simpl; [lia |].
  specialize (IH (i + 1) (if (x =? c)%N then i else best)).
  destruct (x =? c)%N; lia.
Qed.

(** No [close] after the first [open]: the last [close], if any, comes
    before it. *)
Lemma rfind_before_find (open close : pychar) (pre rest : pystr) :
  open <> close ->
  ~ In open pre ->
  ~ In close rest ->
  let s := pre ++ open :: rest in
  find open s = Z.of_nat (length pre) /\ rfind close s + 1 <= find open s.
Proof.
  intros Hne Ho Hc s.
  assert (Hf : find open s = Z.of_nat (length pre)).
  { unfold find, s. now rewrite find_from_first. }
  split; [exact Hf |]. rewrite Hf. unfold rfind, s.
  rewrite rfind_from_suffix.
  - pose proof (rfind_from_below close pre 0 (-1)). lia.
  - intros [H | H]; [now apply Hne | now apply Hc].
Qed.

End string_facts.

(** ** More of profile_memory.py *)

Module store_more.
Import profile_memory migration_facts store_facts migration_tables.

Lemma dict_keys (kvs : list (pystr * json)) (k : pystr) :
  is_Some ((list_to_map kvs : gmap pystr json) !! k) <-> In k kvs.*1.
Proof.
  rewrite <- elem_of_dom, dom_list_to_map_L, elem_of_list_to_set.
  apply list_elem_of_In.
Qed.

Ltac exact_keys := eexists; split; [reflexivity | intros k; apply dict_keys].

Lemma french_keys (x y : json) :
  _migrate_french_to_english x = Ok y ->
  keys_are canonical_keys y
  /\ (exists identity, lookup_path y [utf8 "identity"] = Some identity
        /\ keys_are [utf8 "name"; utf8 "title"] identity)
  /\ (exists skills, lookup_path y [utf8 "skills"] = Some skills
        /\ keys_are [utf8 "technical"; utf8 "methodological"] skills).
Proof.
  unfold _migrate_french_to_english. intros H. invert_binds H.
  injection H as <-. split; [exact_keys |].
  split; eexists; (split; [reflexivity | exact_keys]).
Qed.

Lemma spanish_keys (x y : json) :
  _migrate_spanish_to_english x = Ok y ->
  keys_are canonical_keys y
  /\ (exists identity, lookup_path y [utf8 "identity"] = Some identity
        /\ keys_are [utf8 "name"; utf8 "title"] identity)
  /\ (exists skills, lookup_path y [utf8 "skills"] = Some skills
        /\ keys_are [utf8 "technical"; utf8 "methodological"] skills).
Proof.
  unfold _migrate_spanish_to_english. intros H. invert_binds H.
  injection H as <-. split; [exact_keys |].
  split; eexists; (split; [reflexivity | exact_keys]).
Qed.

(** The migrated document has the eight canonical keys and no other;
    its identity has [name] and [title] and no other key, its skills
    [technical] and [methodological] and no other: whatever else the
    legacy document held (an e-mail address, a telephone number, a key
    the tables do not know) is not carried over. *)
Theorem migration_keeps_canonical_keys_only (x y : json) :
  _migrate_french_to_english x = Ok y
  \/ _migrate_spanish_to_english x = Ok y ->
  keys_are canonical_keys y
  /\ (exists identity, lookup_path y [utf8 "identity"] = Some identity
        /\ keys_are [utf8 "name"; utf8 "title"] identity)
  /\ (exists skills, lookup_path y [utf8 "skills"] = Some skills
        /\ keys_are [utf8 "technical"; utf8 "methodological"] skills).
Proof.
  intros [H | H]; [now apply (french_keys x) | now apply (spanish_keys x)].
Qed.

Lemma migration_keeps_canonical_keys_only_witness :
  let x := dict [(utf8 "identite",
                    dict [(utf8 "nom", JStr (utf8 "Ana Dupont"));
                          (utf8 "email", JStr (utf8 "ana@example.org"))]);
                 (utf8 "telephone", JStr (utf8 "0102030405"))] in
  let y := dict [
      (utf8 "identity",
         dict [(utf8 "name", JStr (utf8 "Ana Dupont")); (utf8 "title", JNull)]);
      (utf8 "long_profile", JNull);
      (utf8 "experiences", JArr []);
      (utf8 "skills", dict [(utf8 "technical", JArr []);
                            (utf8 "methodological", JArr [])]);
      (utf8 "education", JNull);
      (utf8 "languages", JArr []);
      (utf8 "interests", JArr []);
      (utf8 "memory_notes", dict [])] in
  keys_are canonical_keys y
  /\ (exists identity, lookup_path y [utf8 "identity"] = Some identity
        /\ keys_are [utf8 "name"; utf8 "title"] identity)
  /\ (exists skills, lookup_path y [utf8 "skills"] = Some skills
        /\ keys_are [utf8 "technical"; utf8 "methodological"] skills).
Proof.
  intros x y.
  apply (migration_keeps_canonical_keys_only x y). left. reflexivity.
Defined.

Lemma spanish_experience_dict (exp : gmap pystr json) :
  spanish_experience (JObj exp) = Ok (translate_spanish_experience exp).
Proof. reflexivity. Qed.

Lemma for_each_spanish_experiences (exps : list (gmap pystr json)) :
  for_each spanish_experience (List.map JObj exps)
  = Ok (List.map translate_spanish_experience exps).
Proof.
  induction exps as [|e exps IH]; [reflexivity |].
  cbn [List.map for_each]. rewrite spanish_experience_dict, IH. reflexivity.
Qed.

Ltac carried_entries Ei Ec :=
  repeat (constructor;
          [let v := fresh "v" in
           let Hv := fresh "Hv" in
           intros v Hv; cbn [lookup_path fst snd] in Hv |- *;
           rewrite ?Ei, ?Ec in Hv;
           repeat match type of Hv with
                  | context [?d !! ?k] => destruct (d !! k) eqn:?
                  end;
           try discriminate Hv; injection Hv as <-; reflexivity |]);
  constructor.

Ltac interests_cases :=
  let v := fresh "v" in
  let Hv := fresh "Hv" in
  let Hn := fresh "Hn" in
  split;
  [ intros v Hv Hn; rewrite Hv; destruct v; try reflexivity;
    now contradiction Hn
  | intros Hv; rewrite Hv; reflexivity ].

Lemma french_carries (m : gmap pystr json) :
  french_shaped m = true ->
  exists y,
    _migrate_french_to_english (JObj m) = Ok y
    /\ fields_carried french_renames (JObj m) y
    /\ (forall v, m !! utf8 "centres_interet" = Some v -> v <> JNull ->
                  lookup_path y [utf8 "interests"] = Some v)
    /\ (m !! utf8 "centres_interet" = Some JNull ->
        lookup_path y [utf8 "interests"] = Some (JArr []))
    /\ (forall exps,
          m !! utf8 "experiences" = Some (JArr (List.map JObj exps)) ->
          lookup_path y [utf8 "experiences"]
          = Some (JArr (List.map translate_french_experience exps))).
Proof.
  unfold french_shaped. intros H. split_shape H Hi Hc He.
  destruct (m !! utf8 "identite") as [[]|] eqn:Ei; try discriminate Hi;
    destruct (m !! utf8 "competences") as [[]|] eqn:Ec;
    try discriminate Hc.
  all: destruct (m !! utf8 "experiences") as [v|] eqn:Ee; simpl in He.
  all: try (destruct (py_iter v) as [items|] eqn:Eit; [| discriminate He];
            destruct (for_each_returns french_experience is_dict items
                        french_experience_returns He) as [ys Hys]).
  all: unfold _migrate_french_to_english; simpl;
    rewrite ?Ei, ?Ec, ?Ee; simpl; rewrite ?Eit; simpl;
    rewrite ?Hys; simpl.
  all: eexists; split; [reflexivity |].
  all: split; [unfold fields_carried, french_renames; carried_entries Ei Ec |].
  all: split; [| split]; [ | | ].
  all: try (intros v0 Hv Hn; rewrite Hv; destruct v0; try reflexivity;
            now contradiction Hn).
  all: try (intros Hv; rewrite Hv; reflexivity).
  all: intros exps Hx; try discriminate Hx.
  all: injection Hx as ->; simpl in Eit; injection Eit as <-;
    rewrite for_each_french_experiences in Hys; injection Hys as <-;
    reflexivity.
Qed.

Lemma spanish_carries (m : gmap pystr json) :
  spanish_shaped m = true ->
  exists y,
    _migrate_spanish_to_english (JObj m) = Ok y
    /\ fields_carried spanish_renames (JObj m) y
    /\ (forall v, m !! utf8 "intereses" = Some v -> v <> JNull ->
                  lookup_path y [utf8 "interests"] = Some v)
    /\ (m !! utf8 "intereses" = Some JNull ->
        lookup_path y [utf8 "interests"] = Some (JArr []))
    /\ (forall exps,
          m !! utf8 "experiencias" = Some (JArr (List.map JObj exps)) ->
          lookup_path y [utf8 "experiences"]
          = Some (JArr (List.map translate_spanish_experience exps))).
Proof.
  unfold spanish_shaped. intros H. split_shape H Hi Hc He.
  destruct (m !! utf8 "identidad") as [[]|] eqn:Ei; try discriminate Hi;
    destruct (m !! utf8 "competencias") as [[]|] eqn:Ec;
    try discriminate Hc.
  all: destruct (m !! utf8 "experiencias") as [v|] eqn:Ee; simpl in He.
  all: try (destruct (py_iter v) as [items|] eqn:Eit; [| discriminate He];
            destruct (for_each_returns spanish_experience is_dict items
                        spanish_experience_returns He) as [ys Hys]).
  all: unfold _migrate_spanish_to_english; simpl;
    rewrite ?Ei, ?Ec, ?Ee; simpl; rewrite ?Eit; simpl;
    rewrite ?Hys; simpl.
  all: eexists; split; [reflexivity |].
  all: split; [unfold fields_carried, spanish_renames; carried_entries Ei Ec |].
  all: split; [| split]; [ | | ].
  all: try (intros v0 Hv Hn; rewrite Hv; destruct v0; try reflexivity;
            now contradiction Hn).
  all: try (intros Hv; rewrite Hv; reflexivity).
  all: intros exps Hx; try discriminate Hx.
  all: injection Hx as ->; simpl in Eit; injection Eit as <-;
    rewrite for_each_spanish_experiences in Hys; injection Hys as <-;
    reflexivity.
Qed.

(** A well-shaped legacy document loses none of the fields the tables
    know: each value found at a legacy path is found, unchanged, at the
    canonical path (name, title, long profile, both skill lists,
    education, languages, and the memory notes the document may already
    hold).  The interests are carried as they are, except that a [null]
    becomes the empty list. *)
Theorem migration_carries_fields (m : gmap pystr json) :
  (french_shaped m = true ->
   exists y,
     _migrate_french_to_english (JObj m) = Ok y
     /\ fields_carried french_renames (JObj m) y
     /\ (forall v, m !! utf8 "centres_interet" = Some v -> v <> JNull ->
                   lookup_path y [utf8 "interests"] = Some v)
     /\ (m !! utf8 "centres_interet" = Some JNull ->
         lookup_path y [utf8 "interests"] = Some (JArr [])))
  /\ (spanish_shaped m = true ->
      exists y,
        _migrate_spanish_to_english (JObj m) = Ok y
        /\ fields_carried spanish_renames (JObj m) y
        /\ (forall v, m !! utf8 "intereses" = Some v -> v <> JNull ->
                      lookup_path y [utf8 "interests"] = Some v)
        /\ (m !! utf8 "intereses" = Some JNull ->
            lookup_path y [utf8 "interests"] = Some (JArr []))).
Proof.
  split; intros H.
  - destruct (french_carries m H) as (y & Hy & Hf & Hi & Hn & _).
    now exists y.
  - destruct (spanish_carries m H) as (y & Hy & Hf & Hi & Hn & _).
    now exists y.
Qed.

Lemma migration_carries_fields_witness :
  let m : gmap pystr json :=
    list_to_map
      [(utf8 "identidad", dict [(utf8 "nombre", JStr (utf8 "Ana Pérez"))]);
       (utf8 "idiomas", JArr [JStr (utf8 "Español")]);
       (utf8 "intereses", JNull)] in
  exists y,
    _migrate_spanish_to_english (JObj m) = Ok y
    /\ fields_carried spanish_renames (JObj m) y
    /\ (forall v, m !! utf8 "intereses" = Some v -> v <> JNull ->
                  lookup_path y [utf8 "interests"] = Some v)
    /\ (m !! utf8 "intereses" = Some JNull ->
        lookup_path y [utf8 "interests"] = Some (JArr [])).
Proof.
  intros m. apply (proj2 (migration_carries_fields m)). reflexivity.
Defined.

(** The experiences of a legacy document are migrated one by one, in
    order: as many experiences come out as went in, each renamed key by
    key, with [null] for a missing field and the empty list for missing
    missions; keys of an experience outside the five are dropped. *)
Theorem migration_translates_experiences (m : gmap pystr json)
    (exps : list (gmap pystr json)) :
  (french_shaped m = true ->
   m !! utf8 "experiences" = Some (JArr (List.map JObj exps)) ->
   exists y,
     _migrate_french_to_english (JObj m) = Ok y
     /\ lookup_path y [utf8 "experiences"]
        = Some (JArr (List.map translate_french_experience exps)))
  /\ (spanish_shaped m = true ->
      m !! utf8 "experiencias" = Some (JArr (List.map JObj exps)) ->
      exists y,
        _migrate_spanish_to_english (JObj m) = Ok y
        /\ lookup_path y [utf8 "experiences"]
           = Some (JArr (List.map translate_spanish_experience exps))).
Proof.
  split; intros H Hx.
  - destruct (french_carries m H) as (y & Hy & _ & _ & _ & He).
    exists y. split; [exact Hy | now apply He].
  - destruct (spanish_carries m H) as (y & Hy & _ & _ & _ & He).
    exists y. split; [exact Hy | now apply He].
Qed.

Lemma migration_translates_experiences_witness :
  let m : gmap pystr json :=
    list_to_map
      [(utf8 "profil_long", JStr (utf8 "..."));
       (utf8 "experiences", JArr (List.map JObj [acme_fr; acme_fr]))] in
  exists y,
    _migrate_french_to_english (JObj m) = Ok y
    /\ lookup_path y [utf8 "experiences"]
       = Some (JArr (List.map translate_french_experience
                       [acme_fr; acme_fr])).
Proof.
  intros m.
  apply (proj1 (migration_translates_experiences m [acme_fr; acme_fr]));
    reflexivity.
Defined.

Section Loading.

Variable content : Type.
Variable json_dump : json -> content.
Variable json_load : content -> result json.
Variable self : ProfileMemory.

Abbreviation load := (load content json_dump json_load).
Abbreviation after_read := (after_read content json_dump).
Abbreviation record_adaptation_note :=
  (record_adaptation_note content json_dump json_load).

(** [load], case by case on the file and on what its text reads as. *)
Lemma load_unfold (fs : gmap pystr content) :
  load self fs
  = match fs !! path self with
    | None =>
        (Raise (FileNotFoundError (not_found_message (path self))), fs)
    | Some c =>
        match json_load c with
        | Ok data => after_read self data fs
        | Raise (FileNotFoundError _) =>
            (Raise (FileNotFoundError (not_found_message (path self))), fs)
        | Raise e => (Raise e, fs)
        end
    end.
Proof.
  destruct (fs !! path self) as [c |] eqn:E.
  - destruct (json_load c) as [data | e] eqn:Ec.
    + now apply (load_present content json_dump json_load self fs c).
    + unfold profile_memory.load, except_FileNotFoundError.
      unfold mbind at 1. unfold M_bind at 1.
      rewrite (read_json_present content json_load self fs c E), Ec.
      now destruct e.
  - now apply load_absent.
Qed.

Lemma after_read_cases (data : json) (fs : gmap pystr content)
    (r : result json) (fs' : gmap pystr content) :
  after_read self data fs = (r, fs') ->
  (exists e, r = Raise e /\ fs' = fs /\ migrate data = Raise e)
  \/ (r = Ok data /\ fs' = fs /\ migrate data = Ok data)
  \/ (exists y, migrate data = Ok y
                /\ fs' = <[path self := json_dump y]> fs
                /\ (r = Ok y /\ encodable y = true
                    \/ r = Raise UnicodeEncodeError
                       /\ encodable y = false)).
Proof.
  unfold profile_memory.after_read, profile_memory.written_back, migrate.
  intros H.
  destruct (_looks_french_schema data) as [[] | e]; simpl.
  - destruct (_migrate_french_to_english data) as [y | e].
    + right. right. exists y. destruct (encodable y);
        injection H as <- <-; auto.
    + injection H as <- <-. left. eauto.
  - destruct (_looks_spanish_schema data) as [[] | e]; simpl.
    + destruct (_migrate_spanish_to_english data) as [y | e].
      * right. right. exists y. destruct (encodable y);
          injection H as <- <-; auto.
      * injection H as <- <-. left. eauto.
    + injection H as <- <-. right. left. auto.
    + injection H as <- <-. left. eauto.
  - injection H as <- <-. left. eauto.
Qed.

Lemma load_cases (fs : gmap pystr content) (r : result json)
    (fs' : gmap pystr content) :
  load self fs = (r, fs') ->
  (exists e, r = Raise e /\ fs' = fs)
  \/ (exists c data, fs !! path self = Some c /\ json_load c = Ok data
        /\ r = Ok data /\ fs' = fs /\ migrate data = Ok data)
  \/ (exists c data y, fs !! path self = Some c /\ json_load c = Ok data
        /\ migrate data = Ok y
        /\ fs' = <[path self := json_dump y]> fs
        /\ (r = Ok y /\ encodable y = true
            \/ r = Raise UnicodeEncodeError /\ encodable y = false)).
Proof.
  rewrite load_unfold. intros H.
  destruct (fs !! path self) as [c |] eqn:E.
  - destruct (json_load c) as [data | e] eqn:Ec.
    + apply after_read_cases in H
        as [(e & -> & -> & _) | [(-> & -> & Hm) | (y & Hm & -> & Hr)]].
      * left. eauto.
      * right. left. exists c, data. auto.
      * right. right. exists c, data, y. auto.
    + left. destruct e; injection H as <- <-; eauto.
  - left. injection H as <- <-. eauto.
Qed.

End Loading.



(** Loading twice is loading once: after a successful [load], a second
    [load] returns the same document and leaves the files as the first
    left them (the first call may have migrated and rewritten the file;
    the second never does). *)
Theorem load_idempotent :
  forall (content : Type) (json_dump : json -> content)
         (json_load : content -> result json)
         (self : ProfileMemory) (fs fs' : gmap pystr content) (y : json),
    (forall j : json, encodable j = true -> json_load (json_dump j) = Ok j) ->
    profile_memory.load content json_dump json_load self fs = (Ok y, fs') ->
    profile_memory.load content json_dump json_load self fs' = (Ok y, fs').
Proof.
  intros content json_dump json_load self fs fs' y Hrt H.
  pose proof H as H0.
  apply load_cases in H
    as [(e & He & _)
       | [(c & data & _ & _ & Hy & -> & _)
         | (c & data & y' & _ & _ & Hm & -> & [[Hy Hey] | [Hy _]])]].
  - discriminate He.
  - exact H0.
  - injection Hy as ->.
    now apply (load_migrated content json_dump json_load self Hrt fs data).
  - discriminate Hy.
Qed.

Lemma load_idempotent_witness :
  let pm := {| path := utf8 "profile_structure.json" |} in
  let healed := ana_canonical (utf8 "...") [acme_fr] (utf8 "...") in
  let fs : gmap pystr json :=
    {[path pm := ana_french (utf8 "...") [acme_fr] (utf8 "...")]} in
  profile_memory.load json (fun j => j) Ok pm (<[path pm := healed]> fs)
  = (Ok healed, <[path pm := healed]> fs).
Proof.
  intros pm healed fs.
  apply (load_idempotent json (fun j => j) Ok pm fs
           (<[path pm := healed]> fs) healed (fun j _ => eq_refl)).
  vm_compute. reflexivity.
Defined.

Lemma notes_after_keeps (entries : list (pystr * pystr))
    (notes : gmap pystr json) (j : pystr) :
  is_Some (notes !! j) -> is_Some (notes_after notes entries !! j).
Proof.
  unfold notes_after. revert notes.
  induction entries as [|[k n] rest IH]; intros notes H; [exact H |].
  simpl. apply IH. destruct (decide (k = j)) as [-> | Hne].
  - rewrite lookup_insert_eq. eauto.
  - now rewrite lookup_insert_ne.
Qed.

Lemma notes_after_untouched (entries : list (pystr * pystr))
    (notes : gmap pystr json) (j : pystr) :
  ~ In j entries.*1 -> notes_after notes entries !! j = notes !! j.
Proof.
  unfold notes_after. revert notes.
  induction entries as [|[k n] rest IH]; intros notes H; [reflexivity |].
  simpl in *. rewrite IH by tauto. apply lookup_insert_ne. tauto.
Qed.

Lemma notes_after_last (pre post : list (pystr * pystr))
    (notes : gmap pystr json) (j n : pystr) :
  ~ In j post.*1 ->
  notes_after notes (pre ++ (j, n) :: post) !! j = Some (JStr n).
Proof.
  intros H. unfold notes_after. rewrite fold_left_app. simpl.
  fold (notes_after
          (<[j := JStr n]>
             (fold_left (fun acc e => <[e.1 := JStr e.2]> acc) pre notes))
          post).
  rewrite notes_after_untouched by exact H. apply lookup_insert_eq.
Qed.

Section Notes.

Variable content : Type.
Variable json_dump : json -> content.
Variable json_load : content -> result json.
Variable self : ProfileMemory.

Abbreviation load := (load content json_dump json_load).
Abbreviation record_adaptation_note :=
  (record_adaptation_note content json_dump json_load).
Abbreviation record_all := (record_all content json_dump json_load).

Lemma record_absent (fs : gmap pystr content) (job_title note : pystr) :
  fs !! path self = None ->
  record_adaptation_note self job_title note fs
  = (Raise (FileNotFoundError (not_found_message (path self))), fs).
Proof.
  intros H. unfold profile_memory.record_adaptation_note.
  unfold mbind at 1. unfold M_bind at 1.
  now rewrite (load_absent content json_dump json_load self fs H).
Qed.

Lemma record_bad_ledger (fs : gmap pystr content) (c : content)
    (d : gmap pystr json) (job_title note : pystr) :
  fs !! path self = Some c ->
  json_load c = Ok (JObj d) ->
  has_any_key french_sentinels d = false ->
  has_any_key spanish_sentinels d = false ->
  ledger d = None ->
  record_adaptation_note self job_title note fs = (Raise TypeError, fs).
Proof.
  intros H Hc Hf Hs Hl. unfold profile_memory.record_adaptation_note.
  unfold mbind at 1. unfold M_bind at 1.
  rewrite (load_no_sentinel content json_dump json_load self fs c d
             H Hc Hf Hs).
  unfold ledger in Hl.
  unfold lift, mbind, M_bind, py_get.
  destruct (d !! utf8 "memory_notes") as [[] |]; try discriminate Hl;
    reflexivity.
Qed.

Lemma record_legacy_french (fs : gmap pystr content) (c : content)
    (m : gmap pystr json) (job_title note : pystr) :
  fs !! path self = Some c ->
  json_load c = Ok (JObj m) ->
  has_any_key french_sentinels m = true ->
  french_shaped m = true ->
  dict_or_absent (m !! utf8 "memory_notes") = true ->
  encodable (JObj m) = true ->
  str_encodable job_title = true ->
  str_encodable note = true ->
  exists d notes,
    _migrate_french_to_english (JObj m) = Ok (JObj d)
    /\ ledger d = Some notes
    /\ ledger m = Some notes
    /\ has_any_key french_sentinels d = false
    /\ has_any_key spanish_sentinels d = false
    /\ record_adaptation_note self job_title note fs
       = (Ok tt,
          <[path self :=
              json_dump (JObj (with_note d notes job_title note))]> fs).
Proof.
  intros H Hc Hk Hs Hn Hem Hej Hen.
  destruct (french_carries m Hs) as (y & Hy & Hcar & _).
  destruct (french_returns m Hs) as (y' & Hy' & Hdef).
  assert (y' = y) by congruence. subst y'.
  destruct (french_keys (JObj m) y Hy) as ((d & -> & _) & _).
  destruct (french_output (JObj m) (JObj d) Hy) as (_ & Hf' & Hs').
  unfold _looks_french_schema in Hf'. unfold _looks_spanish_schema in Hs'.
  rewrite any_in_dict in Hf', Hs'.
  injection Hf' as Hf'. injection Hs' as Hs'.
  assert (Hl : exists notes, ledger d = Some notes /\ ledger m = Some notes).
  { unfold ledger.
    destruct (m !! utf8 "memory_notes") as [v |] eqn:Em.
    - destruct v; try discriminate Hn.
      unfold fields_carried, french_renames in Hcar.
      rewrite Forall_forall in Hcar.
      specialize (Hcar ([utf8 "memory_notes"], [utf8 "memory_notes"])).
      cbn [fst snd lookup_path] in Hcar. rewrite Em in Hcar.
      specialize (Hcar ltac:(rewrite list_elem_of_In; vm_compute; tauto)
                       _ eq_refl).
      destruct (d !! utf8 "memory_notes") as [w |]; [| discriminate Hcar].
      injection Hcar as ->. eauto.
    - unfold defaults_hold, french_defaults in Hdef.
      rewrite Forall_forall in Hdef.
      specialize (Hdef (utf8 "memory_notes", [utf8 "memory_notes"], dict [])).
      cbn [fst snd lookup_path] in Hdef.
      specialize (Hdef ltac:(rewrite list_elem_of_In; vm_compute; tauto) Em).
      destruct (d !! utf8 "memory_notes") as [w |]; [| discriminate Hdef].
      injection Hdef as ->. eauto. }
  destruct Hl as (notes & Hl & Hlm).
  exists d, notes.
  split; [exact Hy |]. split; [exact Hl |]. split; [exact Hlm |].
  split; [exact Hf' |]. split; [exact Hs' |].
  assert (Hed : encodable (JObj d) = true)
    by exact (french_encodable (JObj m) (JObj d) Hem Hy).
  assert (Hew : encodable (JObj (with_note d notes job_title note)) = true)
    by now rewrite (with_note_encodable d notes job_title note Hed Hl),
         Hej, Hen.
  unfold profile_memory.record_adaptation_note.
  unfold mbind at 1. unfold M_bind at 1.
  rewrite (load_french content json_dump json_load self fs c m H Hc Hk), Hy.
  unfold profile_memory.written_back. rewrite Hed.
  unfold ledger in Hl. unfold with_note in *.
  unfold lift, mbind, M_bind, py_get.
  destruct (d !! utf8 "memory_notes") as [[] |]; try discriminate Hl;
    injection Hl as <-; unfold dict; cbn [py_setitem];
    rewrite (save_outcome content json_dump self);
    change (list_to_map []) with (∅ : gmap pystr json);
    rewrite Hew, insert_insert_eq; reflexivity.
Qed.

Hypothesis json_round_trip :
  forall j : json, encodable j = true -> json_load (json_dump j) = Ok j.

Lemma record_all_canonical (entries : list (pystr * pystr)) :
  forall (fs : gmap pystr content) (c : content) (d notes : gmap pystr json),
    fs !! path self = Some c ->
    json_load c = Ok (JObj d) ->
    has_any_key french_sentinels d = false ->
    has_any_key spanish_sentinels d = false ->
    ledger d = Some notes ->
    encodable (JObj d) = true ->
    entries_encodable entries = true ->
    record_all self entries fs
    = (Ok tt,
       match entries with
       | [] => fs
       | _ =>
           <[path self :=
               json_dump
                 (JObj (<[utf8 "memory_notes" :=
                            JObj (notes_after notes entries)]> d))]> fs
       end).
Proof.
  destruct memory_notes_not_sentinel as [Nf Ns].
  induction entries as [|[j n] rest IH];
    intros fs c d notes H Hc Hf Hs Hl He Hen; [reflexivity |].
  cbn [entries_encodable forallb fst snd] in Hen.
  apply andb_true_iff in Hen as [Hjn Hrest].
  apply andb_true_iff in Hjn as [Hj Hn].
  assert (Hw : encodable (JObj (with_note d notes j n)) = true)
    by now rewrite (with_note_encodable d notes j n He Hl), Hj, Hn.
  cbn [migration_tables.record_all].
  unfold mbind at 1. unfold M_bind at 1.
  rewrite (record_once content json_dump json_load self fs c d notes j n
             H Hc Hf Hs Hl He Hj Hn).
  rewrite (IH _ (json_dump (JObj (with_note d notes j n)))
              (with_note d notes j n) (<[j := JStr n]> notes)).
  - destruct rest as [|e rest]; [reflexivity |].
    rewrite insert_insert_eq. unfold with_note.
    now rewrite insert_insert_eq.
  - apply lookup_insert_eq.
  - now apply json_round_trip.
  - now rewrite with_note_sentinels.
  - now rewrite with_note_sentinels.
  - apply with_note_ledger.
  - exact Hw.
  - exact Hrest.
Qed.

End Notes.

(** [record_adaptation_note] fails without writing: on a missing file it
    raises the [FileNotFoundError] of [load] and creates no file; on a
    canonical document whose [memory_notes] is not a mapping (a list, a
    string, [null]) it raises [TypeError] and leaves the file as it
    was. *)
Theorem record_note_failures :
  forall (content : Type) (json_dump : json -> content)
         (json_load : content -> result json)
         (self : ProfileMemory) (fs : gmap pystr content)
         (job_title note : pystr),
    (fs !! path self = None ->
     record_adaptation_note content json_dump json_load self job_title note
       fs
     = (Raise (FileNotFoundError (not_found_message (path self))), fs))
    /\ (forall c d,
          fs !! path self = Some c ->
          json_load c = Ok (JObj d) ->
          has_any_key french_sentinels d = false ->
          has_any_key spanish_sentinels d = false ->
          ledger d = None ->
          record_adaptation_note content json_dump json_load self
            job_title note fs
          = (Raise TypeError, fs)).
Proof.
  intros content json_dump json_load self fs job_title note. split.
  - apply record_absent.
  - intros c d. apply record_bad_ledger.
Qed.

Lemma record_note_failures_witness :
  let pm := {| path := utf8 "profile_structure.json" |} in
  let d : gmap pystr json :=
    list_to_map [(utf8 "long_profile", JStr (utf8 "..."));
                 (utf8 "memory_notes", JNull)] in
  let fs : gmap pystr json := {[path pm := JObj d]} in
  record_adaptation_note json (fun j => j) Ok pm
    (utf8 "Engineer") (utf8 "note A") fs
  = (Raise TypeError, fs).
Proof.
  intros pm d fs.
  apply (proj2 (record_note_failures json (fun j => j) Ok pm fs
                  (utf8 "Engineer") (utf8 "note A")) (JObj d) d);
    reflexivity.
Defined.

(** Recording a note on a French file that was never loaded migrates it
    on the way: when the document, the job title and the note can be
    encoded, the file ends up holding the migrated document with the
    note added to the notes the French document already had (none when
    it had no [memory_notes]), and no sentinel key is left in it. *)
Theorem record_note_on_french_file :
  forall (content : Type) (json_dump : json -> content)
         (json_load : content -> result json)
         (self : ProfileMemory) (fs : gmap pystr content) (c : content)
         (m : gmap pystr json) (job_title note : pystr),
    fs !! path self = Some c ->
    json_load c = Ok (JObj m) ->
    has_any_key french_sentinels m = true ->
    french_shaped m = true ->
    dict_or_absent (m !! utf8 "memory_notes") = true ->
    encodable (JObj m) = true ->
    str_encodable job_title = true ->
    str_encodable note = true ->
    exists d notes,
      _migrate_french_to_english (JObj m) = Ok (JObj d)
      /\ ledger d = Some notes
      /\ ledger m = Some notes
      /\ has_any_key french_sentinels d = false
      /\ has_any_key spanish_sentinels d = false
      /\ record_adaptation_note content json_dump json_load self
           job_title note fs
         = (Ok tt,
            <[path self :=
                json_dump (JObj (with_note d notes job_title note))]> fs).
Proof.
  intros content json_dump json_load self fs c m job_title note.
  apply record_legacy_french.
Qed.

Lemma record_note_on_french_file_witness :
  let pm := {| path := utf8 "profile_structure.json" |} in
  let m : gmap pystr json :=
    list_to_map
      [(utf8 "identite", dict [(utf8 "nom", JStr (utf8 "Ana Dupont"))]);
       (utf8 "memory_notes",
          dict [(utf8 "Analyst", JStr (utf8 "old note"))])] in
  let fs : gmap pystr json := {[path pm := JObj m]} in
  exists d notes,
    _migrate_french_to_english (JObj m) = Ok (JObj d)
    /\ ledger d = Some notes
    /\ ledger m = Some notes
    /\ has_any_key french_sentinels d = false
    /\ has_any_key spanish_sentinels d = false
    /\ record_adaptation_note json (fun j => j) Ok pm
         (utf8 "Engineer") (utf8 "note A") fs
       = (Ok tt,
          <[path pm :=
              JObj (with_note d notes (utf8 "Engineer") (utf8 "note A"))]>
            fs).
Proof.
  intros pm m fs.
  apply (record_note_on_french_file json (fun j => j) Ok pm fs (JObj m) m
           (utf8 "Engineer") (utf8 "note A"));
    reflexivity.
Defined.

(** The ledger only grows.  After any number of notes recorded in turn
    on a canonical document, the document, the job titles and the notes
    being strings that can be encoded, the file holds the document with
    its other keys unchanged and a ledger in which every job title that
    had a note still has one, every job title recorded has the last note
    recorded for it, and job titles not recorded have the note they
    had. *)
Theorem ledger_after_many_notes :
  forall (content : Type) (json_dump : json -> content)
         (json_load : content -> result json)
         (self : ProfileMemory) (fs : gmap pystr content) (c : content)
         (d notes : gmap pystr json) (entries : list (pystr * pystr)),
    (forall j : json, encodable j = true -> json_load (json_dump j) = Ok j) ->
    fs !! path self = Some c ->
    json_load c = Ok (JObj d) ->
    has_any_key french_sentinels d = false ->
    has_any_key spanish_sentinels d = false ->
    ledger d = Some notes ->
    encodable (JObj d) = true ->
    entries_encodable entries = true ->
    entries <> [] ->
    record_all content json_dump json_load self entries fs
    = (Ok tt,
       <[path self :=
           json_dump
             (JObj (<[utf8 "memory_notes" :=
                        JObj (notes_after notes entries)]> d))]> fs)
    /\ (forall j, is_Some (notes !! j) ->
                  is_Some (notes_after notes entries !! j))
    /\ (forall pre post j n,
          entries = pre ++ (j, n) :: post -> ~ In j post.*1 ->
          notes_after notes entries !! j = Some (JStr n))
    /\ (forall j, ~ In j entries.*1 ->
                  notes_after notes entries !! j = notes !! j).
Proof.
  intros content json_dump json_load self fs c d notes entries
    Hrt H Hc Hf Hs Hl He Hen Hne.
  repeat split.
  - rewrite (record_all_canonical content json_dump json_load self Hrt
               entries fs c d notes H Hc Hf Hs Hl He Hen).
    destruct entries; [contradiction | reflexivity].
  - intros j. apply notes_after_keeps.
  - intros pre post j n -> Hj. now apply notes_after_last.
  - intros j. apply notes_after_untouched.
Qed.

Lemma ledger_after_many_notes_witness :
  let pm := {| path := utf8 "profile_structure.json" |} in
  let d : gmap pystr json :=
    list_to_map [(utf8 "long_profile", JStr (utf8 "..."))] in
  let fs : gmap pystr json := {[path pm := JObj d]} in
  let entries := [(utf8 "Engineer", utf8 "note A");
                  (utf8 "Designer", utf8 "note B");
                  (utf8 "Engineer", utf8 "note C")] in
  record_all json (fun j => j) Ok pm entries fs
  = (Ok tt,
     <[path pm :=
         JObj (<[utf8 "memory_notes" := JObj (notes_after ∅ entries)]> d)]>
       fs).
Proof.
  intros pm d fs entries.
  apply (ledger_after_many_notes json (fun j => j) Ok pm fs (JObj d) d ∅
           entries (fun j _ => eq_refl) eq_refl eq_refl eq_refl eq_refl
           eq_refl eq_refl eq_refl).
  discriminate.
Defined.

Example three_notes_two_titles :
  notes_after ∅ [(utf8 "Engineer", utf8 "note A");
                 (utf8 "Designer", utf8 "note B");
                 (utf8 "Engineer", utf8 "note C")]
  = list_to_map [(utf8 "Engineer", JStr (utf8 "note C"));
                 (utf8 "Designer", JStr (utf8 "note B"))].
Proof. vm_compute. reflexivity. Qed.

End store_more.

(** ** More of pdf_text_extractor.py *)

Module pdf_more.
Import pdf_text_extractor pdf_text_extractor_facts string_facts.

Lemma try_except_stripped (body : result pystr) :
  (forall t, body = Ok t -> strip t = t) ->
  exists t, try_except body (fun _ => Ok []) = Ok t /\ strip t = t.
Proof.
  intros H. destruct body as [t | e]; simpl.
  - exists t. split; [reflexivity | now apply H].
  - now exists [].
Qed.

Lemma bind_stripped {A} (r : result A) (f : A -> pystr) (t : pystr) :
  (r ≫= λ x, Ok (strip (f x))) = Ok t -> strip t = t.
Proof.
  destruct r as [x | e]; simpl; [| discriminate].
  intros H. injection H as <-. apply strip_idempotent.
Qed.

Lemma blank_pages (texts : list (option pystr)) :
  forallb py_isspace (concat (List.map or_empty texts)) = true ->
  forallb py_isspace
    (concat (List.map (fun t => or_empty t ++ [chr_newline]) texts)) = true.
Proof.
  induction texts as [|t texts IH]; intros H; [reflexivity |].
  cbn [List.map concat] in *. rewrite forallb_app in H.
  apply andb_true_iff in H as [Ht Hts].
  rewrite !forallb_app, Ht.
  apply andb_true_iff. split; [reflexivity | now apply IH].
Qed.

Section Strategies.

Variables page image : Type.
Variable import_PyPDF2 : result unit.
Variable PdfReader_pages : pystr -> result (list page).
Variable page_extract_text : page -> result (option pystr).
Variable import_pdfminer : result unit.
Variable pdfminer_extract_text : pystr -> result (option pystr).
Variable import_pdf2image_pytesseract : result unit.
Variable convert_from_path : pystr -> result (list image).
Variable image_to_string : image -> pystr -> result pystr.

Abbreviation try_pypdf2 :=
  (_try_pypdf2 page import_PyPDF2 PdfReader_pages page_extract_text).
Abbreviation try_pdfminer :=
  (_try_pdfminer import_pdfminer pdfminer_extract_text).
Abbreviation try_ocr :=
  (_try_ocr image import_pdf2image_pytesseract convert_from_path
     image_to_string).
Abbreviation extract :=
  (extract_pdf_text_any page image import_PyPDF2 PdfReader_pages
     page_extract_text import_pdfminer pdfminer_extract_text
     import_pdf2image_pytesseract convert_from_path image_to_string).
Abbreviation pages_text := (pypdf2_pages_text page page_extract_text).

Lemma pypdf2_stripped (path : pystr) :
  exists t, try_pypdf2 path = Ok t /\ strip t = t.
Proof.
  unfold _try_pypdf2. destruct import_PyPDF2; [| now exists []].
  apply try_except_stripped. intros t H.
  destruct (PdfReader_pages path) as [pages | e]; simpl in H;
    [| discriminate].
  now apply (bind_stripped (pages_text pages []) (fun x => x)).
Qed.

Lemma pdfminer_stripped (path : pystr) :
  exists t, try_pdfminer path = Ok t /\ strip t = t.
Proof.
  unfold _try_pdfminer. destruct import_pdfminer; [| now exists []].
  apply try_except_stripped. intros t H.
  now apply (bind_stripped (pdfminer_extract_text path) or_empty).
Qed.

Lemma ocr_stripped (path : pystr) (lang : option pystr) :
  exists t, try_ocr path lang = Ok t /\ strip t = t.
Proof.
  unfold _try_ocr. destruct import_pdf2image_pytesseract; [| now exists []].
  apply try_except_stripped. intros t H.
  destruct (convert_from_path path) as [pages | e]; simpl in H;
    [| discriminate].
  now apply (bind_stripped
               (for_each (fun img => image_to_string img
                                       (or_default lang (utf8 "eng")))
                  pages)
               (join [chr_newline])).
Qed.

(** The text the extractor returns is stripped: it neither starts nor
    ends with a white-space character, whatever the libraries return. *)
Theorem extracted_text_is_stripped (path : pystr) (ocr_lang : option pystr) :
  exists t,
    extract path ocr_lang = Ok t
    /\ strip t = t
    /\ (forall c, hd_error t = Some c -> py_isspace c = false)
    /\ (forall c, hd_error (rev t) = Some c -> py_isspace c = false).
Proof.
  destruct (pypdf2_stripped path) as (t1 & H1 & S1).
  destruct (pdfminer_stripped path) as (t2 & H2 & S2).
  destruct (ocr_stripped path ocr_lang) as (t3 & H3 & S3).
  assert (H : exists t, extract path ocr_lang = Ok t /\ strip t = t).
  { unfold extract_pdf_text_any. rewrite H1. simpl.
    destruct (truthy t1); [eauto |].
    rewrite H2. simpl. destruct (truthy t2); eauto. }
  destruct H as (t & Ht & St). exists t. repeat split; try assumption.
  - intros c. rewrite <- St. apply strip_head_last.
  - intros c. rewrite <- St. apply strip_head_last.
Qed.

Lemma pages_text_raises (pages : list page) (p : page) (e : exn)
    (text : pystr) :
  In p pages -> page_extract_text p = Raise e ->
  exists e', pages_text pages text = Raise e'.
Proof.
  revert text. induction pages as [|q pages IH]; intros text Hin Hp;
    [contradiction |].
  simpl. destruct (page_extract_text q) as [t | e'] eqn:E; simpl; [| eauto].
  destruct Hin as [-> | Hin]; [congruence |]. now apply IH.
Qed.

Lemma for_each_raises {A B} (f : A -> result B) (l : list A) (x : A)
    (e : exn) :
  In x l -> f x = Raise e -> exists e', for_each f l = Raise e'.
Proof.
  induction l as [|y l IH]; intros Hin Hx; [contradiction |].
  simpl. destruct (f y) as [b | e'] eqn:E; simpl; [| eauto].
  destruct Hin as [-> | Hin]; [congruence |].
  destruct (IH Hin Hx) as [e'' ->]. simpl. eauto.
Qed.

(** A strategy is all or nothing: when reading one page raises, the
    direct strategy returns the empty string even if every other page
    has text, and when one page image cannot be read by OCR, the OCR
    strategy returns the empty string. *)
Theorem one_failing_page_empties_strategy (path : pystr) :
  (forall pages p e,
      PdfReader_pages path = Ok pages ->
      In p pages -> page_extract_text p = Raise e ->
      try_pypdf2 path = Ok [])
  /\ (forall lang images img e,
        convert_from_path path = Ok images ->
        In img images ->
        image_to_string img (or_default lang (utf8 "eng")) = Raise e ->
        try_ocr path lang = Ok []).
Proof.
  split.
  - intros pages p e Hp Hin He. unfold _try_pypdf2.
    destruct import_PyPDF2; [| reflexivity].
    rewrite Hp. simpl.
    now destruct (pages_text_raises pages p e [] Hin He) as [e' ->].
  - intros lang images img e Hp Hin He. unfold _try_ocr.
    destruct import_pdf2image_pytesseract; [| reflexivity].
    rewrite Hp. simpl.
    now destruct (for_each_raises
                    (fun i => image_to_string i (or_default lang (utf8 "eng")))
                    images img e Hin He) as [e' ->].
Qed.

Lemma pages_text_closed (pages : list page) (texts : list (option pystr))
    (text : pystr) :
  Forall2 (fun p t => page_extract_text p = Ok t) pages texts ->
  pages_text pages text
  = Ok (text ++ concat (List.map (fun t => or_empty t ++ [chr_newline])
                          texts)).
Proof.
  intros H. revert text.
  induction H as [|p t pages texts Hp _ IH]; intros text; simpl.
  - now rewrite app_nil_r.
  - rewrite Hp. simpl. rewrite IH. now rewrite <- !app_assoc.
Qed.

Lemma pypdf2_text (path : pystr) (pages : list page)
    (texts : list (option pystr)) :
  import_PyPDF2 = Ok tt ->
  PdfReader_pages path = Ok pages ->
  Forall2 (fun p t => page_extract_text p = Ok t) pages texts ->
  try_pypdf2 path
  = Ok (strip (concat (List.map (fun t => or_empty t ++ [chr_newline])
                         texts))).
Proof.
  intros Hi Hp H. unfold _try_pypdf2. rewrite Hi, Hp. simpl.
  now rewrite (pages_text_closed pages texts [] H).
Qed.

(** When the library imports and every page is read, the direct strategy
    returns the page texts in order, each followed by a newline, the
    whole stripped; a page without text ([None] or the empty string)
    contributes its newline only. *)
Theorem pypdf2_joins_pages (path : pystr) (pages : list page)
    (texts : list (option pystr)) :
  import_PyPDF2 = Ok tt ->
  PdfReader_pages path = Ok pages ->
  Forall2 (fun p t => page_extract_text p = Ok t) pages texts ->
  try_pypdf2 path
  = Ok (strip (concat (List.map (fun t => or_empty t ++ [chr_newline])
                         texts))).
Proof.
  intros Hi Hp H. unfold _try_pypdf2. rewrite Hi, Hp. simpl.
  now rewrite (pages_text_closed pages texts [] H).
Qed.

(** A text layer that holds white space only counts as no text: the
    extractor then returns what the alternate parser gives, or, when
    that is empty too, what OCR gives. *)
Theorem blank_text_layer_falls_through (path : pystr)
    (ocr_lang : option pystr) (pages : list page)
    (texts : list (option pystr)) :
  import_PyPDF2 = Ok tt ->
  PdfReader_pages path = Ok pages ->
  Forall2 (fun p t => page_extract_text p = Ok t) pages texts ->
  forallb py_isspace (concat (List.map or_empty texts)) = true ->
  extract path ocr_lang
  = (text ← try_pdfminer path;
     if truthy text then Ok text else try_ocr path ocr_lang).
Proof.
  intros Hi Hp H Hb. unfold extract_pdf_text_any.
  rewrite (pypdf2_text path pages texts Hi Hp H).
  assert (E : strip (concat (List.map
                       (fun t => or_empty t ++ [chr_newline]) texts)) = []).
  { now apply strip_nil_iff, blank_pages. }
  rewrite E. reflexivity.
Qed.

End Strategies.

Lemma extracted_text_is_stripped_witness :
  exists t,
    extract_pdf_text_any unit unit
      (Ok tt) (fun _ => Ok [tt]) (fun _ => Ok (Some (utf8 "  Ana Dupont ")))
      (Raise ImportError) (fun _ => Ok None)
      (Raise ImportError) (fun _ => Ok []) (fun _ _ => Ok [])
      (utf8 "cv.pdf") None = Ok t
    /\ strip t = t
    /\ (forall c, hd_error t = Some c -> py_isspace c = false)
    /\ (forall c, hd_error (rev t) = Some c -> py_isspace c = false).
Proof. apply extracted_text_is_stripped. Defined.

Lemma one_failing_page_empties_strategy_witness :
  _try_pypdf2 bool (Ok tt) (fun _ => Ok [true; false])
    (fun p => if p then Ok (Some (utf8 "Ana Dupont"))
              else Raise (KeyError (utf8 "/Contents")))
    (utf8 "cv.pdf")
  = Ok [].
Proof.
  apply (proj1 (one_failing_page_empties_strategy bool unit
                  (Ok tt) (fun _ => Ok [true; false])
                  (fun p => if p then Ok (Some (utf8 "Ana Dupont"))
                            else Raise (KeyError (utf8 "/Contents")))
                  (Ok tt) (fun _ => Ok []) (fun _ _ => Ok [])
                  (utf8 "cv.pdf"))
           [true; false] false (KeyError (utf8 "/Contents")));
    [reflexivity | right; left; reflexivity | reflexivity].
Defined.

Lemma pypdf2_joins_pages_witness :
  _try_pypdf2 bool (Ok tt) (fun _ => Ok [true; false])
    (fun p => if p then Ok (Some (utf8 " Ana Dupont")) else Ok None)
    (utf8 "cv.pdf")
  = Ok (strip (concat (List.map (fun t => or_empty t ++ [chr_newline])
                         [Some (utf8 " Ana Dupont"); None]))).
Proof.
  apply (pypdf2_joins_pages bool (Ok tt) (fun _ => Ok [true; false])
           (fun p => if p then Ok (Some (utf8 " Ana Dupont")) else Ok None)
           (utf8 "cv.pdf") [true; false]);
    [reflexivity | reflexivity | repeat constructor].
Defined.

Lemma blank_text_layer_falls_through_witness :
  extract_pdf_text_any bool unit
    (Ok tt) (fun _ => Ok [true; false])
    (fun p => if p then Ok (Some (utf8 "   ")) else Ok None)
    (Ok tt) (fun _ => Ok (Some (utf8 "Ana Dupont")))
    (Raise ImportError) (fun _ => Ok []) (fun _ _ => Ok [])
    (utf8 "cv.pdf") None
  = (text ← _try_pdfminer (Ok tt) (fun _ => Ok (Some (utf8 "Ana Dupont")))
              (utf8 "cv.pdf");
     if truthy text then Ok text
     else _try_ocr unit (Raise ImportError) (fun _ => Ok [])
            (fun _ _ => Ok []) (utf8 "cv.pdf") None).
Proof.
  apply (blank_text_layer_falls_through bool unit (Ok tt)
           (fun _ => Ok [true; false])
           (fun p => if p then Ok (Some (utf8 "   ")) else Ok None)
           (Ok tt) (fun _ => Ok (Some (utf8 "Ana Dupont")))
           (Raise ImportError) (fun _ => Ok []) (fun _ _ => Ok [])
           (utf8 "cv.pdf") None [true; false] [Some (utf8 "   "); None]);
    [reflexivity | reflexivity | repeat constructor | reflexivity].
Defined.

End pdf_more.

(** ** More of generate_resume.py *)

Module generator_more.
Import generate_resume generate_resume_facts tailoring_facts string_facts.

Lemma existsb_false_iff {A} (p : A -> bool) (l : list A) :
  existsb p l = false <-> forall x, In x l -> p x = false.
Proof.
  induction l as [|y l IH]; simpl.
  - split; [intros _ x [] | reflexivity].
  - rewrite orb_false_iff, IH. split.
    + intros [Hy Hl] x [<- | Hx]; auto.
    + intros H. split; [apply H; now left | intros x Hx; apply H; now right].
Qed.

(** The language of an offer: Spanish as soon as one Spanish hint occurs
    in the lower-cased text, French when no Spanish hint occurs and a
    French one does, English otherwise.  The hint [ la ] is in both
    lists, so a text in which it occurs is always taken for Spanish. *)
Theorem detect_language_priority (str_lower : pystr -> pystr)
    (text : pystr) :
  let lowered := str_lower text in
  let hit hints := exists w, In w hints /\ str_contains w lowered = true in
  (detect_language str_lower text = es <-> hit spanish_hints)
  /\ (detect_language str_lower text = fr
      <-> ~ hit spanish_hints /\ hit french_hints)
  /\ (detect_language str_lower text = en
      <-> ~ hit spanish_hints /\ ~ hit french_hints)
  /\ (str_contains (utf8 " la ") lowered = true ->
      detect_language str_lower text = es).
Proof.
  intros lowered hit. unfold detect_language. fold lowered.
  assert (Hs : forall hints,
             existsb (fun word => str_contains word lowered) hints = true
             <-> hit hints).
  { intros hints. unfold hit. now rewrite existsb_exists. }
  assert (Hn : forall hints,
             existsb (fun word => str_contains word lowered) hints = false
             <-> ~ hit hints).
  { intros hints. rewrite <- Hs. now destruct (existsb _ hints). }
  destruct (existsb _ spanish_hints) eqn:Es;
    [| destruct (existsb _ french_hints) eqn:Ef].
  - apply Hs in Es. repeat split; try discriminate; try tauto.
  - apply Hn in Es. apply Hs in Ef. repeat split; try discriminate; try tauto.
    intros H. exfalso. apply Es. exists (utf8 " la "). split; [| exact H].
    right. left. reflexivity.
  - apply Hn in Es. apply Hn in Ef.
    repeat split; try discriminate; try tauto.
    intros H. exfalso. apply Es. exists (utf8 " la "). split; [| exact H].
    right. left. reflexivity.
Qed.

Lemma detect_language_priority_witness :
  detect_language (fun s => s) (utf8 "Nous cherchons la personne idéale")
  = es.
Proof.
  apply (detect_language_priority (fun s => s)
           (utf8 "Nous cherchons la personne idéale")).
  reflexivity.
Defined.

Lemma firstn_nil_iff {A} (n : nat) (l : list A) :
  firstn (S n) l = [] <-> l = [].
Proof. destruct l; simpl; split; congruence. Qed.

Lemma forbidden_after_replace (s : pystr) :
  forallb is_forbidden (replace_char chr_newline chr_space s)
  = forallb is_forbidden s.
Proof.
  unfold replace_char. induction s as [|c s IH]; [reflexivity |].
  simpl. rewrite IH. f_equal.
  destruct (c =? chr_newline)%N eqn:E; [| reflexivity].
  apply N.eqb_eq in E. now subst.
Qed.

(** [extract_job_title] returns [None] exactly when nothing is left of
    the answer once stripped: when it is empty, white space only, or made
    of forbidden characters only. *)
Theorem job_title_none_iff (str_lower : pystr -> pystr)
    (self : ResumeGenerator) (offer response : pystr) :
  (forall prompt, client self prompt = Ok response) ->
  (fst (extract_job_title str_lower self offer) = Ok None
   <-> forallb is_forbidden (strip response) = true).
Proof.
  intros H. rewrite (title_of_response str_lower self offer response H).
  cbv zeta. rewrite <- forbidden_after_replace, <- re_sub_forbidden_nil_iff.
  unfold slice_to.
  set (clean := re_sub_forbidden _).
  rewrite <- (firstn_nil_iff 49 clean).
  destruct (firstn 50 clean) eqn:E; simpl; split;
    congruence.
Qed.

Lemma job_title_none_iff_witness :
  fst (extract_job_title (fun s => s)
         {| client := constant_client (utf8 " ??? ");
            profile := sample_profile; locale := en |}
         (utf8 "offer"))
  = Ok None.
Proof.
  apply (job_title_none_iff (fun s => s)
           {| client := constant_client (utf8 " ??? ");
              profile := sample_profile; locale := en |}
           (utf8 "offer") (utf8 " ??? "));
    [intros prompt | ]; reflexivity.
Defined.

(** A title that [extract_job_title] returned goes into the file name as
    it is: the name is [Resume_], the title, [.pdf], at most 61
    characters, whatever the profile. *)
Theorem filename_of_extracted_title (str_lower : pystr -> pystr)
    (today : pystr) (self other : ResumeGenerator)
    (offer response title : pystr) :
  (forall prompt, client self prompt = Ok response) ->
  fst (extract_job_title str_lower self offer) = Ok (Some title) ->
  generate_filename today other (Some title)
  = Ok (utf8 "Resume_" ++ title ++ utf8 ".pdf")
  /\ (length (utf8 "Resume_" ++ title ++ utf8 ".pdf") <= 61)%nat.
Proof.
  intros H Ht. rewrite (title_of_response str_lower self offer response H)
    in Ht.
  cbv zeta in Ht.
  set (clean := re_sub_forbidden _) in Ht.
  assert (Hclean : forallb (fun c => negb (is_forbidden c))
                     (slice_to 50 clean) = true)
    by apply firstn_forallb, re_sub_forbidden_forallb.
  pose proof (slice_to_length 50 clean) as Hlen.
  set (t := slice_to 50 clean) in *. clearbody t.
  destruct (truthy t) eqn:E; [| discriminate].
  injection Ht as <-. split.
  - unfold generate_filename, truthy_opt. rewrite E.
    cbn [mbind result_bind default]. unfold id. f_equal.
    rewrite re_sub_forbidden_app, (re_sub_forbidden_fixed t Hclean).
    change (re_sub_forbidden (utf8 "Resume_")) with (utf8 "Resume_").
    now rewrite <- app_assoc.
  - rewrite !length_app.
    change (length (utf8 "Resume_")) with 7%nat.
    change (length (utf8 ".pdf")) with 4%nat. lia.
Qed.

Lemma filename_of_extracted_title_witness :
  generate_filename (utf8 "20240131")
    {| client := raising_client ImportError; profile := JNull; locale := fr |}
    (Some (utf8 "DevOps Lead"))
  = Ok (utf8 "Resume_" ++ utf8 "DevOps Lead" ++ utf8 ".pdf")
  /\ (length (utf8 "Resume_" ++ utf8 "DevOps Lead" ++ utf8 ".pdf") <= 61)%nat.
Proof.
  apply (filename_of_extracted_title (fun s => s) (utf8 "20240131")
           {| client := constant_client (utf8 " Dev/Ops: Lead? ");
              profile := JNull; locale := en |}
           _ (utf8 "offer") (utf8 " Dev/Ops: Lead? "));
    [intros prompt | ]; reflexivity.
Defined.

(** Without a title ([None] or the empty string) the file name is made
    of the candidate's name, its spaces turned into underscores, and the
    date, both sanitised.  A profile without [identity] raises
    [KeyError]; a name that is not a string (a [null] left by a
    migration, for one) raises [AttributeError]. *)
Theorem filename_without_title (today : pystr) (self : ResumeGenerator)
    (job_title : option pystr) :
  truthy_opt job_title = false ->
  (forall identity name,
      py_getitem (profile self) (utf8 "identity") = Ok identity ->
      py_getitem identity (utf8 "name") = Ok (JStr name) ->
      generate_filename today self job_title
      = Ok (utf8 "Resume_"
            ++ re_sub_forbidden (replace_char chr_space chr_underscore name)
            ++ utf8 "_" ++ re_sub_forbidden today ++ utf8 ".pdf")
      /\ ~ In chr_space
             (re_sub_forbidden (replace_char chr_space chr_underscore name)))
  /\ (forall p, profile self = JObj p -> p !! utf8 "identity" = None ->
                generate_filename today self job_title
                = Raise (KeyError (utf8 "identity")))
  /\ (forall identity name,
        py_getitem (profile self) (utf8 "identity") = Ok identity ->
        py_getitem identity (utf8 "name") = Ok name ->
        (forall s, name <> JStr s) ->
        generate_filename today self job_title = Raise AttributeError).
Proof.
  intros Ht. unfold generate_filename. rewrite Ht. split; [| split].
  - intros identity name Hi Hn. rewrite Hi. cbn [mbind result_bind].
    rewrite Hn. cbn [mbind result_bind py_replace_space]. split.
    + rewrite !re_sub_forbidden_app, <- !app_assoc. reflexivity.
    + intros Hin. apply re_sub_forbidden_subset in Hin.
      unfold replace_char in Hin. apply in_map_iff in Hin as (c & Hc & _).
      destruct (c =? chr_space)%N eqn:E; [discriminate Hc |].
      apply N.eqb_neq in E. congruence.
  - intros p Hp Hn. rewrite Hp. cbn [py_getitem]. now rewrite Hn.
  - intros identity name Hi Hname Hns. rewrite Hi. cbn [mbind result_bind].
    rewrite Hname. cbn [mbind result_bind].
    destruct name; try reflexivity. now contradiction (Hns s).
Qed.

Lemma filename_without_title_witness :
  let self := {| client := raising_client ImportError;
                 profile := dict [(utf8 "identity",
                                   dict [(utf8 "name", JNull)])];
                 locale := en |} in
  generate_filename (utf8 "20240131") self (Some []) = Raise AttributeError.
Proof.
  intros self.
  apply (proj2 (proj2 (filename_without_title (utf8 "20240131") self
                         (Some []) eq_refl))
           (dict [(utf8 "name", JNull)]) JNull);
    [reflexivity | reflexivity | discriminate].
Defined.

Section Brackets.

Variable json_dumps : json -> pystr.
Variable json_loads : pystr -> result json.
Variable prof : json.
Variable loc : Locale.
Variable offer : pystr.
Variable experiences : json.

Hypothesis has_experiences :
  py_getitem prof (utf8 "experiences") = Ok experiences.

Let run (response : pystr) : result json :=
  select_experiences json_dumps json_loads
    {| client := constant_client response; profile := prof; locale := loc |}
    offer.

Let parse (text : pystr) : result json :=
  except_JSONDecodeError (json_loads text) (py_slice_to 2 experiences).

Lemma run_unfold (response : pystr) :
  run response
  = (let start := find chr_lbracket response in
     let stop := rfind chr_rbracket response + 1 in
     if negb (start =? -1) && (stop >? start)
     then parse (slice response start stop)
     else parse response).
Proof.
  unfold run, parse, select_experiences, _generate. simpl.
  rewrite has_experiences. simpl.
  destruct (negb _ && _); reflexivity.
Qed.

Lemma run_bracketed (pre mid post : pystr) :
  ~ In chr_lbracket pre ->
  ~ In chr_rbracket post ->
  run (pre ++ chr_lbracket :: mid ++ chr_rbracket :: post)
  = parse (chr_lbracket :: mid ++ [chr_rbracket]).
Proof.
  intros Ho Hc. rewrite run_unfold. cbv zeta.
  destruct (slice_first_last chr_lbracket chr_rbracket pre mid post Ho Hc)
    as (Hf & Hr & Hs).
  rewrite Hs, Hf, Hr.
  replace (negb (Z.of_nat (length pre) =? -1)
           && (Z.of_nat (length pre + length mid + 2)
               >? Z.of_nat (length pre))) with true; [reflexivity |].
  symmetry. apply andb_true_iff. split.
  - apply negb_true_iff, Z.eqb_neq. lia.
  - apply Z.gtb_lt. lia.
Qed.

Lemma run_no_open (response : pystr) :
  ~ In chr_lbracket response -> run response = parse response.
Proof.
  intros H. rewrite run_unfold. cbv zeta. unfold find.
  now rewrite find_from_absent.
Qed.

Lemma run_no_close_after (pre rest : pystr) :
  ~ In chr_lbracket pre ->
  ~ In chr_rbracket rest ->
  run (pre ++ chr_lbracket :: rest) = parse (pre ++ chr_lbracket :: rest).
Proof.
  intros Ho Hc. rewrite run_unfold. cbv zeta.
  destruct (rfind_before_find chr_lbracket chr_rbracket pre rest
              ltac:(discriminate) Ho Hc) as (Hf & Hr).
  replace (rfind chr_rbracket (pre ++ chr_lbracket :: rest) + 1
           >? find chr_lbracket (pre ++ chr_lbracket :: rest)) with false.
  - now rewrite andb_false_r.
  - symmetry. rewrite Z.gtb_ltb. apply Z.ltb_ge. exact Hr.
Qed.

End Brackets.

(** [select_experiences] reads the answer from its first opening
    bracket to its last closing bracket, both included, and ignores what
    the service wrote before and after; an answer with no opening
    bracket, or with no closing bracket after the first opening one, is
    read whole.  What is read is parsed as JSON and returned as it is,
    whatever its shape; only when it does not parse are the first two
    experiences returned. *)
Theorem select_experiences_reads_bracketed_part :
  forall (json_dumps : json -> pystr) (json_loads : pystr -> result json)
         (prof : json) (loc : Locale) (offer : pystr) (experiences : json),
    py_getitem prof (utf8 "experiences") = Ok experiences ->
    let run response :=
      select_experiences json_dumps json_loads
        {| client := constant_client response;
           profile := prof; locale := loc |} offer in
    let parse text :=
      except_JSONDecodeError (json_loads text) (py_slice_to 2 experiences) in
    (forall pre mid post,
        ~ In chr_lbracket pre -> ~ In chr_rbracket post ->
        run (pre ++ chr_lbracket :: mid ++ chr_rbracket :: post)
        = parse (chr_lbracket :: mid ++ [chr_rbracket]))
    /\ (forall response,
          ~ In chr_lbracket response -> run response = parse response)
    /\ (forall pre rest,
          ~ In chr_lbracket pre -> ~ In chr_rbracket rest ->
          run (pre ++ chr_lbracket :: rest)
          = parse (pre ++ chr_lbracket :: rest)).
Proof.
  intros json_dumps json_loads prof loc offer experiences H run parse.
  split; [| split].
  - apply run_bracketed. exact H.
  - apply run_no_open. exact H.
  - apply run_no_close_after. exact H.
Qed.

Lemma select_experiences_reads_bracketed_part_witness :
  let loads : pystr -> result json := fun _ => Ok (JArr []) in
  let exps := JArr [sample_experience "Acme"; sample_experience "Globex";
                    sample_experience "Initech"] in
  select_experiences (fun _ => []) loads
    {| client := constant_client
                   (utf8 "Here you go: "
                    ++ chr_lbracket :: utf8 "1, 2"
                    ++ chr_rbracket :: utf8 " Hope it helps!");
       profile := sample_profile; locale := en |}
    (utf8 "offer")
  = except_JSONDecodeError
      (loads (chr_lbracket :: utf8 "1, 2" ++ [chr_rbracket]))
      (py_slice_to 2 exps).
Proof.
  intros loads exps.
  apply (proj1 (select_experiences_reads_bracketed_part (fun _ => [])
                  loads sample_profile en (utf8 "offer") exps eq_refl)
           (utf8 "Here you go: ") (utf8 "1, 2") (utf8 " Hope it helps!")).
  - vm_compute. intuition discriminate.
  - vm_compute. intuition discriminate.
Defined.

End generator_more.

(** ** generate_resume.py: start-up and the whole run *)

Module run_more.
Import profile_memory generate_resume generate_resume_run.
Import encoding_facts migration_facts store_facts generate_resume_facts.
Import string_facts.
Import store_more.

Lemma title_is_clean (str_lower : pystr -> pystr) (self : ResumeGenerator)
    (offer title : pystr) :
  fst (extract_job_title str_lower self offer) = Ok (Some title) ->
  truthy title = true
  /\ forallb (fun c => negb (is_forbidden c)) title = true.
Proof.
  unfold extract_job_title, _generate. cbn [fst].
  destruct (client _ _) as [response | e]; cbn [mbind result_bind];
    [| discriminate].
  set (clean := re_sub_forbidden _).
  assert (Hclean : forallb (fun c => negb (is_forbidden c))
                     (slice_to 50 clean) = true)
    by apply firstn_forallb, re_sub_forbidden_forallb.
  set (t := slice_to 50 clean) in *. clearbody t.
  destruct (truthy t) eqn:E; [| discriminate].
  intros H. injection H as <-. auto.
Qed.

Lemma filename_of_clean_title (today : pystr) (self : ResumeGenerator)
    (title : pystr) :
  truthy title = true ->
  forallb (fun c => negb (is_forbidden c)) title = true ->
  generate_filename today self (Some title)
  = Ok (utf8 "Resume_" ++ title ++ utf8 ".pdf").
Proof.
  intros E Hclean. unfold generate_filename, truthy_opt. rewrite E.
  cbn [mbind result_bind default]. unfold id. f_equal.
  rewrite re_sub_forbidden_app, (re_sub_forbidden_fixed title Hclean).
  change (re_sub_forbidden (utf8 "Resume_")) with (utf8 "Resume_").
  now rewrite <- app_assoc.
Qed.

Section Run.

Variable content : Type.
Variable json_dump : json -> content.
Variable json_load : content -> result json.
Variable str_lower : pystr -> pystr.
Variable py_repr : json -> pystr.
Variable json_dumps : json -> pystr.
Variable json_loads : pystr -> result json.
Variable today : pystr.
Variable generate_pdf :
  ResumeGenerator -> pystr -> json -> pystr -> pystr -> M content unit.
Variable memory : ProfileMemory.

Abbreviation load_profile :=
  (_load_profile content json_dump json_load memory).
Abbreviation run :=
  (generate content json_dump json_load str_lower py_repr json_dumps
     json_loads today generate_pdf memory).

Lemma load_profile_absent (fs : gmap pystr content) :
  fs !! path memory = None -> load_profile fs = (Exited 1, fs).
Proof.
  intros H. unfold _load_profile.
  now rewrite (load_absent content json_dump json_load memory fs H).
Qed.

Lemma load_profile_loaded (fs fs' : gmap pystr content) (p : json) :
  load_profile fs = (Loaded p, fs') ->
  load content json_dump json_load memory fs = (Ok p, fs')
  /\ exists identity name,
       py_getitem p (utf8 "identity") = Ok identity
       /\ py_getitem identity (utf8 "name") = Ok name.
Proof.
  unfold _load_profile.
  destruct (load content json_dump json_load memory fs) as [[q | e] fs1].
  - destruct (py_getitem q (utf8 "identity")) as [identity | e] eqn:Ei;
      cbn [mbind result_bind].
    + destruct (py_getitem identity (utf8 "name")) as [name | e] eqn:En.
      * intros H. injection H as <- <-. split; [reflexivity |].
        exists identity, name. now rewrite Ei.
      * destruct e; discriminate.
    + destruct e; discriminate.
  - destruct e; discriminate.
Qed.

Lemma load_profile_french (fs : gmap pystr content) (c : content)
    (m : gmap pystr json) :
  fs !! path memory = Some c ->
  json_load c = Ok (JObj m) ->
  has_any_key french_sentinels m = true ->
  french_shaped m = true ->
  encodable (JObj m) = true ->
  exists y,
    _migrate_french_to_english (JObj m) = Ok y
    /\ load_profile fs = (Loaded y, <[path memory := json_dump y]> fs).
Proof.
  intros H Hc Hk Hs He.
  destruct (french_returns m Hs) as (y & Hy & _).
  exists y. split; [exact Hy |]. unfold _load_profile.
  rewrite (load_french content json_dump json_load memory fs c m H Hc Hk), Hy.
  unfold profile_memory.written_back.
  rewrite (french_encodable (JObj m) y He Hy).
  clear Hs He. revert Hy. unfold _migrate_french_to_english. intros Hy.
  invert_binds Hy. injection Hy as <-. reflexivity.
Qed.

Lemma load_profile_cut (fs : gmap pystr content) (c : content)
    (m : gmap pystr json) (y : json) :
  fs !! path memory = Some c ->
  json_load c = Ok (JObj m) ->
  has_any_key french_sentinels m = true ->
  _migrate_french_to_english (JObj m) = Ok y ->
  encodable y = false ->
  load_profile fs
  = (Failed UnicodeEncodeError, <[path memory := json_dump y]> fs).
Proof.
  intros H Hc Hk Hy He. unfold _load_profile.
  rewrite (load_french content json_dump json_load memory fs c m H Hc Hk), Hy.
  unfold profile_memory.written_back. now rewrite He.
Qed.

Lemma run_service_down (self : ResumeGenerator) (job_offer : pystr)
    (e : exn) (fs : gmap pystr content) :
  (forall prompt, client self prompt = Raise e) ->
  run self job_offer fs = (Raise e, fs).
Proof.
  intros H. unfold generate, extract_job_title, _generate. cbn [client].
  rewrite H. reflexivity.
Qed.

Lemma run_with_title (self : ResumeGenerator) (job_offer : pystr)
    (fs : gmap pystr content) (c : content) (d notes : gmap pystr json)
    (title summary skills : pystr) (experiences : json) :
  let self1 := snd (extract_job_title str_lower self job_offer) in
  fst (extract_job_title str_lower self job_offer) = Ok (Some title) ->
  adapt_profile py_repr self1 job_offer = Ok summary ->
  select_experiences json_dumps json_loads self1 job_offer = Ok experiences ->
  select_skills json_dumps self1 job_offer = Ok skills ->
  fs !! path memory = Some c ->
  json_load c = Ok (JObj d) ->
  has_any_key french_sentinels d = false ->
  has_any_key spanish_sentinels d = false ->
  ledger d = Some notes ->
  encodable (JObj d) = true ->
  str_encodable title = true ->
  run self job_offer fs
  = generate_pdf self1 summary experiences skills
      (utf8 "Resume_" ++ title ++ utf8 ".pdf")
      (<[path memory :=
           json_dump (JObj (with_note d notes title (note_prefix ++ title)))]>
         fs).
Proof.
  intros self1 Ht Ha He Hk H Hc Hf Hs Hl Hed Het.
  assert (Hen : str_encodable (note_prefix ++ title) = true).
  { unfold str_encodable. rewrite forallb_app. apply andb_true_iff.
    split; [reflexivity | exact Het]. }
  destruct (title_is_clean str_lower self job_offer title Ht) as (Etr & Hcl).
  unfold generate. subst self1.
  destruct (extract_job_title str_lower self job_offer) as [r self1].
  cbn [fst snd] in *. subst r.
  unfold lift, mbind, M_bind.
  rewrite Ha, He, Hk. cbn [truthy_opt default]. rewrite Etr. unfold id.
  rewrite (record_once content json_dump json_load memory fs c d notes
             title (note_prefix ++ title) H Hc Hf Hs Hl Hed Het Hen).
  now rewrite (filename_of_clean_title today self1 title Etr Hcl).
Qed.

Lemma run_without_title (self : ResumeGenerator) (job_offer : pystr)
    (fs : gmap pystr content)
    (summary skills : pystr) (experiences : json) :
  let self1 := snd (extract_job_title str_lower self job_offer) in
  fst (extract_job_title str_lower self job_offer) = Ok None ->
  adapt_profile py_repr self1 job_offer = Ok summary ->
  select_experiences json_dumps json_loads self1 job_offer = Ok experiences ->
  select_skills json_dumps self1 job_offer = Ok skills ->
  run self job_offer fs
  = match generate_filename today self1 None with
    | Ok filename =>
        generate_pdf self1 summary experiences skills filename fs
    | Raise e => (Raise e, fs)
    end.
Proof.
  intros self1 Ht Ha He Hk.
  unfold generate. subst self1.
  destruct (extract_job_title str_lower self job_offer) as [r self1].
  cbn [fst snd] in *. subst r.
  unfold lift, mbind, M_bind, mret, M_ret.
  rewrite Ha, He, Hk. cbn [truthy_opt].
  now destruct (generate_filename today self1 None).
Qed.

End Run.

(** Starting the generator: a missing profile file ends the program with
    exit code 1 and creates no file; a profile that is loaded has an
    identity with a name (whatever its value); a well-shaped French file
    whose strings can be encoded is loaded migrated, and rewritten on
    the way; when the migrated document has a string that cannot be
    encoded, the [UnicodeEncodeError] of the write escapes and the file
    is left cut. *)
Theorem startup_outcomes :
  forall (content : Type) (json_dump : json -> content)
         (json_load : content -> result json)
         (memory : ProfileMemory) (fs : gmap pystr content),
    (fs !! path memory = None ->
     _load_profile content json_dump json_load memory fs = (Exited 1, fs))
    /\ (forall p fs',
          _load_profile content json_dump json_load memory fs
          = (Loaded p, fs') ->
          load content json_dump json_load memory fs = (Ok p, fs')
          /\ exists identity name,
               py_getitem p (utf8 "identity") = Ok identity
               /\ py_getitem identity (utf8 "name") = Ok name)
    /\ (forall c m,
          fs !! path memory = Some c ->
          json_load c = Ok (JObj m) ->
          has_any_key french_sentinels m = true ->
          french_shaped m = true ->
          encodable (JObj m) = true ->
          exists y,
            _migrate_french_to_english (JObj m) = Ok y
            /\ _load_profile content json_dump json_load memory fs
               = (Loaded y, <[path memory := json_dump y]> fs))
    /\ (forall c m y,
          fs !! path memory = Some c ->
          json_load c = Ok (JObj m) ->
          has_any_key french_sentinels m = true ->
          _migrate_french_to_english (JObj m) = Ok y ->
          encodable y = false ->
          _load_profile content json_dump json_load memory fs
          = (Failed UnicodeEncodeError, <[path memory := json_dump y]> fs)).
Proof.
  intros content json_dump json_load memory fs. split; [| split; [| split]].
  - apply load_profile_absent.
  - intros p fs'. apply load_profile_loaded.
  - intros c m. apply load_profile_french.
  - intros c m y. apply load_profile_cut.
Qed.

(** The French file of the scenario is loaded migrated and rewritten;
    with no file, the program exits. *)
Lemma startup_outcomes_witness :
  let pm := {| path := utf8 "profile_structure.json" |} in
  let m : gmap pystr json :=
    list_to_map
      [(utf8 "identite",
          dict [(utf8 "nom", JStr (utf8 "Ana Dupont"));
                (utf8 "titre", JStr (utf8 "Ingénieure"))]);
       (utf8 "langues", JArr [JStr (utf8 "Français (natif)")])] in
  let fs : gmap pystr json := {[path pm := JObj m]} in
  (exists y,
      _migrate_french_to_english (JObj m) = Ok y
      /\ _load_profile json (fun j => j) Ok pm fs
         = (Loaded y, <[path pm := y]> fs))
  /\ _load_profile json (fun j => j) Ok pm ∅ = (Exited 1, ∅).
Proof.
  intros pm m fs. split.
  - apply (proj1 (proj2 (proj2 (startup_outcomes json (fun j => j) Ok pm fs)))
             (JObj m) m);
      reflexivity.
  - apply (proj1 (startup_outcomes json (fun j => j) Ok pm ∅)). reflexivity.
Defined.

(** With the completion service down, a run stops at its first stage:
    the exception of the service escapes [generate], nothing is written
    and nothing is rendered. *)
Theorem run_stops_when_service_is_down :
  forall (content : Type) (json_dump : json -> content)
         (json_load : content -> result json)
         (str_lower : pystr -> pystr) (py_repr json_dumps : json -> pystr)
         (json_loads : pystr -> result json) (today : pystr)
         (generate_pdf :
            ResumeGenerator -> pystr -> json -> pystr -> pystr ->
            M content unit)
         (memory : ProfileMemory) (self : ResumeGenerator)
         (job_offer : pystr) (e : exn) (fs : gmap pystr content),
    (forall prompt, client self prompt = Raise e) ->
    generate content json_dump json_load str_lower py_repr json_dumps
      json_loads today generate_pdf memory self job_offer fs
    = (Raise e, fs).
Proof.
  intros content json_dump json_load str_lower py_repr json_dumps
    json_loads today generate_pdf memory self job_offer e fs.
  apply run_service_down.
Qed.

Lemma run_stops_when_service_is_down_witness :
  let pm := {| path := utf8 "profile_structure.json" |} in
  let fs : gmap pystr json := {[path pm := sample_profile]} in
  generate json (fun j => j) Ok (fun s => s) (fun _ => []) (fun _ => [])
    (fun _ => Raise JSONDecodeError) (utf8 "20240131")
    (fun _ _ _ _ filename files => (Ok tt, <[filename := JNull]> files))
    pm
    {| client := raising_client ImportError;
       profile := sample_profile; locale := en |}
    (utf8 "Data engineer wanted") fs
  = (Raise ImportError, fs).
Proof.
  intros pm fs.
  apply (run_stops_when_service_is_down json (fun j => j) Ok (fun s => s)
           (fun _ => []) (fun _ => []) (fun _ => Raise JSONDecodeError)
           (utf8 "20240131")
           (fun _ _ _ _ filename files => (Ok tt, <[filename := JNull]> files))
           pm _ (utf8 "Data engineer wanted") ImportError fs).
  intros prompt. reflexivity.
Defined.

(** A run whose stages all answer, on a canonical profile file.  With a
    title, the document and the title being strings that can be
    encoded, the note [Generated resume tailored for: title] is written
    under the title before the renderer is called, and the file is named
    [Resume_title.pdf]: the renderer gets the files with the note in
    them, so the note stays when rendering fails.  Without a title no
    note is written: the renderer gets the files as they were, under the
    name made of the candidate's name and the date. *)
Theorem run_records_note_before_rendering :
  forall (content : Type) (json_dump : json -> content)
         (json_load : content -> result json)
         (str_lower : pystr -> pystr) (py_repr json_dumps : json -> pystr)
         (json_loads : pystr -> result json) (today : pystr)
         (generate_pdf :
            ResumeGenerator -> pystr -> json -> pystr -> pystr ->
            M content unit)
         (memory : ProfileMemory) (self : ResumeGenerator)
         (job_offer : pystr) (fs : gmap pystr content)
         (summary skills : pystr) (experiences : json),
    let self1 := snd (extract_job_title str_lower self job_offer) in
    let run :=
      generate content json_dump json_load str_lower py_repr json_dumps
        json_loads today generate_pdf memory self job_offer in
    adapt_profile py_repr self1 job_offer = Ok summary ->
    select_experiences json_dumps json_loads self1 job_offer
    = Ok experiences ->
    select_skills json_dumps self1 job_offer = Ok skills ->
    (forall title c d notes,
        fst (extract_job_title str_lower self job_offer) = Ok (Some title) ->
        fs !! path memory = Some c ->
        json_load c = Ok (JObj d) ->
        has_any_key french_sentinels d = false ->
        has_any_key spanish_sentinels d = false ->
        ledger d = Some notes ->
        encodable (JObj d) = true ->
        str_encodable title = true ->
        let noted :=
          <[path memory :=
              json_dump
                (JObj (with_note d notes title (note_prefix ++ title)))]> fs in
        run fs
        = generate_pdf self1 summary experiences skills
            (utf8 "Resume_" ++ title ++ utf8 ".pdf") noted
        /\ (forall e,
              generate_pdf self1 summary experiences skills
                (utf8 "Resume_" ++ title ++ utf8 ".pdf") noted
              = (Raise e, noted) ->
              run fs = (Raise e, noted)))
    /\ (fst (extract_job_title str_lower self job_offer) = Ok None ->
        run fs
        = match generate_filename today self1 None with
          | Ok filename =>
              generate_pdf self1 summary experiences skills filename fs
          | Raise e => (Raise e, fs)
          end).
Proof.
  intros content json_dump json_load str_lower py_repr json_dumps
    json_loads today generate_pdf memory self job_offer fs
    summary skills experiences self1 run Ha He Hk.
  split.
  - intros title c d notes Ht H Hc Hf Hs Hl Hed Het noted.
    assert (E : run fs
                = generate_pdf self1 summary experiences skills
                    (utf8 "Resume_" ++ title ++ utf8 ".pdf") noted)
      by now apply (run_with_title content json_dump json_load str_lower
                      py_repr json_dumps json_loads today generate_pdf
                      memory self job_offer fs c d notes).
    split; [exact E |]. intros e Hr. now rewrite E.
  - intros Ht.
    now apply (run_without_title content json_dump json_load str_lower
                 py_repr json_dumps json_loads today generate_pdf memory).
Qed.

(** A run with a title, and a renderer that fails: the note is in the
    file all the same. *)
Lemma run_records_note_before_rendering_witness :
  let pm := {| path := utf8 "profile_structure.json" |} in
  let self := {| client := constant_client (utf8 "Data Engineer");
                 profile := sample_profile; locale := en |} in
  let self1 := snd (extract_job_title (fun s => s) self (utf8 "offer")) in
  let render : ResumeGenerator -> pystr -> json -> pystr -> pystr ->
               M json unit :=
    fun _ _ _ _ _ files => (Raise ImportError, files) in
  let d : gmap pystr json :=
    list_to_map
      [(utf8 "identity", dict [(utf8 "name", JStr (utf8 "Ana Dupont"))]);
       (utf8 "memory_notes",
          dict [(utf8 "Analyst", JStr (utf8 "old note"))])] in
  let notes : gmap pystr json :=
    {[utf8 "Analyst" := JStr (utf8 "old note")]} in
  let title := utf8 "Data Engineer" in
  let fs : gmap pystr json := {[path pm := JObj d]} in
  let noted : gmap pystr json :=
    <[path pm := JObj (with_note d notes title (note_prefix ++ title))]> fs in
  generate json (fun j => j) Ok (fun s => s) (fun _ => []) (fun _ => [])
    (fun _ => Ok (JArr [])) (utf8 "20240131") render pm self
    (utf8 "offer") fs
  = (Raise ImportError, noted).
Proof.
  intros pm self self1 render d notes title fs noted.
  apply (proj2 (proj1 (run_records_note_before_rendering json (fun j => j) Ok
                  (fun s => s) (fun _ => []) (fun _ => [])
                  (fun _ => Ok (JArr [])) (utf8 "20240131") render pm self
                  (utf8 "offer") fs title title (JArr [])
                  eq_refl eq_refl eq_refl)
                  title (JObj d) d notes
                  eq_refl eq_refl eq_refl eq_refl eq_refl eq_refl eq_refl
                  eq_refl) ImportError).
  reflexivity.
Defined.

End run_more.

(** ** main.py: the tailoring stages of the interactive application *)

Module main_more.
Import main_py.

Section Stages.

Variable json_dumps_indent : json -> pystr.
Variable json_loads : pystr -> result json.
Variable py_repr : json -> pystr.
Variable p : gmap pystr json.
Variable job_description : pystr.

Abbreviation extract_title :=
  (_extract_job_title).
Abbreviation adapt :=
  (_adapt_profile_for_job json_dumps_indent py_repr).
Abbreviation select_exps :=
  (_select_relevant_experiences json_dumps_indent json_loads).
Abbreviation select_skills :=
  (_select_relevant_skills json_dumps_indent json_loads).

Let app (c : option (pystr -> result pystr)) : AIResumeGenerator :=
  {| client := c; profile := JObj p |}.

Lemma try_except_raise {A} (body : result A) (handler : result A) :
  (exists e, body = Raise e) ->
  try_except body (fun _ => handler) = handler.
Proof. intros [e ->]. reflexivity. Qed.

Lemma bind_raise {A B} (r : result A) (f : A -> result B) :
  (exists e, r = Raise e) -> exists e, (r ≫= f) = Raise e.
Proof. intros [e ->]. now exists e. Qed.

Lemma title_unavailable (c : option (pystr -> result pystr)) :
  unavailable c ->
  extract_title (app c) job_description = Ok (utf8 "Position").
Proof.
  destruct c as [generate |]; [| reflexivity].
  intros H. unfold _extract_job_title. cbn [client app].
  apply try_except_raise, bind_raise, H.
Qed.

Lemma adapt_unavailable (c : option (pystr -> result pystr)) :
  unavailable c ->
  adapt (app c) job_description
  = Ok (default default_summary (p !! utf8 "long_profile")).
Proof.
  destruct c as [generate |]; intros H; unfold _adapt_profile_for_job;
    cbn [client profile app py_get mbind result_bind].
  - rewrite try_except_raise by apply bind_raise, H.
    now destruct (p !! utf8 "long_profile").
  - now destruct (p !! utf8 "long_profile").
Qed.

Lemma skills_unavailable (c : option (pystr -> result pystr)) :
  unavailable c ->
  select_skills (app c) job_description
  = Ok (default default_skills (p !! utf8 "skills")).
Proof.
  destruct c as [generate |]; intros H; unfold _select_relevant_skills;
    cbn [client profile app py_get mbind result_bind].
  - rewrite try_except_raise by apply bind_raise, H.
    now destruct (p !! utf8 "skills").
  - now destruct (p !! utf8 "skills").
Qed.

Lemma exps_unavailable (c : option (pystr -> result pystr)) :
  unavailable c ->
  select_exps (app c) job_description
  = py_slice_to 3 (default (JArr []) (p !! utf8 "experiences")).
Proof.
  destruct c as [generate |]; intros H;
    unfold _select_relevant_experiences;
    cbn [client profile app py_get mbind result_bind].
  - rewrite try_except_raise by apply bind_raise, H.
    now destruct (p !! utf8 "experiences").
  - now destruct (p !! utf8 "experiences").
Qed.

(** The text that is parsed is the part of the answer between the
    delimiters. *)
Lemma loads_between_text (open close : pychar) (response : pystr) :
  loads_between json_loads open close response
  = json_loads (between open close response).
Proof.
  unfold loads_between, between. cbv zeta. now destruct (negb _ && _).
Qed.

Lemma exps_unparseable (generate : pystr -> result pystr) :
  unparseable json_loads chr_lbracket chr_rbracket generate ->
  select_exps (app (Some generate)) job_description
  = py_slice_to 3 (default (JArr []) (p !! utf8 "experiences")).
Proof.
  intros H. unfold _select_relevant_experiences.
  cbn [client profile app py_get mbind result_bind].
  rewrite try_except_raise; [now destruct (p !! utf8 "experiences") |].
  match goal with
  | |- exists e, (generate ?prompt ≫= _) = Raise e =>
      destruct (H prompt) as (response & e & Hg & Hl)
  end.
  exists e. rewrite Hg. cbn [mbind result_bind].
  now rewrite loads_between_text.
Qed.

Lemma skills_unparseable (generate : pystr -> result pystr) :
  unparseable json_loads chr_lbrace chr_rbrace generate ->
  select_skills (app (Some generate)) job_description
  = Ok (default default_skills (p !! utf8 "skills")).
Proof.
  intros H. unfold _select_relevant_skills.
  cbn [client profile app py_get mbind result_bind].
  rewrite try_except_raise; [now destruct (p !! utf8 "skills") |].
  match goal with
  | |- exists e, (generate ?prompt ≫= _) = Raise e =>
      destruct (H prompt) as (response & e & Hg & Hl)
  end.
  exists e. rewrite Hg. cbn [mbind result_bind].
  now rewrite loads_between_text.
Qed.

Lemma try_except_ok {A} (body : result A) (a : A) :
  exists v, try_except body (fun _ => Ok a) = Ok v.
Proof. destruct body; simpl; eauto. Qed.

Lemma slice_returns (o : option json) (d : list json) :
  sliceable_or_absent o = true ->
  exists v, py_slice_to 3 (default (JArr d) o) = Ok v.
Proof.
  destruct o as [[] |]; try discriminate; intros _; simpl; eauto.
Qed.

Lemma stages_return (c : option (pystr -> result pystr)) :
  (exists v, extract_title (app c) job_description = Ok v)
  /\ (exists v, adapt (app c) job_description = Ok v)
  /\ (exists v, select_skills (app c) job_description = Ok v)
  /\ (sliceable_or_absent (p !! utf8 "experiences") = true ->
      exists v, select_exps (app c) job_description = Ok v).
Proof.
  repeat split.
  - unfold _extract_job_title. cbn [client app].
    destruct c; [apply try_except_ok | eauto].
  - unfold _adapt_profile_for_job.
    cbn [client profile app py_get mbind result_bind].
    destruct c; [apply try_except_ok | eauto].
  - unfold _select_relevant_skills.
    cbn [client profile app py_get mbind result_bind].
    destruct c; [apply try_except_ok | eauto].
  - intros Hs. unfold _select_relevant_experiences.
    cbn [client profile app py_get mbind result_bind].
    destruct (slice_returns _ [] Hs) as [v Hv].
    change (match p !! utf8 "experiences" with
            | Some v => v
            | None => JArr []
            end) with (default (JArr []) (p !! utf8 "experiences")).
    destruct c as [generate |]; [| eauto].
    rewrite Hv. apply try_except_ok.
Qed.

End Stages.

(** In the interactive application the tailoring stages fall back when
    the client is not set up or raises on every call: the title is
    [Position], the summary is the profile's long profile (a stock
    sentence when there is none), the skills are the profile's skills
    (empty [technical] and [soft] lists when there are none), and the
    experiences are the first 3 of the profile (none when there are
    none).  Each of the two selections falls back in the same way when
    the parser rejects the part of the client's answer that it is given:
    from the first opening bracket (brace, for the skills) to the last
    closing one, or the whole answer. *)
Theorem main_stages_fall_back :
  forall (json_dumps_indent : json -> pystr)
         (json_loads : pystr -> result json) (py_repr : json -> pystr)
         (p : gmap pystr json) (job_description : pystr)
         (c : option (pystr -> result pystr)),
    let app c := {| client := c; profile := JObj p |} in
    let first3 :=
      py_slice_to 3 (default (JArr []) (p !! utf8 "experiences")) in
    (unavailable c ->
     _extract_job_title (app c) job_description = Ok (utf8 "Position")
     /\ _adapt_profile_for_job json_dumps_indent py_repr (app c)
          job_description
        = Ok (default default_summary (p !! utf8 "long_profile"))
     /\ _select_relevant_experiences json_dumps_indent json_loads (app c)
          job_description
        = first3
     /\ _select_relevant_skills json_dumps_indent json_loads (app c)
          job_description
        = Ok (default default_skills (p !! utf8 "skills")))
    /\ (forall generate,
          (forall prompt, exists response e,
              generate prompt = Ok response
              /\ json_loads (between chr_lbracket chr_rbracket response)
                 = Raise e) ->
          _select_relevant_experiences json_dumps_indent json_loads
            (app (Some generate)) job_description
          = first3)
    /\ (forall generate,
          (forall prompt, exists response e,
              generate prompt = Ok response
              /\ json_loads (between chr_lbrace chr_rbrace response)
                 = Raise e) ->
          _select_relevant_skills json_dumps_indent json_loads
            (app (Some generate)) job_description
          = Ok (default default_skills (p !! utf8 "skills")))
    /\ (forall l, p !! utf8 "experiences" = Some (JArr l) ->
                  first3 = Ok (JArr (firstn 3 l))).
Proof.
  intros json_dumps_indent json_loads py_repr p job_description c app first3.
  split; [| split; [| split]].
  - intros H. repeat split.
    + now apply title_unavailable.
    + now apply adapt_unavailable.
    + now apply exps_unavailable.
    + now apply skills_unavailable.
  - intros generate H. now apply exps_unparseable.
  - intros generate H. now apply skills_unparseable.
  - intros l Hl. unfold first3. now rewrite Hl.
Qed.

(** A client that is down, and a client whose answer holds no JSON with
    a parser that reads the empty array only: the first three
    experiences either way. *)
Lemma main_stages_fall_back_witness :
  let p : gmap pystr json :=
    list_to_map
      [(utf8 "long_profile", JStr (utf8 "Ten years of data engineering."));
       (utf8 "experiences",
          JArr [JNum 1; JNum 2; JNum 3; JNum 4])] in
  let loads : pystr -> result json :=
    fun s => if bool_decide (s = utf8 "[]") then Ok (JArr [])
             else Raise JSONDecodeError in
  let down := {| client := Some (generate_resume.raising_client ImportError);
                 profile := JObj p |} in
  let chatty :=
    {| client := Some (generate_resume.constant_client
                         (utf8 "Sorry [I cannot] help with that."));
       profile := JObj p |} in
  (_extract_job_title down (utf8 "offer") = Ok (utf8 "Position")
   /\ _adapt_profile_for_job (fun _ => []) (fun _ => []) down (utf8 "offer")
      = Ok (default default_summary (p !! utf8 "long_profile"))
   /\ _select_relevant_experiences (fun _ => []) loads down (utf8 "offer")
      = py_slice_to 3 (default (JArr []) (p !! utf8 "experiences"))
   /\ _select_relevant_skills (fun _ => []) loads down (utf8 "offer")
      = Ok (default default_skills (p !! utf8 "skills")))
  /\ _select_relevant_experiences (fun _ => []) loads chatty (utf8 "offer")
     = py_slice_to 3 (default (JArr []) (p !! utf8 "experiences")).
Proof.
  intros p loads down chatty. split.
  - apply (proj1 (main_stages_fall_back (fun _ => []) loads
                    (fun _ => []) p (utf8 "offer")
                    (Some (generate_resume.raising_client ImportError)))).
    intros prompt. now exists ImportError.
  - apply (proj1 (proj2 (main_stages_fall_back (fun _ => []) loads
                           (fun _ => []) p (utf8 "offer") None))).
    intros prompt.
    exists (utf8 "Sorry [I cannot] help with that."), JSONDecodeError.
    split; reflexivity.
Defined.

(** In the interactive application no exception of the client or of the
    parser escapes a tailoring stage: on a profile that is a mapping,
    whatever the client is or does and whatever the parser does, the
    title, the summary and the skills are returned; so are the
    experiences when the profile's experiences are a list (or a string,
    or absent). *)
Theorem main_stages_never_raise :
  forall (json_dumps_indent : json -> pystr)
         (json_loads : pystr -> result json) (py_repr : json -> pystr)
         (p : gmap pystr json) (job_description : pystr)
         (c : option (pystr -> result pystr)),
    let app := {| client := c; profile := JObj p |} in
    (exists v, _extract_job_title app job_description = Ok v)
    /\ (exists v, _adapt_profile_for_job json_dumps_indent py_repr app
                    job_description = Ok v)
    /\ (exists v, _select_relevant_skills json_dumps_indent json_loads app
                    job_description = Ok v)
    /\ (sliceable_or_absent (p !! utf8 "experiences") = true ->
        exists v, _select_relevant_experiences json_dumps_indent json_loads
                    app job_description = Ok v).
Proof.
  intros json_dumps_indent json_loads py_repr p job_description c app.
  apply stages_return.
Qed.

Lemma main_stages_never_raise_witness :
  let p : gmap pystr json :=
    list_to_map [(utf8 "experiences", JArr [JNum 1])] in
  exists v,
    _select_relevant_experiences (fun _ => []) (fun _ => Raise TypeError)
      {| client := Some (generate_resume.constant_client (utf8 "[]"));
         profile := JObj p |} (utf8 "offer")
    = Ok v.
Proof.
  intros p.
  apply (main_stages_never_raise (fun _ => []) (fun _ => Raise TypeError)
           (fun _ => []) p (utf8 "offer")
           (Some (generate_resume.constant_client (utf8 "[]")))).
  reflexivity.
Defined.

(** A dictionary of experiences makes the fallback itself raise. *)
Example main_experiences_fallback_raises :
  _select_relevant_experiences (fun _ => []) (fun _ => Raise JSONDecodeError)
    {| client := None;
       profile := dict [(utf8 "experiences", dict [])] |} (utf8 "offer")
  = Raise TypeError.
Proof. reflexivity. Qed.

End main_more.

(** ** prepare_profile.py *)

Module prepare_more.
Import profile_memory prepare_profile.
Import migration_facts store_facts string_facts pdf_text_extractor_facts.

Section Prepare.

Variable content : Type.
Variable json_dump : json -> content.
Variable json_load : content -> result json.
Variable json_loads : pystr -> result json.
Variables page image : Type.
Variable import_PyPDF2 : result unit.
Variable PdfReader_pages : pystr -> result (list page).
Variable page_extract_text : page -> result (option pystr).
Variable import_pdfminer : result unit.
Variable pdfminer_extract_text : pystr -> result (option pystr).
Variable import_pdf2image_pytesseract : result unit.
Variable convert_from_path : pystr -> result (list image).
Variable image_to_string : image -> pystr -> result pystr.
Variable self : ProfilePreparer.

Abbreviation extract_text :=
  (extract_pdf_text page image import_PyPDF2 PdfReader_pages
     page_extract_text import_pdfminer pdfminer_extract_text
     import_pdf2image_pytesseract convert_from_path image_to_string self).
Abbreviation structure := (structure_profile json_loads self).
Abbreviation run :=
  (prepare content json_dump json_loads page image import_PyPDF2
     PdfReader_pages page_extract_text import_pdfminer
     pdfminer_extract_text import_pdf2image_pytesseract convert_from_path
     image_to_string self).

Lemma extract_text_returns (pdf_path : pystr) (ocr_lang : option pystr) :
  exists text, extract_text pdf_path ocr_lang = Ok text.
Proof.
  unfold extract_pdf_text, pdf_text_extractor.extract_pdf_text_any.
  destruct (_try_pypdf2_returns page import_PyPDF2 PdfReader_pages
              page_extract_text pdf_path) as [t1 ->].
  cbn [mbind result_bind]. destruct (truthy t1); [eauto |].
  destruct (_try_pdfminer_returns import_pdfminer pdfminer_extract_text
              pdf_path) as [t2 ->].
  cbn [mbind result_bind]. destruct (truthy t2); [eauto |].
  destruct (_try_ocr_returns image import_pdf2image_pytesseract
              convert_from_path image_to_string pdf_path ocr_lang)
    as [t3 ->].
  eauto.
Qed.

Lemma prepare_unfold (pdf_path : pystr) (ocr_lang : option pystr)
    (text : pystr) (fs : gmap pystr content) :
  extract_text pdf_path ocr_lang = Ok text ->
  run pdf_path ocr_lang fs
  = match structure text with
    | Raise e => (Raise e, fs)
    | Ok structured =>
        let written := <[path (memory self) := json_dump structured]> fs in
        if encodable structured
        then match printed_summary structured with
             | Ok _ => (Ok structured, written)
             | Raise e => (Raise e, written)
             end
        else (Raise UnicodeEncodeError, written)
    end.
Proof.
  intros H. unfold prepare, lift, mbind, M_bind, mret, M_ret, save,
              open_write, dump_outcome.
  rewrite H. destruct (structure text) as [structured | e]; [| reflexivity].
  cbv zeta. destruct (encodable structured); [| reflexivity].
  now destruct (printed_summary structured).
Qed.

Lemma structure_unfold (raw_text response : pystr) :
  client self (structure_prompt raw_text) = Ok response ->
  structure raw_text
  = (let start := find main_py.chr_lbrace response in
     let stop := rfind main_py.chr_rbrace response + 1 in
     if negb (start =? -1) && (stop >? start)
     then json_loads (slice response start stop)
     else json_loads response).
Proof.
  intros H. unfold structure_profile, _generate. now rewrite H.
Qed.

Lemma structure_braced (raw_text pre mid post : pystr) :
  client self (structure_prompt raw_text)
  = Ok (pre ++ main_py.chr_lbrace :: mid ++ main_py.chr_rbrace :: post) ->
  ~ In main_py.chr_lbrace pre ->
  ~ In main_py.chr_rbrace post ->
  structure raw_text
  = json_loads (main_py.chr_lbrace :: mid ++ [main_py.chr_rbrace]).
Proof.
  intros H Ho Hc. rewrite (structure_unfold raw_text _ H). cbv zeta.
  destruct (slice_first_last main_py.chr_lbrace main_py.chr_rbrace
              pre mid post Ho Hc) as (Hf & Hr & Hs).
  rewrite Hs, Hf, Hr.
  replace (negb (Z.of_nat (length pre) =? -1)
           && (Z.of_nat (length pre + length mid + 2)
               >? Z.of_nat (length pre))) with true; [reflexivity |].
  symmetry. apply andb_true_iff. split.
  - apply negb_true_iff, Z.eqb_neq. lia.
  - apply Z.gtb_lt. lia.
Qed.

Lemma structure_no_brace (raw_text response : pystr) :
  client self (structure_prompt raw_text) = Ok response ->
  ~ In main_py.chr_lbrace response ->
  structure raw_text = json_loads response.
Proof.
  intros H Ho. rewrite (structure_unfold raw_text _ H). cbv zeta.
  unfold find. now rewrite find_from_absent.
Qed.

Lemma structure_service_down (raw_text : pystr) (e : exn) :
  client self (structure_prompt raw_text) = Raise e ->
  structure raw_text = Raise e.
Proof. intros H. unfold structure_profile, _generate. now rewrite H. Qed.

End Prepare.

(** [structure_profile] reads the answer from its first opening brace to
    its last closing brace, both included, and reads it whole when it
    has no opening brace.  It has no fallback: what the parser raises on
    that text, and what the service raises, is raised. *)
Theorem structure_profile_reads_braced_part :
  forall (json_loads : pystr -> result json) (self : ProfilePreparer)
         (raw_text : pystr),
    (forall pre mid post,
        client self (structure_prompt raw_text)
        = Ok (pre ++ main_py.chr_lbrace :: mid
                  ++ main_py.chr_rbrace :: post) ->
        ~ In main_py.chr_lbrace pre ->
        ~ In main_py.chr_rbrace post ->
        structure_profile json_loads self raw_text
        = json_loads (main_py.chr_lbrace :: mid ++ [main_py.chr_rbrace]))
    /\ (forall response,
          client self (structure_prompt raw_text) = Ok response ->
          ~ In main_py.chr_lbrace response ->
          structure_profile json_loads self raw_text = json_loads response)
    /\ (forall e,
          client self (structure_prompt raw_text) = Raise e ->
          structure_profile json_loads self raw_text = Raise e).
Proof.
  intros json_loads self raw_text. split; [| split].
  - apply structure_braced.
  - apply structure_no_brace.
  - apply structure_service_down.
Qed.

Lemma structure_profile_reads_braced_part_witness :
  let loads : pystr -> result json := fun _ => Raise JSONDecodeError in
  let self := {| client := generate_resume.constant_client
                             (utf8 "I cannot read this resume.");
                 memory := {| path := utf8 "profile_structure.json" |} |} in
  structure_profile loads self (utf8 "Ana Dupont")
  = loads (utf8 "I cannot read this resume.").
Proof.
  intros loads self.
  apply (proj1 (proj2 (structure_profile_reads_braced_part loads self
                         (utf8 "Ana Dupont")))).
  - reflexivity.
  - vm_compute. intuition discriminate.
Defined.

(** [prepare] writes what the model's answer parsed to before it looks
    at it: once [structure_profile] has returned a document, the profile
    file has been written with it.  When the document can be encoded the
    file holds its text, whether [prepare] then returns the document or
    raises because it lacks the name, the experiences or the technical
    skills that are printed; when it has a string that cannot be
    encoded, [prepare] raises [UnicodeEncodeError] and the file holds
    what was written before the failure.  When [structure_profile]
    raises (service down, answer that does not parse), nothing is
    written.  The text extraction never stops [prepare]: an empty text
    is sent to the model like any other. *)
Theorem prepare_saves_before_checking :
  forall (content : Type) (json_dump : json -> content)
         (json_loads : pystr -> result json) (page image : Type)
         (import_PyPDF2 : result unit)
         (PdfReader_pages : pystr -> result (list page))
         (page_extract_text : page -> result (option pystr))
         (import_pdfminer : result unit)
         (pdfminer_extract_text : pystr -> result (option pystr))
         (import_pdf2image_pytesseract : result unit)
         (convert_from_path : pystr -> result (list image))
         (image_to_string : image -> pystr -> result pystr)
         (self : ProfilePreparer) (pdf_path : pystr)
         (ocr_lang : option pystr) (fs : gmap pystr content),
    let run :=
      prepare content json_dump json_loads page image import_PyPDF2
        PdfReader_pages page_extract_text import_pdfminer
        pdfminer_extract_text import_pdf2image_pytesseract
        convert_from_path image_to_string self pdf_path ocr_lang fs in
    exists text,
      extract_pdf_text page image import_PyPDF2 PdfReader_pages
        page_extract_text import_pdfminer pdfminer_extract_text
        import_pdf2image_pytesseract convert_from_path image_to_string
        self pdf_path ocr_lang = Ok text
      /\ (forall structured,
            structure_profile json_loads self text = Ok structured ->
            snd run = <[path (memory self) := json_dump structured]> fs
            /\ (encodable structured = false ->
                fst run = Raise UnicodeEncodeError)
            /\ (encodable structured = true ->
                (printed_summary structured = Ok tt ->
                 fst run = Ok structured)
                /\ (forall e, printed_summary structured = Raise e ->
                              fst run = Raise e)
                /\ (forall m, structured = JObj m ->
                              m !! utf8 "identity" = None ->
                              fst run = Raise (KeyError (utf8 "identity")))))
      /\ (forall e,
            structure_profile json_loads self text = Raise e ->
            run = (Raise e, fs)).
Proof.
  intros content json_dump json_loads page image import_PyPDF2
    PdfReader_pages page_extract_text import_pdfminer pdfminer_extract_text
    import_pdf2image_pytesseract convert_from_path image_to_string self
    pdf_path ocr_lang fs run.
  destruct (extract_text_returns page image import_PyPDF2 PdfReader_pages
              page_extract_text import_pdfminer pdfminer_extract_text
              import_pdf2image_pytesseract convert_from_path image_to_string
              self pdf_path ocr_lang) as [text Ht].
  exists text. split; [exact Ht |].
  assert (E := prepare_unfold content json_dump json_loads page image
                 import_PyPDF2 PdfReader_pages page_extract_text
                 import_pdfminer pdfminer_extract_text
                 import_pdf2image_pytesseract convert_from_path
                 image_to_string self pdf_path ocr_lang text fs Ht).
  fold run in E. split.
  - intros structured Hs. rewrite Hs in E. cbv zeta in E.
    split; [| split].
    + rewrite E. destruct (encodable structured); [| reflexivity].
      now destruct (printed_summary structured).
    + intros He. now rewrite E, He.
    + intros He. rewrite He in E. split; [| split].
      * intros Hp. now rewrite E, Hp.
      * intros e Hp. now rewrite E, Hp.
      * intros m -> Hm. rewrite E. unfold printed_summary.
        cbn [py_getitem]. now rewrite Hm.
  - intros e Hs. now rewrite Hs in E.
Qed.

(** An answer that parses to a document with nothing in it: the file is
    written, then [prepare] raises on the missing identity. *)
Lemma prepare_saves_before_checking_witness :
  let pm := {| path := utf8 "profile_structure.json" |} in
  let self := {| client := generate_resume.constant_client (utf8 "{}");
                 memory := pm |} in
  exists text,
    extract_pdf_text unit unit (Raise ImportError) (fun _ => Ok [])
      (fun _ => Ok None) (Raise ImportError) (fun _ => Ok None)
      (Raise ImportError) (fun _ => Ok []) (fun _ _ => Ok [])
      self (utf8 "cv.pdf") None = Ok text
    /\ prepare json (fun j => j) (fun _ => Ok (dict [])) unit unit
         (Raise ImportError) (fun _ => Ok []) (fun _ => Ok None)
         (Raise ImportError) (fun _ => Ok None)
         (Raise ImportError) (fun _ => Ok []) (fun _ _ => Ok [])
         self (utf8 "cv.pdf") None ∅
       = (Raise (KeyError (utf8 "identity")), {[path pm := dict []]}).
Proof.
  intros pm self.
  destruct (prepare_saves_before_checking json (fun j => j)
              (fun _ => Ok (dict [])) unit unit
              (Raise ImportError) (fun _ => Ok []) (fun _ => Ok None)
              (Raise ImportError) (fun _ => Ok None)
              (Raise ImportError) (fun _ => Ok []) (fun _ _ => Ok [])
              self (utf8 "cv.pdf") None ∅) as (text & Ht & Hs & _).
  exists text. split; [exact Ht |].
  destruct (Hs (dict []) eq_refl) as (Hw & _ & He).
  destruct (He eq_refl) as (_ & _ & Hk).
  specialize (Hk ∅ eq_refl eq_refl).
  apply injective_projections; [exact Hk | exact Hw].
Defined.

(** What [prepare] has stored, [load] returns: for a document without
    sentinel keys that has what [prepare] prints and is JSON-serializable
    (its strings can be encoded and its text reads back as the
    document), preparing and then loading returns the document [prepare]
    returned, and the file holds it. *)
Theorem prepare_then_load :
  forall (content : Type) (json_dump : json -> content)
         (json_load : content -> result json)
         (json_loads : pystr -> result json) (page image : Type)
         (import_PyPDF2 : result unit)
         (PdfReader_pages : pystr -> result (list page))
         (page_extract_text : page -> result (option pystr))
         (import_pdfminer : result unit)
         (pdfminer_extract_text : pystr -> result (option pystr))
         (import_pdf2image_pytesseract : result unit)
         (convert_from_path : pystr -> result (list image))
         (image_to_string : image -> pystr -> result pystr)
         (self : ProfilePreparer) (pdf_path : pystr)
         (ocr_lang : option pystr) (fs : gmap pystr content)
         (text : pystr) (d : gmap pystr json),
    encodable (JObj d) = true ->
    json_load (json_dump (JObj d)) = Ok (JObj d) ->
    extract_pdf_text page image import_PyPDF2 PdfReader_pages
      page_extract_text import_pdfminer pdfminer_extract_text
      import_pdf2image_pytesseract convert_from_path image_to_string
      self pdf_path ocr_lang = Ok text ->
    structure_profile json_loads self text = Ok (JObj d) ->
    printed_summary (JObj d) = Ok tt ->
    has_any_key french_sentinels d = false ->
    has_any_key spanish_sentinels d = false ->
    (prepare content json_dump json_loads page image import_PyPDF2
       PdfReader_pages page_extract_text import_pdfminer
       pdfminer_extract_text import_pdf2image_pytesseract
       convert_from_path image_to_string self pdf_path ocr_lang
       ≫= λ _, load content json_dump json_load (memory self)) fs
    = (Ok (JObj d), <[path (memory self) := json_dump (JObj d)]> fs).
Proof.
  intros content json_dump json_load json_loads page image import_PyPDF2
    PdfReader_pages page_extract_text import_pdfminer pdfminer_extract_text
    import_pdf2image_pytesseract convert_from_path image_to_string self
    pdf_path ocr_lang fs text d He Hrt Ht Hs Hp Hf Hsp.
  unfold mbind at 1. unfold M_bind at 1.
  rewrite (prepare_unfold content json_dump json_loads page image
             import_PyPDF2 PdfReader_pages page_extract_text
             import_pdfminer pdfminer_extract_text
             import_pdf2image_pytesseract convert_from_path
             image_to_string self pdf_path ocr_lang text fs Ht).
  rewrite Hs. cbv zeta. rewrite He, Hp.
  apply (load_no_sentinel content json_dump json_load (memory self) _
           (json_dump (JObj d)));
    [apply lookup_insert_eq | exact Hrt | exact Hf | exact Hsp].
Qed.

Lemma prepare_then_load_witness :
  let pm := {| path := utf8 "profile_structure.json" |} in
  let self := {| client := generate_resume.constant_client (utf8 "{}");
                 memory := pm |} in
  let d : gmap pystr json :=
    list_to_map
      [(utf8 "identity", dict [(utf8 "name", JStr (utf8 "Ana Dupont"))]);
       (utf8 "experiences", JArr []);
       (utf8 "skills", dict [(utf8 "technical", JArr [])])] in
  (prepare json (fun j => j) (fun _ => Ok (JObj d)) unit unit
     (Raise ImportError) (fun _ => Ok []) (fun _ => Ok None)
     (Raise ImportError) (fun _ => Ok None)
     (Raise ImportError) (fun _ => Ok []) (fun _ _ => Ok [])
     self (utf8 "cv.pdf") None
     ≫= λ _, load json (fun j => j) Ok (memory self)) ∅
  = (Ok (JObj d), <[path (memory self) := JObj d]> ∅).
Proof.
  intros pm self d.
  apply (prepare_then_load json (fun j => j) Ok (fun _ => Ok (JObj d))
           unit unit
           (Raise ImportError) (fun _ => Ok []) (fun _ => Ok None)
           (Raise ImportError) (fun _ => Ok None)
           (Raise ImportError) (fun _ => Ok []) (fun _ _ => Ok [])
           self (utf8 "cv.pdf") None ∅ [] d);
    reflexivity.
Defined.

End prepare_more.

(** ** llm_client.py: choosing the client *)

Module llm_more.
Import llm_client.

Lemma lstrip_char_spec (ch : pychar) (l : pystr) :
  (exists n, l = repeat ch n ++ lstrip_char ch l)
  /\ hd_error (lstrip_char ch l) <> Some ch.
Proof.
  induction l as [|c l [[n IH] IHh]]; simpl.
  - split; [now exists 0%nat | discriminate].
  - destruct (c =? ch)%N eqn:E.
    + apply N.eqb_eq in E. subst c. split; [| exact IHh].
      exists (S n). simpl. now f_equal.
    + split; [now exists 0%nat |]. simpl. intros H. injection H as ->.
      now rewrite N.eqb_refl in E.
Qed.

Lemma rev_repeat_same {A} (x : A) (n : nat) : rev (repeat x n) = repeat x n.
Proof.
  induction n as [|n IH]; [reflexivity |].
  simpl. rewrite IH. clear IH.
  induction n as [|n IH]; [reflexivity |]. simpl. now rewrite IH.
Qed.

(** [rstrip] removes the trailing occurrences of the character, all of
    them and nothing else. *)
Lemma rstrip_char_spec (ch : pychar) (s : pystr) :
  (exists n, s = rstrip_char ch s ++ repeat ch n)
  /\ hd_error (rev (rstrip_char ch s)) <> Some ch.
Proof.
  unfold rstrip_char. rewrite rev_involutive.
  destruct (lstrip_char_spec ch (rev s)) as [[n Hn] Hh].
  split; [| exact Hh]. exists n.
  rewrite <- (rev_involutive s) at 1. rewrite Hn at 1.
  now rewrite rev_app_distr, rev_repeat_same.
Qed.

Section Config.

Variable str_lower : pystr -> pystr.
Variable default_options : gmap pystr json.
Variable environ_key : option pystr.

Abbreviation configure := (from_config str_lower default_options environ_key).

Lemma configure_ollama (backend : option pystr) (model ollama_url : pystr)
    (anthropic_key : option pystr)
    (extra_options : option (gmap pystr json)) :
  is_in (str_lower (strip (or_empty backend))) ollama_names = true ->
  exists base_url options n,
    configure backend model ollama_url anthropic_key extra_options
    = Configured (OllamaClient model base_url options)
    /\ ollama_url = base_url ++ repeat chr_slash n
    /\ hd_error (rev base_url) <> Some chr_slash
    /\ (default_options <> ∅ -> options <> ∅)
    /\ (forall o, extra_options = Some o -> o <> ∅ -> options = o).
Proof.
  intros H. unfold from_config. cbv zeta. rewrite H. unfold new_OllamaClient.
  destruct (rstrip_char_spec chr_slash ollama_url) as [[n Hn] Hh].
  eexists _, _, n. split; [reflexivity |].
  split; [exact Hn |]. split; [exact Hh |]. split.
  - intros Hd. destruct extra_options as [o |].
    + destruct (bool_decide (o = ∅)) eqn:E.
      * now rewrite (bool_decide_eq_true_2 (∅ = ∅) eq_refl).
      * rewrite E. now apply bool_decide_eq_false in E.
    + now rewrite (bool_decide_eq_true_2 (∅ = ∅) eq_refl).
  - intros o -> Ho.
    now rewrite !(bool_decide_eq_false_2 (o = ∅) Ho).
Qed.

Lemma configure_claude (backend : option pystr) (model ollama_url : pystr)
    (anthropic_key : option pystr)
    (extra_options : option (gmap pystr json)) :
  is_in (str_lower (strip (or_empty backend))) ollama_names = false ->
  is_in (str_lower (strip (or_empty backend))) claude_names = true ->
  (forall key, anthropic_key = Some key -> truthy key = true ->
     exists m api_url,
       configure backend model ollama_url anthropic_key extra_options
       = Configured (ClaudeClient m key api_url)
       /\ truthy m = true
       /\ (truthy model = true -> m = model))
  /\ (truthy_opt anthropic_key = false ->
      forall key, environ_key = Some key -> truthy key = true ->
        exists m api_url,
          configure backend model ollama_url anthropic_key extra_options
          = Configured (ClaudeClient m key api_url)
          /\ truthy m = true)
  /\ (truthy_opt anthropic_key = false ->
      truthy_opt environ_key = false ->
      configure backend model ollama_url anthropic_key extra_options
      = ValueError missing_key_message).
Proof.
  intros Ho Hc. unfold from_config. cbv zeta. rewrite Ho, Hc.
  unfold new_ClaudeClient, or_else.
  assert (Hm : truthy (if truthy model then model else default_claude_model)
               = true) by now destruct (truthy model) eqn:E.
  split; [| split].
  - intros key -> Hk. cbn [truthy_opt]. rewrite !Hk.
    eexists _, _. split; [reflexivity |]. split; [exact Hm |].
    now intros ->.
  - intros Ha key -> Hk. rewrite Ha, !Hk.
    eexists _, _. split; [reflexivity | exact Hm].
  - intros Ha He. rewrite Ha.
    destruct environ_key as [key |]; [| reflexivity].
    cbn [truthy_opt] in He. now rewrite He.
Qed.

Lemma configure_unsupported (backend : option pystr)
    (model ollama_url : pystr) (anthropic_key : option pystr)
    (extra_options : option (gmap pystr json)) :
  is_in (str_lower (strip (or_empty backend))) ollama_names = false ->
  is_in (str_lower (strip (or_empty backend))) claude_names = false ->
  configure backend model ollama_url anthropic_key extra_options
  = ValueError (utf8 "Unsupported backend: "
                ++ match backend with
                   | Some b => b
                   | None => utf8 "None"
                   end).
Proof. intros Ho Hc. unfold from_config. cbv zeta. now rewrite Ho, Hc. Qed.

End Config.

(** What [from_config] builds.  For an Ollama backend: a client whose
    base URL is the given URL without its trailing slashes, so that it
    never ends with a slash, and whose options are the given ones, or
    the default ones when none or empty ones were given.  For a Claude
    backend: a client with a non-empty key, the one passed if there is
    one, else the one of the environment, and a non-empty model; with no
    key in either place, [ValueError].  For any other backend,
    [ValueError] with the backend as it was given. *)
Theorem from_config_outcomes :
  forall (str_lower : pystr -> pystr) (default_options : gmap pystr json)
         (environ_key : option pystr) (backend : option pystr)
         (model ollama_url : pystr) (anthropic_key : option pystr)
         (extra_options : option (gmap pystr json)),
    let name := str_lower (strip (or_empty backend)) in
    let outcome :=
      from_config str_lower default_options environ_key backend model
        ollama_url anthropic_key extra_options in
    (is_in name ollama_names = true ->
     exists base_url options n,
       outcome = Configured (OllamaClient model base_url options)
       /\ ollama_url = base_url ++ repeat chr_slash n
       /\ hd_error (rev base_url) <> Some chr_slash
       /\ (default_options <> ∅ -> options <> ∅)
       /\ (forall o, extra_options = Some o -> o <> ∅ -> options = o))
    /\ (is_in name ollama_names = false ->
        is_in name claude_names = true ->
        (forall key, anthropic_key = Some key -> truthy key = true ->
           exists m api_url,
             outcome = Configured (ClaudeClient m key api_url)
             /\ truthy m = true
             /\ (truthy model = true -> m = model))
        /\ (truthy_opt anthropic_key = false ->
            forall key, environ_key = Some key -> truthy key = true ->
              exists m api_url,
                outcome = Configured (ClaudeClient m key api_url)
                /\ truthy m = true)
        /\ (truthy_opt anthropic_key = false ->
            truthy_opt environ_key = false ->
            outcome = ValueError missing_key_message))
    /\ (is_in name ollama_names = false ->
        is_in name claude_names = false ->
        outcome
        = ValueError (utf8 "Unsupported backend: "
                      ++ match backend with
                         | Some b => b
                         | None => utf8 "None"
                         end)).
Proof.
  intros str_lower default_options environ_key backend model ollama_url
    anthropic_key extra_options name outcome.
  split; [| split].
  - apply configure_ollama.
  - apply configure_claude.
  - apply configure_unsupported.
Qed.

Lemma from_config_outcomes_witness :
  from_config (fun s => s) {[utf8 "temperature" := JNum 0]} None
    (Some (utf8 " claude ")) [] (utf8 "http://localhost:11434/")
    (Some []) None
  = ValueError missing_key_message.
Proof.
  apply (proj2 (proj2 (proj1 (proj2
           (from_config_outcomes (fun s => s)
              {[utf8 "temperature" := JNum 0]} None
              (Some (utf8 " claude ")) [] (utf8 "http://localhost:11434/")
              (Some []) None))
           eq_refl eq_refl)));
    reflexivity.
Defined.

Example from_config_ollama_url :
  from_config (fun s => s) {[utf8 "temperature" := JNum 0]} None
    (Some (utf8 "ollama")) (utf8 "mistral") (utf8 "http://localhost:11434//")
    None None
  = Configured (OllamaClient (utf8 "mistral") (utf8 "http://localhost:11434")
                  {[utf8 "temperature" := JNum 0]}).
Proof. vm_compute. reflexivity. Qed.

End llm_more.

(** ** main.py: structuring a profile with the model *)

Module main_profile_more.
Import main_py main_profile.

Section Structure.

Variable json_loads : pystr -> result json.
Variable basic : pystr -> result json.
Variable self : AIResumeGenerator.
Variable text : pystr.

Abbreviation structure :=
  (_structure_profile_with_ai json_loads basic self text).

(** Structuring a profile with the model gives either an answer
    of the model that was read as JSON and names someone, or exactly what
    the extractor by patterns gives for the text: no failure of the
    model, of the parser or of the check reaches the caller. *)
Theorem structuring_validates_or_falls_back :
  structure = basic text
  \/ exists d, structure = Ok d /\ names_someone d.
Proof.
  unfold _structure_profile_with_ai. cbv zeta.
  assert (Hb : forall e : exn,
             try_except (Raise e) (fun _ => basic text) = basic text)
    by reflexivity.
  assert (Ht : try_except (basic text) (fun _ => basic text) = basic text)
    by now destruct (basic text).
  destruct (client_generate self _) as [response | e];
    cbn [mbind result_bind]; [| now left].
  destruct (negb _ && _); [| now left].
  destruct (json_loads _) as [d | e];
    cbn [mbind result_bind]; [| now left].
  destruct (py_in (utf8 "identity") d) as [[] | e] eqn:Ei;
    cbn [mbind result_bind]; [| now left | now left].
  destruct (py_getitem d (utf8 "identity")) as [identity | e] eqn:Eg;
    cbn [mbind result_bind]; [| now left].
  destruct (py_in (utf8 "name") identity) as [[] | e] eqn:En;
    cbn [mbind result_bind]; [| now left | now left].
  right. exists d. split; [reflexivity |]. split; [exact Ei |].
  now exists identity.
Qed.

(** Without a client, with a client that fails, or with a parser
    that rejects what it is given, structuring a profile gives what the
    extractor by patterns gives for the whole text. *)
Theorem structuring_falls_back_on_failure :
  (client self = None
   \/ (exists generate e, client self = Some generate
                          /\ forall prompt, generate prompt = Raise e)
   \/ (forall s, exists e, json_loads s = Raise e)) ->
  structure = basic text.
Proof.
  unfold _structure_profile_with_ai, client_generate. cbv zeta.
  assert (Ht : try_except (basic text) (fun _ => basic text) = basic text)
    by now destruct (basic text).
  intros [-> | [(generate & e & -> & H) | H]]; [reflexivity | |].
  - now rewrite H.
  - destruct (match client self with Some _ => _ | None => _ end)
      as [response | e]; cbn [mbind result_bind]; [| reflexivity].
    destruct (negb _ && _); [| exact Ht].
    now destruct (H (slice response (find chr_lbrace response)
                       (rfind chr_rbrace response + 1))) as [e ->].
Qed.

End Structure.

Lemma structuring_falls_back_on_failure_witness :
  let self := {| client := None; profile := JNull |} in
  let basic := fun text : pystr => Ok (dict [(utf8 "raw", JStr text)]) in
  _structure_profile_with_ai (fun s : pystr => Ok (JStr s)) basic self (utf8 "Ana")
  = basic (utf8 "Ana").
Proof.
  intros self basic.
  apply (structuring_falls_back_on_failure (fun s : pystr => Ok (JStr s)) basic self (utf8 "Ana")).
  left. reflexivity.
Defined.

End main_profile_more.

(** ** llm_client.py: the two clients *)

Module llm_generate_more.
Import llm_client llm_generate string_facts.

Lemma join_parts_app (a b : list json) :
  py_join_parts (a ++ b)
  = (x ← py_join_parts a; y ← py_join_parts b; Ok (x ++ y)).
Proof.
  induction a as [|v a IH]; simpl.
  - now destruct (py_join_parts b).
  - destruct v; try reflexivity. rewrite IH.
    destruct (py_join_parts a); simpl; [| reflexivity].
    now destruct (py_join_parts b).
Qed.

Lemma plain_block_part (block : json) :
  plain_block block = true ->
  exists parts,
    block_part block = Ok parts
    /\ py_join_parts (List.filter py_truthy parts)
       = Ok (List.filter truthy
               (match text_of_block block with Some s => [s] | None => [] end)).
Proof.
  destruct block as [| | | s | |b]; cbn [plain_block block_part text_of_block];
    try (intros _; eexists; split; [reflexivity |]; reflexivity).
  - intros _. eexists. split; [reflexivity |].
    cbn [List.filter py_truthy]. now destruct (truthy s).
  - destruct (b !! utf8 "type") as [[| | | t | |] |];
      try (intros _; exists []; split; [reflexivity |];
           now destruct (b !! utf8 "text") as [[| | | ? | |] |]).
    destruct (bool_decide (t = utf8 "text"));
      [| intros _; exists []; split; [reflexivity |];
         now destruct (b !! utf8 "text") as [[| | | ? | |] |]].
    destruct (b !! utf8 "text") as [v |]; cbn [default].
    + intros H. exists [v]. split; [reflexivity |].
      destruct v as [| | | s | |]; cbn [List.filter];
        try (apply negb_true_iff in H; now rewrite H).
      cbn [py_truthy]. now destruct (truthy s).
    + intros _. eexists. split; [reflexivity |]. reflexivity.
Qed.

Lemma plain_blocks_parts (blocks : list json) :
  forallb plain_block blocks = true ->
  exists parts,
    for_each block_part blocks = Ok parts
    /\ py_join_parts (List.filter py_truthy (concat parts))
       = Ok (List.filter truthy (omap text_of_block blocks)).
Proof.
  induction blocks as [|b blocks IH]; intros H.
  - exists []. split; reflexivity.
  - cbn [forallb] in H. apply andb_true_iff in H as [Hb Hbs].
    destruct (plain_block_part b Hb) as (ps & Hp & Hj).
    destruct (IH Hbs) as (parts & Hf & Hjs).
    exists (ps :: parts). split.
    + cbn [for_each]. now rewrite Hp, Hf.
    + cbn [concat]. rewrite List.filter_app, join_parts_app, Hj, Hjs.
      cbn [mbind result_bind]. f_equal.
      change (omap text_of_block (b :: blocks))
        with (match text_of_block b with
              | Some s => s :: omap text_of_block blocks
              | None => omap text_of_block blocks
              end).
      destruct (text_of_block b) as [s |]; [| reflexivity].
      cbn [List.filter]. now destruct (truthy s).
Qed.

Section Http.

Variable post : pystr -> json -> result json.
Variable post_with_headers :
  pystr -> gmap pystr pystr -> json -> result json.
Variable temperature : json.
Variable keys_in_order : gmap pystr json -> list pystr.

Abbreviation call :=
  (generate post post_with_headers temperature keys_in_order).

(** Whatever either client returns has no white space at its
    start or at its end. *)
Theorem generated_text_is_stripped (c : LLMClient) (prompt t : pystr) :
  call c prompt = Ok t -> strip t = t.
Proof.
  destruct c as [model base_url options | model api_key api_url];
    unfold generate, ollama_generate, claude_generate; cbv zeta.
  - destruct (post _ _) as [data | e]; cbn [mbind result_bind];
      [| discriminate].
    destruct (py_get data _ _) as [r | e]; cbn [mbind result_bind];
      [| discriminate].
    destruct r; try discriminate. cbn [py_strip].
    intros H. injection H as <-. apply strip_idempotent.
  - destruct (post_with_headers _ _ _) as [data | e];
      cbn [mbind result_bind]; [| discriminate].
    destruct (py_get data _ _) as [content | e]; cbn [mbind result_bind];
      [| discriminate].
    destruct (py_iter_ordered keys_in_order content) as [blocks | e];
      cbn [mbind result_bind]; [| discriminate].
    destruct (for_each block_part blocks) as [parts | e];
      cbn [mbind result_bind]; [| discriminate].
    destruct (py_join _ _) as [text | e]; cbn [mbind result_bind];
      [| discriminate].
    intros H. injection H as <-. apply strip_idempotent.
Qed.

(** When the answer of the Claude service holds a list of blocks
    under [content], the text returned is the non-empty texts of its text
    blocks and its bare strings, in order, joined by newlines and then
    stripped; blocks of other kinds add nothing. *)
Theorem claude_joins_text_blocks (model api_key api_url prompt : pystr)
    (d : gmap pystr json) (blocks : list json) :
  (forall url headers payload,
      post_with_headers url headers payload = Ok (JObj d)) ->
  d !! utf8 "content" = Some (JArr blocks) ->
  forallb plain_block blocks = true ->
  call (ClaudeClient model api_key api_url) prompt
  = Ok (strip (pdf_text_extractor.join [chr_newline]
                 (List.filter truthy (omap text_of_block blocks)))).
Proof.
  intros Hp Hc Hb. unfold generate, claude_generate. cbv zeta.
  rewrite Hp. cbn [mbind result_bind py_get]. rewrite Hc.
  cbn [mbind result_bind py_iter py_iter_ordered].
  destruct (plain_blocks_parts blocks Hb) as (parts & Hf & Hj).
  rewrite Hf. cbn [mbind result_bind]. unfold py_join. now rewrite Hj.
Qed.

End Http.

Lemma generated_text_is_stripped_witness :
  let post := fun (_ : pystr) (_ : json) =>
                Ok (dict [(utf8 "response", JStr (utf8 "  Data Engineer "))]) in
  let with_headers := fun (_ : pystr) (_ : gmap pystr pystr) (_ : json) =>
                        Raise (RequestException []) in
  let c := OllamaClient (utf8 "mistral") (utf8 "http://localhost:11434") ∅ in
  generate post with_headers JNull (fun _ => []) c (utf8 "Title?")
  = Ok (utf8 "Data Engineer")
  /\ strip (utf8 "Data Engineer") = utf8 "Data Engineer".
Proof.
  intros post with_headers c. split; [reflexivity |].
  apply (generated_text_is_stripped post with_headers JNull (fun _ => []) c
           (utf8 "Title?") (utf8 "Data Engineer")).
  reflexivity.
Defined.

Lemma claude_joins_text_blocks_witness :
  let blocks :=
    [dict [(utf8 "type", JStr (utf8 "text")); (utf8 "text", JStr (utf8 " one"))];
     dict [(utf8 "type", JStr (utf8 "tool_use"))];
     dict [(utf8 "type", JStr (utf8 "text")); (utf8 "text", JStr [])];
     JStr (utf8 "two ")] in
  let d : gmap pystr json := list_to_map [(utf8 "content", JArr blocks)] in
  let post := fun (_ : pystr) (_ : json) => Raise (RequestException []) in
  let with_headers := fun (_ : pystr) (_ : gmap pystr pystr) (_ : json) =>
                        Ok (JObj d) in
  generate post with_headers JNull (fun _ => [])
    (ClaudeClient (utf8 "claude") (utf8 "key") (utf8 "url")) (utf8 "Title?")
  = Ok (strip (pdf_text_extractor.join [chr_newline]
                 (List.filter truthy (omap text_of_block blocks)))).
Proof.
  intros blocks d post with_headers.
  apply (claude_joins_text_blocks post with_headers JNull (fun _ => [])
           (utf8 "claude")
           (utf8 "key") (utf8 "url") (utf8 "Title?") d blocks).
  - reflexivity.
  - vm_compute. reflexivity.
  - vm_compute. reflexivity.
Defined.

Example claude_joins_sample :
  let blocks :=
    [dict [(utf8 "type", JStr (utf8 "text")); (utf8 "text", JStr (utf8 " one"))];
     dict [(utf8 "type", JStr (utf8 "tool_use"))];
     dict [(utf8 "type", JStr (utf8 "text")); (utf8 "text", JStr [])];
     JStr (utf8 "two ")] in
  strip (pdf_text_extractor.join [chr_newline]
           (List.filter truthy (omap text_of_block blocks)))
  = utf8 "one" ++ [chr_newline] ++ utf8 "two".
Proof. vm_compute. reflexivity. Qed.

End llm_generate_more.
